(** * MyBible: the in-memory store of [server/storage.ts]

    A shallow embedding of [MemStorage] (the corpus loader, the keyed
    containers and the search heuristic of [searchVerses]) and the proofs
    of the properties its specification states.

    Conventions of the embedding.
    - A JavaScript string is the sequence of its UTF-16 code units; the
      model covers the code units below 256, which is what [string] holds.
    - A JavaScript number that the program uses as an integer (ids,
      chapters, verses, ordinals) is a [Z]; the loss of precision of
      doubles above 2^53 is outside the model.
    - A JavaScript [Map] is an association list in insertion order.
    - [async] methods complete immediately; a method is a function of the
      store, returning the new store when it writes. *)

From Stdlib Require Import ZArith List String Ascii Bool Lia.
From Stdlib Require Import Sorted Permutation.
From Stdlib Require Import DecimalString DecimalZ DecimalPos.
Import ListNotations.

Open Scope string_scope.
Open Scope Z_scope.

(* ================================================================== *)
(** ** Strings *)

Module JSString.

(** Character classes of the regular expression and of [trim]. *)
Definition code (c : ascii) : nat := nat_of_ascii c.

Definition isDigit (c : ascii) : bool :=
  (48 <=? code c)%nat && (code c <=? 57)%nat.

Definition isAlpha (c : ascii) : bool :=
  ((65 <=? code c)%nat && (code c <=? 90)%nat)
  || ((97 <=? code c)%nat && (code c <=? 122)%nat).

(** [\s] and the characters [trim] strips: TAB, LF, VT, FF, CR, SP and
    NBSP are the ones below 256. *)
Definition isSpace (c : ascii) : bool :=
  ((9 <=? code c)%nat && (code c <=? 13)%nat)
  || (code c =? 32)%nat || (code c =? 160)%nat.

(** [[1-3]] *)
Definition isOneToThree (c : ascii) : bool :=
  (49 <=? code c)%nat && (code c <=? 51)%nat.

(** [[a-zA-Z\s]] *)
Definition isAlphaOrSpace (c : ascii) : bool := isAlpha c || isSpace c.

(** [String.prototype.toLowerCase]: A-Z and the Latin-1 capitals
    (U+00C0..U+00DE but the multiplication sign U+00D7) move up by 32. *)
Definition lowerChar (c : ascii) : ascii :=
  let n := code c in
  if ((65 <=? n)%nat && (n <=? 90)%nat)
     || ((192 <=? n)%nat && (n <=? 222)%nat && negb (n =? 215)%nat)
  then ascii_of_nat (n + 32) else c.

Fixpoint toLowerCase (s : string) : string :=
  match s with
  | EmptyString => EmptyString
  | String c s' => String (lowerChar c) (toLowerCase s')
  end.

Definition isEmpty (s : string) : bool :=
  match s with EmptyString => true | String _ _ => false end.

Fixpoint trimStart (s : string) : string :=
  match s with
  | EmptyString => EmptyString
  | String c s' => if isSpace c then trimStart s' else s
  end.

Fixpoint trimEnd (s : string) : string :=
  match s with
  | EmptyString => EmptyString
  | String c s' =>
      let t := trimEnd s' in
      if isSpace c && isEmpty t then EmptyString else String c t
  end.

(** [String.prototype.trim] *)
Definition trim (s : string) : string := trimEnd (trimStart s).

(** [String.prototype.includes] *)
Fixpoint includes (s sub : string) : bool :=
  String.prefix sub s
  || match s with
     | EmptyString => false
     | String _ s' => includes s' sub
     end.

Fixpoint forallb (p : ascii -> bool) (s : string) : bool :=
  match s with
  | EmptyString => true
  | String c s' => p c && forallb p s'
  end.

(** The first [n] characters of [s]. *)
Fixpoint take (n : nat) (s : string) : string :=
  match n, s with
  | S n', String c s' => String c (take n' s')
  | _, _ => EmptyString
  end.

Definition digitValue (c : ascii) : Z := Z.of_nat (code c) - 48.

(** The value of the longest prefix of decimal digits, [None] when
    there is no digit to read. *)
Fixpoint readDigits (acc : option Z) (s : string) : option Z :=
  match s with
  | String c s' =>
      if isDigit c
      then readDigits
             (Some (10 * (match acc with Some a => a | None => 0 end)
                    + digitValue c)) s'
      else acc
  | EmptyString => acc
  end.

(** [parseInt(s, 10)]: leading white space is skipped, one sign is
    accepted, the digits are read up to the first other character;
    [None] is [NaN]. *)
Definition parseInt (s : string) : option Z :=
  match trimStart s with
  | String "-" s' => option_map Z.opp (readDigits None s')
  | String "+" s' => readDigits None s'
  | s' => readDigits None s'
  end.

(** [`${n}`] for an integer [n]. *)
Definition toString (n : Z) : string :=
  NilEmpty.string_of_int (Z.to_int n).

(** [x === y] where [y] may be [NaN]. *)
Definition numEq (x : Z) (y : option Z) : bool :=
  match y with Some n => x =? n | None => false end.

End JSString.

(* ================================================================== *)
(** ** Regular expressions

    The quantifiers of a backtracking matcher over one character class,
    in continuation-passing style: [k] is the rest of the pattern, applied
    to the rest of the input.  Each quantifier is greedy and gives a
    character back when the continuation fails. *)

Module Regex.
Import JSString.

Section Combinators.
Context {A : Type}.

(** [cls*] *)
Fixpoint star (cls : ascii -> bool) (k : string -> option A)
         (s : string) : option A :=
  match s with
  | String c s' =>
      if cls c
      then match star cls k s' with
           | Some r => Some r
           | None => k s
           end
      else k s
  | EmptyString => k s
  end.

(** [cls+] *)
Definition plus (cls : ascii -> bool) (k : string -> option A)
           (s : string) : option A :=
  match s with
  | String c s' => if cls c then star cls k s' else None
  | EmptyString => None
  end.

(** [cls?] *)
Definition opt (cls : ascii -> bool) (k : string -> option A)
           (s : string) : option A :=
  match s with
  | String c s' =>
      if cls c
      then match k s' with
           | Some r => Some r
           | None => k s
           end
      else k s
  | EmptyString => k s
  end.

(** a literal character *)
Definition char (ch : ascii) (k : string -> option A)
           (s : string) : option A :=
  match s with
  | String c s' => if Ascii.eqb c ch then k s' else None
  | EmptyString => None
  end.

(** [$] *)
Definition eos (r : A) (s : string) : option A :=
  match s with
  | EmptyString => Some r
  | String _ _ => None
  end.
End Combinators.

(** What a group captured: the input from where the group opened
    ([from]) to where it closed ([to], a suffix of [from]). *)
Definition captured (from to : string) : string :=
  take (String.length from - String.length to) from.

End Regex.

(* ================================================================== *)
(** ** [Map]: keyed entries in insertion order *)

Module JSMap.
Section Operations.
Context {K V : Type}.
Variable eqb : K -> K -> bool.

(** [m.set(k, v)]: an existing key keeps its place and takes the new
    value, a new key goes to the end. *)
Fixpoint set (k : K) (v : V) (m : list (K * V)) : list (K * V) :=
  match m with
  | [] => [(k, v)]
  | (k', v') :: m' =>
      if eqb k' k then (k', v) :: m' else (k', v') :: set k v m'
  end.

(** [m.get(k)], [None] for [undefined] *)
Fixpoint get (k : K) (m : list (K * V)) : option V :=
  match m with
  | [] => None
  | (k', v') :: m' => if eqb k' k then Some v' else get k m'
  end.

Definition has (k : K) (m : list (K * V)) : bool :=
  match get k m with Some _ => true | None => false end.

(** [m.delete(k)] *)
Fixpoint delete (k : K) (m : list (K * V)) : list (K * V) :=
  match m with
  | [] => []
  | (k', v') :: m' =>
      if eqb k' k then m' else (k', v') :: delete k m'
  end.

(** [Array.from(m.values())] *)
Definition values (m : list (K * V)) : list V := map snd m.

Definition keys (m : list (K * V)) : list K := map fst m.
End Operations.
End JSMap.

(* ================================================================== *)
(** ** Arrays *)

Module JSArray.
Section Sort.
Context {A : Type}.
Variable compareFn : A -> A -> Z.

Fixpoint insert (x : A) (l : list A) : list A :=
  match l with
  | [] => [x]
  | y :: l' =>
      if compareFn x y <=? 0 then x :: y :: l' else y :: insert x l'
  end.

(** [a.sort(compareFn)]: the sort is stable, so for a comparator that
    is a difference of keys the result is the one of a stable
    insertion. *)
Definition sort (l : list A) : list A := fold_right insert [] l.
End Sort.

(** [a.slice(0, n)] *)
Definition slice0 {A : Type} (n : nat) (l : list A) : list A := firstn n l.
End JSArray.

(* ================================================================== *)
(** ** The records of [shared/schema.ts] *)

Module BibleBook.
Record t : Type := mk
  { id : Z; name : string; testament : string; chapters : Z; order : Z }.
End BibleBook.

Module InsertBibleBook.
Record t : Type := mk
  { name : string; testament : string; chapters : Z; order : Z }.
End InsertBibleBook.

Module BibleVerse.
Record t : Type := mk
  { id : Z; book : string; chapter : Z; verse : Z; text : string }.
End BibleVerse.

Module InsertBibleVerse.
Record t : Type := mk
  { book : string; chapter : Z; verse : Z; text : string }.
End InsertBibleVerse.

Module Highlight.
Record t : Type := mk
  { id : Z; verseId : string; color : string; userId : string }.
End Highlight.

Module InsertHighlight.
Record t : Type := mk
  { verseId : string; color : string; userId : option string }.
End InsertHighlight.

Module Bookmark.
Record t : Type := mk { id : Z; verseId : string; userId : string }.
End Bookmark.

Module InsertBookmark.
Record t : Type := mk { verseId : string; userId : option string }.
End InsertBookmark.

(** An entry of [bibleData.verses]. *)
Module RawVerse.
Record t : Type := mk
  { book : Z; book_name : string; chapter : Z; verse : Z; text : string }.
End RawVerse.

(* ================================================================== *)
(** ** The verse-reference pattern *)

Import JSString.

(** [/^([1-3]?\s*[a-zA-Z\s]+)\s*(\d+):(\d+)$/], giving the three groups.
    [s1] .. [s7] are the rests of the input after each item of the
    pattern; the first group spans [s .. s3], the second [s4 .. s5], the
    third [s6 .. s7]. *)
Definition verseRefPattern (s : string) : option (string * string * string) :=
  Regex.opt isOneToThree (fun s1 =>
  Regex.star isSpace (fun s2 =>
  Regex.plus isAlphaOrSpace (fun s3 =>
  Regex.star isSpace (fun s4 =>
  Regex.plus isDigit (fun s5 =>
  Regex.char ":" (fun s6 =>
  Regex.plus isDigit (fun s7 =>
  Regex.eos (Regex.captured s s3,
             Regex.captured s4 s5,
             Regex.captured s6 s7) s7) s6) s5) s4) s3) s2) s1) s.


(* ================================================================== *)
(** ** [MemStorage] *)

Record MemStorage : Type := mkMemStorage
  { books : list (Z * BibleBook.t);
    verses : list (string * BibleVerse.t);
    highlightsList : list (Z * Highlight.t);
    bookmarksList : list (Z * Bookmark.t);
    currentBookId : Z;
    currentVerseId : Z;
    currentHighlightId : Z;
    currentBookmarkId : Z }.

(** The field initialisers of the class. *)
Definition emptyStorage : MemStorage :=
  {| books := []; verses := []; highlightsList := []; bookmarksList := [];
     currentBookId := 1; currentVerseId := 1;
     currentHighlightId := 1; currentBookmarkId := 1 |}.

(** [`${book}:${chapter}:${verse}`] *)
Definition verseKey (book : string) (chapter verse : Z) : string :=
  book ++ ":" ++ toString chapter ++ ":" ++ toString verse.

(** [this.books.set(newBook.id, newBook)] with [id: this.currentBookId++] *)
Definition registerBook (st : MemStorage) (newBook : BibleBook.t) : MemStorage :=
  {| books := JSMap.set Z.eqb (BibleBook.id newBook) newBook (books st);
     verses := verses st;
     highlightsList := highlightsList st;
     bookmarksList := bookmarksList st;
     currentBookId := currentBookId st + 1;
     currentVerseId := currentVerseId st;
     currentHighlightId := currentHighlightId st;
     currentBookmarkId := currentBookmarkId st |}.

(** [this.verses.set(key, newVerse)] with [id: this.currentVerseId++] *)
Definition registerVerse (st : MemStorage) (key : string)
           (newVerse : BibleVerse.t) : MemStorage :=
  {| books := books st;
     verses := JSMap.set String.eqb key newVerse (verses st);
     highlightsList := highlightsList st;
     bookmarksList := bookmarksList st;
     currentBookId := currentBookId st;
     currentVerseId := currentVerseId st + 1;
     currentHighlightId := currentHighlightId st;
     currentBookmarkId := currentBookmarkId st |}.

(** *** The loader *)

(** [initializeSampleData] *)
Definition booksData : list InsertBibleBook.t :=
  [ InsertBibleBook.mk "Genesis" "Old" 50 1;
    InsertBibleBook.mk "Matthew" "New" 28 40;
    InsertBibleBook.mk "John" "New" 21 43 ].

Definition sampleVerses : list InsertBibleVerse.t :=
  [ InsertBibleVerse.mk "Genesis" 1 1
      "In the beginning God created the heavens and the earth.";
    InsertBibleVerse.mk "Matthew" 5 3
      "Blessed are the poor in spirit, for theirs is the kingdom of heaven.";
    InsertBibleVerse.mk "John" 3 16
      "For God so loved the world that he gave his one and only Son, that whoever believes in him shall not perish but have eternal life." ].

Definition addSampleBook (st : MemStorage) (book : InsertBibleBook.t)
  : MemStorage :=
  registerBook st
    {| BibleBook.id := currentBookId st;
       BibleBook.name := InsertBibleBook.name book;
       BibleBook.testament := InsertBibleBook.testament book;
       BibleBook.chapters := InsertBibleBook.chapters book;
       BibleBook.order := InsertBibleBook.order book |}.

Definition addSampleVerse (st : MemStorage) (verse : InsertBibleVerse.t)
  : MemStorage :=
  registerVerse st
    (verseKey (InsertBibleVerse.book verse) (InsertBibleVerse.chapter verse)
       (InsertBibleVerse.verse verse))
    {| BibleVerse.id := currentVerseId st;
       BibleVerse.book := InsertBibleVerse.book verse;
       BibleVerse.chapter := InsertBibleVerse.chapter verse;
       BibleVerse.verse := InsertBibleVerse.verse verse;
       BibleVerse.text := InsertBibleVerse.text verse |}.

Definition initializeSampleData (st : MemStorage) : MemStorage :=
  fold_left addSampleVerse sampleVerses (fold_left addSampleBook booksData st).

(** The chapter count of a book: the largest chapter among the entries of
    that name, from 0. *)
Definition maxChapter (data : list RawVerse.t) (bookName : string) : Z :=
  fold_left (fun max v => Z.max max (RawVerse.chapter v))
    (filter (fun v => String.eqb (RawVerse.book_name v) bookName) data) 0.

(** The body of the [forEach] of [initializeBibleData]; [bookMap] is the
    local map of the books seen so far. *)
Definition loadEntry (data : list RawVerse.t)
           (acc : list (string * BibleBook.t) * MemStorage)
           (verse : RawVerse.t) : list (string * BibleBook.t) * MemStorage :=
  let '(bookMap, st) := acc in
  let bookName := RawVerse.book_name verse in
  let '(bookMap1, st1) :=
    if negb (JSMap.has String.eqb bookName bookMap) then
      let testament := if RawVerse.book verse <=? 39 then "Old" else "New" in
      let newBook :=
        {| BibleBook.id := currentBookId st;
           BibleBook.name := bookName;
           BibleBook.testament := testament;
           BibleBook.chapters := maxChapter data bookName;
           BibleBook.order := RawVerse.book verse |} in
      (JSMap.set String.eqb bookName newBook bookMap, registerBook st newBook)
    else (bookMap, st) in
  let newVerse :=
    {| BibleVerse.id := currentVerseId st1;
       BibleVerse.book := RawVerse.book_name verse;
       BibleVerse.chapter := RawVerse.chapter verse;
       BibleVerse.verse := RawVerse.verse verse;
       BibleVerse.text := RawVerse.text verse |} in
  let key := verseKey (RawVerse.book_name verse) (RawVerse.chapter verse)
               (RawVerse.verse verse) in
  (bookMap1, registerVerse st1 key newVerse).

Definition loadAll (data : list RawVerse.t) (st : MemStorage)
  : list (string * BibleBook.t) * MemStorage :=
  fold_left (loadEntry data) data ([], st).

(** [initializeBibleData].  The dataset is [None] when the [try] block
    throws: the file cannot be read or parsed, [bibleData.verses] is
    missing, or an entry is [null]; it is [Some data] for a parsed
    dataset whose entries carry the five fields with their types (entries
    of other types do not throw and are outside the model).  Whatever
    makes the [try] block throw does so before the first write to the
    store: reading and parsing come first, and a [null] entry anywhere
    makes the chapter scan of the first entry throw (or the first entry
    itself), before [currentBookId] is read.  So the fallback always
    starts from the store it was given. *)
Definition initializeBibleData (dataset : option (list RawVerse.t))
           (st : MemStorage) : MemStorage :=
  match dataset with
  | Some data => snd (loadAll data st)
  | None => initializeSampleData st
  end.

(** [new MemStorage()] *)
Definition newMemStorage (dataset : option (list RawVerse.t)) : MemStorage :=
  initializeBibleData dataset emptyStorage.

(** *** Books and verses *)

Definition getAllBooks (st : MemStorage) : list BibleBook.t :=
  JSArray.sort (fun a b => BibleBook.order a - BibleBook.order b)
    (JSMap.values (books st)).

Definition getBookByName (st : MemStorage) (name : string)
  : option BibleBook.t :=
  find (fun book => String.eqb (BibleBook.name book) name)
    (JSMap.values (books st)).

(** [chapter] is [None] when the argument is left out; [chapter && ...]
    also lets 0 through without filtering. *)
Definition chapterFilter (chapter : option Z) (verse : BibleVerse.t) : bool :=
  match chapter with
  | Some c =>
      if negb (c =? 0) && negb (BibleVerse.chapter verse =? c)
      then false else true
  | None => true
  end.

Definition getVersesByBook (st : MemStorage) (book : string)
           (chapter : option Z) : list BibleVerse.t :=
  let verses :=
    filter (fun verse =>
              if negb (String.eqb (BibleVerse.book verse) book) then false
              else chapterFilter chapter verse)
      (JSMap.values (verses st)) in
  JSArray.sort (fun a b => BibleVerse.verse a - BibleVerse.verse b) verses.

Definition getVerse (st : MemStorage) (book : string) (chapter verse : Z)
  : option BibleVerse.t :=
  let key := verseKey book chapter verse in
  JSMap.get String.eqb key (verses st).

(** *** [searchVerses] *)

(** The test of the [find] of the reference branch. *)
Definition referenceHit (cleanBookName : string) (chapter verse : option Z)
           (v : BibleVerse.t) : bool :=
  includes (toLowerCase (BibleVerse.book v)) cleanBookName
  && numEq (BibleVerse.chapter v) chapter
  && numEq (BibleVerse.verse v) verse.

Definition referenceBranch (st : MemStorage)
           (bookName chapterStr verseStr : string) : list BibleVerse.t :=
  let chapter := parseInt chapterStr in
  let verse := parseInt verseStr in
  let cleanBookName := toLowerCase (trim bookName) in
  match find (referenceHit cleanBookName chapter verse)
             (JSMap.values (verses st)) with
  | Some matchingVerse => [matchingVerse]
  | None => []
  end.

Definition bookNameHit (lowercaseQuery : string) (verse : BibleVerse.t) : bool :=
  includes (toLowerCase (BibleVerse.book verse)) lowercaseQuery.

Definition firstChapterOf (st : MemStorage) (bookName : string)
  : list BibleVerse.t :=
  JSArray.slice0 10
    (filter (fun verse =>
               String.eqb (BibleVerse.book verse) bookName
               && (BibleVerse.chapter verse =? 1))
       (JSMap.values (verses st))).

Definition textHit (lowercaseQuery : string) (verse : BibleVerse.t) : bool :=
  includes (toLowerCase (BibleVerse.text verse)) lowercaseQuery
  || includes (toLowerCase (BibleVerse.book verse)) lowercaseQuery.

Definition fullTextBranch (st : MemStorage) (lowercaseQuery : string)
  : list BibleVerse.t :=
  filter (textHit lowercaseQuery) (JSMap.values (verses st)).

Definition searchVerses (st : MemStorage) (query : string)
  : list BibleVerse.t :=
  let lowercaseQuery := trim (toLowerCase query) in
  match verseRefPattern lowercaseQuery with
  | Some (bookName, chapterStr, verseStr) =>
      referenceBranch st bookName chapterStr verseStr
  | None =>
      let bookNameMatch :=
        filter (bookNameHit lowercaseQuery) (JSMap.values (verses st)) in
      match bookNameMatch with
      | first :: _ =>
          if (2 <? String.length lowercaseQuery)%nat
          then firstChapterOf st (BibleVerse.book first)
          else fullTextBranch st lowercaseQuery
      | [] => fullTextBranch st lowercaseQuery
      end
  end.

(** *** Highlights and bookmarks *)

(** [userId = "default"] of a parameter list: only a missing argument
    takes the default. *)
Definition defaultArg (userId : option string) : string :=
  match userId with Some u => u | None => "default" end.

(** [x.userId || "default"]: a missing and an empty user id are both
    replaced. *)
Definition orDefault (userId : option string) : string :=
  match userId with
  | Some u => if isEmpty u then "default" else u
  | None => "default"
  end.

Definition getHighlights (st : MemStorage) (userId : option string)
  : list Highlight.t :=
  filter (fun highlight =>
            String.eqb (Highlight.userId highlight) (defaultArg userId))
    (JSMap.values (highlightsList st)).

Definition createHighlight (st : MemStorage) (highlight : InsertHighlight.t)
  : Highlight.t * MemStorage :=
  let newHighlight :=
    {| Highlight.id := currentHighlightId st;
       Highlight.verseId := InsertHighlight.verseId highlight;
       Highlight.color := InsertHighlight.color highlight;
       Highlight.userId := orDefault (InsertHighlight.userId highlight) |} in
  (newHighlight,
   {| books := books st;
      verses := verses st;
      highlightsList :=
        JSMap.set Z.eqb (Highlight.id newHighlight) newHighlight
          (highlightsList st);
      bookmarksList := bookmarksList st;
      currentBookId := currentBookId st;
      currentVerseId := currentVerseId st;
      currentHighlightId := currentHighlightId st + 1;
      currentBookmarkId := currentBookmarkId st |}).

Definition highlightHit (verseId userId : string) (h : Highlight.t) : bool :=
  String.eqb (Highlight.verseId h) verseId
  && String.eqb (Highlight.userId h) userId.

Definition deleteHighlight (st : MemStorage) (verseId : string)
           (userId : option string) : MemStorage :=
  match find (highlightHit verseId (defaultArg userId))
             (JSMap.values (highlightsList st)) with
  | Some highlight =>
      {| books := books st;
         verses := verses st;
         highlightsList :=
           JSMap.delete Z.eqb (Highlight.id highlight) (highlightsList st);
         bookmarksList := bookmarksList st;
         currentBookId := currentBookId st;
         currentVerseId := currentVerseId st;
         currentHighlightId := currentHighlightId st;
         currentBookmarkId := currentBookmarkId st |}
  | None => st
  end.

Definition getBookmarks (st : MemStorage) (userId : option string)
  : list Bookmark.t :=
  filter (fun bookmark =>
            String.eqb (Bookmark.userId bookmark) (defaultArg userId))
    (JSMap.values (bookmarksList st)).

Definition createBookmark (st : MemStorage) (bookmark : InsertBookmark.t)
  : Bookmark.t * MemStorage :=
  let newBookmark :=
    {| Bookmark.id := currentBookmarkId st;
       Bookmark.verseId := InsertBookmark.verseId bookmark;
       Bookmark.userId := orDefault (InsertBookmark.userId bookmark) |} in
  (newBookmark,
   {| books := books st;
      verses := verses st;
      highlightsList := highlightsList st;
      bookmarksList :=
        JSMap.set Z.eqb (Bookmark.id newBookmark) newBookmark
          (bookmarksList st);
      currentBookId := currentBookId st;
      currentVerseId := currentVerseId st;
      currentHighlightId := currentHighlightId st;
      currentBookmarkId := currentBookmarkId st + 1 |}).

Definition bookmarkHit (verseId userId : string) (b : Bookmark.t) : bool :=
  String.eqb (Bookmark.verseId b) verseId
  && String.eqb (Bookmark.userId b) userId.

Definition deleteBookmark (st : MemStorage) (verseId : string)
           (userId : option string) : MemStorage :=
  match find (bookmarkHit verseId (defaultArg userId))
             (JSMap.values (bookmarksList st)) with
  | Some bookmark =>
      {| books := books st;
         verses := verses st;
         highlightsList := highlightsList st;
         bookmarksList :=
           JSMap.delete Z.eqb (Bookmark.id bookmark) (bookmarksList st);
         currentBookId := currentBookId st;
         currentVerseId := currentVerseId st;
         currentHighlightId := currentHighlightId st;
         currentBookmarkId := currentBookmarkId st |}
  | None => st
  end.

(** *** The public interface [IStorage] as a transition system *)

Inductive Op : Type :=
| GetAllBooks
| GetBookByName (name : string)
| GetVersesByBook (book : string) (chapter : option Z)
| GetVerse (book : string) (chapter verse : Z)
| SearchVerses (query : string)
| GetHighlights (userId : option string)
| CreateHighlight (highlight : InsertHighlight.t)
| DeleteHighlight (verseId : string) (userId : option string)
| GetBookmarks (userId : option string)
| CreateBookmark (bookmark : InsertBookmark.t)
| DeleteBookmark (verseId : string) (userId : option string).

(** The store after a call; the read methods assign nothing. *)
Definition exec (st : MemStorage) (op : Op) : MemStorage :=
  match op with
  | CreateHighlight highlight => snd (createHighlight st highlight)
  | DeleteHighlight verseId userId => deleteHighlight st verseId userId
  | CreateBookmark bookmark => snd (createBookmark st bookmark)
  | DeleteBookmark verseId userId => deleteBookmark st verseId userId
  | GetAllBooks | GetBookByName _ | GetVersesByBook _ _ | GetVerse _ _ _
  | SearchVerses _ | GetHighlights _ | GetBookmarks _ => st
  end.

Definition run (ops : list Op) (st : MemStorage) : MemStorage :=
  fold_left exec ops st.

(** The stores a process can be in: the constructed one, then any calls. *)
Inductive reachable : MemStorage -> Prop :=
| reachable_new : forall dataset, reachable (newMemStorage dataset)
| reachable_exec : forall st op, reachable st -> reachable (exec st op).


(* ================================================================== *)
(** ** The verse route of [server/routes.ts]

    [GET /api/verses/:book/:chapter/:verse].  The path parameters are
    strings; the handler parses chapter and verse with [parseInt] without
    a radix and answers 404 when [getVerse] finds nothing.  [getVerse]
    does not throw, so the 500 of the [catch] is not an answer of this
    handler. *)

Definition isHexDigit (c : ascii) : bool :=
  isDigit c
  || ((65 <=? code c)%nat && (code c <=? 70)%nat)
  || ((97 <=? code c)%nat && (code c <=? 102)%nat).

Definition hexValue (c : ascii) : Z :=
  if isDigit c then Z.of_nat (code c) - 48
  else if (code c <=? 70)%nat then Z.of_nat (code c) - 55
  else Z.of_nat (code c) - 87.

Fixpoint readHexDigits (acc : option Z) (s : string) : option Z :=
  match s with
  | String c s' =>
      if isHexDigit c
      then readHexDigits
             (Some (16 * (match acc with Some a => a | None => 0 end)
                    + hexValue c)) s'
      else acc
  | EmptyString => acc
  end.

(** [parseInt(s)]: as [parseInt(s, 10)], but digits after a prefix [0x]
    or [0X] are read in base 16. *)
Definition parseIntAuto (s : string) : option Z :=
  let unsigned (r : string) : option Z :=
    match r with
    | String "0" (String "x" h) => readHexDigits None h
    | String "0" (String "X" h) => readHexDigits None h
    | _ => readDigits None r
    end in
  match trimStart s with
  | String "-" r => option_map Z.opp (unsigned r)
  | String "+" r => unsigned r
  | r => unsigned r
  end.

(** [`${n}`] for a number that may be [NaN]. *)
Definition numToString (n : option Z) : string :=
  match n with Some z => toString z | None => "NaN" end.

(** [getVerse] on numbers that may be [NaN]. *)
Definition getVerseNum (st : MemStorage) (book : string)
           (chapter verse : option Z) : option BibleVerse.t :=
  let key := book ++ ":" ++ numToString chapter ++ ":" ++ numToString verse in
  JSMap.get String.eqb key (verses st).

Inductive Json : Type :=
| JVerse (x : BibleVerse.t)
| JMessage (message : string).

(** The status and the body of the answer. *)
Definition verseRoute (st : MemStorage) (book chapter verse : string)
  : Z * Json :=
  match getVerseNum st book (parseIntAuto chapter) (parseIntAuto verse) with
  | None => (404, JMessage "Verse not found")
  | Some verseData => (200, JVerse verseData)
  end.

(* ================================================================== *)
(** ** The verse-reference shape, as the specification words it

    An optional numeral prefix 1-3, the book-name words, the chapter, a
    colon, the verse.  The words take every letter and blank up to the
    chapter, so the four parts of a string are determined by it. *)

Definition numeralPrefix (p : string) : bool :=
  match p with
  | EmptyString => true
  | String d EmptyString => isOneToThree d
  | String _ (String _ _) => false
  end.

Definition bookWords (w : string) : bool :=
  negb (isEmpty w) && JSString.forallb isAlphaOrSpace w.

Definition digits (d : string) : bool :=
  negb (isEmpty d) && JSString.forallb isDigit d.

Definition verseRefShape (s p w c v : string) : Prop :=
  s = p ++ w ++ c ++ ":" ++ v
  /\ numeralPrefix p = true /\ bookWords w = true
  /\ digits c = true /\ digits v = true.

(** The first character of [s], if any, is outside [cls]. *)
Definition stopsAt (cls : ascii -> bool) (s : string) : bool :=
  match s with
  | EmptyString => true
  | String c _ => negb (cls c)
  end.

(** What the reference branch is to answer for the book name
    [bookName], the chapter [chapter] and the verse [verse]. *)
Definition referredBy (bookName : string) (chapter verse : Z)
           (x : BibleVerse.t) : Prop :=
  includes (toLowerCase (BibleVerse.book x)) bookName = true
  /\ BibleVerse.chapter x = chapter /\ BibleVerse.verse x = verse.

(* ================================================================== *)
(** ** What holds of every store *)

(** Each entry of a map sits under the key computed from its value, and
    no key occurs twice. *)
Definition keyedBy {K V : Type} (f : V -> K) (m : list (K * V)) : Prop :=
  Forall (fun kv => fst kv = f (snd kv)) m /\ NoDup (JSMap.keys m).

(** The key a verse is stored under. *)
Definition tripleKey (x : BibleVerse.t) : string :=
  verseKey (BibleVerse.book x) (BibleVerse.chapter x) (BibleVerse.verse x).

Definition triple (x : BibleVerse.t) : string * Z * Z :=
  (BibleVerse.book x, BibleVerse.chapter x, BibleVerse.verse x).

Record invariant (st : MemStorage) : Prop := mkInvariant
  { inv_verses : keyedBy tripleKey (verses st);
    inv_books : keyedBy BibleBook.id (books st);
    inv_highlights : keyedBy Highlight.id (highlightsList st);
    inv_bookmarks : keyedBy Bookmark.id (bookmarksList st);
    inv_book_ids :
      Forall (fun k => k < currentBookId st) (JSMap.keys (books st));
    inv_highlight_ids :
      Forall (fun k => k < currentHighlightId st)
        (JSMap.keys (highlightsList st));
    inv_bookmark_ids :
      Forall (fun k => k < currentBookmarkId st)
        (JSMap.keys (bookmarksList st)) }.

Definition notColon (c : ascii) : bool := negb (Ascii.eqb c ":").

(** [after] is [before] without its first entry whose value passes [p]. *)
Definition removesFirst {V : Type} (p : V -> bool)
           (before after : list (Z * V)) : Prop :=
  exists l1 k x l2,
    before = (l1 ++ (k, x) :: l2)%list /\ p x = true
    /\ (forall y, In y (JSMap.values l1) -> p y = false)
    /\ after = (l1 ++ l2)%list.

(** The round trip of a highlight from the store [st]: created without a
    user id it is listed for "default"; after the delete no highlight of
    that verse id and user id is listed. *)
Definition highlightRoundTrip (st : MemStorage) : Prop :=
  let created :=
    createHighlight st (InsertHighlight.mk "John:3:16" "yellow" None) in
  In (fst created) (getHighlights (snd created) None)
  /\ Highlight.userId (fst created) = "default"
  /\ forall h,
       In h (getHighlights (deleteHighlight (snd created) "John:3:16" None)
               None) ->
       ~ (Highlight.verseId h = "John:3:16"
          /\ Highlight.userId h = "default").

(** Entries of one ordinal carry one book name. *)
Definition ordinalNamesBook (data : list RawVerse.t) : Prop :=
  forall e1 e2, In e1 data -> In e2 data ->
                RawVerse.book e1 = RawVerse.book e2 ->
                RawVerse.book_name e1 = RawVerse.book_name e2.

Definition testamentByOrder (bk : BibleBook.t) : Prop :=
  BibleBook.testament bk = "Old" <-> BibleBook.order bk <= 39.

(** A registered book comes from an entry of the dataset. *)
Definition fromEntry (data : list RawVerse.t) (bk : BibleBook.t) : Prop :=
  exists e, In e data
            /\ BibleBook.name bk = RawVerse.book_name e
            /\ BibleBook.order bk = RawVerse.book e
            /\ BibleBook.testament bk
               = (if RawVerse.book e <=? 39 then "Old" else "New").

(** What the loop of the loader keeps: the local map and the store hold
    the same books in the same order, each under its name in the local
    map. *)
Definition loading (data : list RawVerse.t)
           (acc : list (string * BibleBook.t) * MemStorage) : Prop :=
  invariant (snd acc)
  /\ JSMap.values (books (snd acc)) = JSMap.values (fst acc)
  /\ keyedBy BibleBook.name (fst acc)
  /\ Forall (fromEntry data) (JSMap.values (fst acc)).

(** No stored highlight or bookmark has the empty user id. *)
Definition userIdsSet (st : MemStorage) : Prop :=
  Forall (fun h => Highlight.userId h <> "") (JSMap.values (highlightsList st))
  /\ Forall (fun b => Bookmark.userId b <> "") (JSMap.values (bookmarksList st)).

(** The verse the loader builds from an entry, under the id [id]. *)
Definition verseOf (id : Z) (e : RawVerse.t) : BibleVerse.t :=
  {| BibleVerse.id := id;
     BibleVerse.book := RawVerse.book_name e;
     BibleVerse.chapter := RawVerse.chapter e;
     BibleVerse.verse := RawVerse.verse e;
     BibleVerse.text := RawVerse.text e |}.

Definition rawTriple (e : RawVerse.t) : string * Z * Z :=
  (RawVerse.book_name e, RawVerse.chapter e, RawVerse.verse e).

Definition rawKey (e : RawVerse.t) : string :=
  verseKey (RawVerse.book_name e) (RawVerse.chapter e) (RawVerse.verse e).

(** [x] is built from the last entry of its triple in [data], and its id
    is the position of that entry, counted from 1. *)
Definition lastOfTriple (data : list RawVerse.t) (x : BibleVerse.t) : Prop :=
  exists l1 e l2,
    data = (l1 ++ e :: l2)%list
    /\ (forall e', In e' l2 -> rawTriple e' <> rawTriple e)
    /\ x = verseOf (Z.of_nat (List.length l1) + 1) e.

(** The fields the loader gives the book of the entry [e]. *)
Definition bookFrom (data : list RawVerse.t) (e : RawVerse.t)
           (bk : BibleBook.t) : Prop :=
  BibleBook.name bk = RawVerse.book_name e
  /\ BibleBook.order bk = RawVerse.book e
  /\ BibleBook.testament bk
     = (if RawVerse.book e <=? 39 then "Old" else "New")
  /\ BibleBook.chapters bk = maxChapter data (RawVerse.book_name e).

(** [bk] is built from the first entry of its name among [pre]. *)
Definition firstOfName (data pre : list RawVerse.t) (bk : BibleBook.t) : Prop :=
  exists l1 e l2,
    pre = (l1 ++ e :: l2)%list
    /\ (forall e', In e' l1 -> RawVerse.book_name e' <> RawVerse.book_name e)
    /\ bookFrom data e bk.

(** What the loop has registered of the books after the entries [pre]. *)
Definition booksLoaded (data pre : list RawVerse.t)
           (acc : list (string * BibleBook.t) * MemStorage) : Prop :=
  loading data acc
  /\ (map BibleBook.id (JSMap.values (fst acc))
      = map Z.of_nat (seq 1 (List.length (fst acc)))
      /\ currentBookId (snd acc) = Z.of_nat (List.length (fst acc)) + 1)
  /\ (forall l1 e l2,
         pre = (l1 ++ e :: l2)%list ->
         (forall e', In e' l1 -> RawVerse.book_name e' <> RawVerse.book_name e) ->
         exists bk, JSMap.get String.eqb (RawVerse.book_name e) (fst acc) = Some bk
                    /\ bookFrom data e bk)
  /\ Forall (firstOfName data pre) (JSMap.values (fst acc)).

(** What the loop has stored of the verses after the entries [pre]. *)
Definition versesLoaded (data pre : list RawVerse.t)
           (acc : list (string * BibleBook.t) * MemStorage) : Prop :=
  loading data acc
  /\ currentVerseId (snd acc) = Z.of_nat (List.length pre) + 1
  /\ (forall l1 e l2,
         pre = (l1 ++ e :: l2)%list ->
         (forall e', In e' l2 -> rawKey e' <> rawKey e) ->
         JSMap.get String.eqb (rawKey e) (verses (snd acc))
         = Some (verseOf (Z.of_nat (List.length l1) + 1) e))
  /\ (forall k, (forall e, In e pre -> rawKey e <> k) ->
                JSMap.get String.eqb k (verses (snd acc)) = None).

(** A book name the reference pattern can read back: a letter or a
    numeral 1-3 first, then letters and blanks. *)
Definition referableBook (b : string) : bool :=
  match b with
  | EmptyString => false
  | String c r =>
      (isOneToThree c || isAlpha c) && JSString.forallb isAlphaOrSpace r
  end.

(** The reference of a verse as a reader writes it, "John 3:16". *)
Definition referenceOf (x : BibleVerse.t) : string :=
  BibleVerse.book x ++ " " ++ toString (BibleVerse.chapter x)
  ++ ":" ++ toString (BibleVerse.verse x).

(** The number a decimal numeral continues from [a]. *)
Fixpoint uintValue (a : Z) (d : Decimal.uint) : Z :=
  match d with
  | Decimal.Nil => a
  | Decimal.D0 d' => uintValue (10 * a + 0) d'
  | Decimal.D1 d' => uintValue (10 * a + 1) d'
  | Decimal.D2 d' => uintValue (10 * a + 2) d'
  | Decimal.D3 d' => uintValue (10 * a + 3) d'
  | Decimal.D4 d' => uintValue (10 * a + 4) d'
  | Decimal.D5 d' => uintValue (10 * a + 5) d'
  | Decimal.D6 d' => uintValue (10 * a + 6) d'
  | Decimal.D7 d' => uintValue (10 * a + 7) d'
  | Decimal.D8 d' => uintValue (10 * a + 8) d'
  | Decimal.D9 d' => uintValue (10 * a + 9) d'
  end.

(* ================================================================== *)
(** ** Facts about strings *)

Module StringFacts.

Lemma append_assoc (a b c : string) : (a ++ b) ++ c = a ++ (b ++ c).
Proof. induction a as [|x a IH]; simpl; [reflexivity | now rewrite IH]. Qed.

Lemma append_nil_r (a : string) : a ++ "" = a.
Proof. induction a as [|x a IH]; simpl; [reflexivity | now rewrite IH]. Qed.

Lemma length_append (a b : string) :
  String.length (a ++ b) = (String.length a + String.length b)%nat.
Proof. induction a as [|x a IH]; simpl; [reflexivity | now rewrite IH]. Qed.

Lemma take_append (a b : string) : take (String.length a) (a ++ b) = a.
Proof. induction a as [|x a IH]; simpl; [now destruct b | now rewrite IH]. Qed.

Lemma captured_append (a b : string) : Regex.captured (a ++ b) b = a.
Proof.
  unfold Regex.captured. rewrite length_append.
  replace (String.length a + String.length b - String.length b)%nat
    with (String.length a) by lia.
  apply take_append.
Qed.

Lemma forallb_append (p : ascii -> bool) (a b : string) :
  JSString.forallb p (a ++ b) = JSString.forallb p a && JSString.forallb p b.
Proof.
  induction a as [|x a IH]; simpl; [reflexivity|].
  now rewrite IH, andb_assoc.
Qed.

Lemma forallb_impl (p q : ascii -> bool) (a : string) :
  (forall c, p c = true -> q c = true) ->
  JSString.forallb p a = true -> JSString.forallb q a = true.
Proof.
  intros Hpq. induction a as [|x a IH]; simpl; [reflexivity|].
  intros H. apply andb_true_iff in H as [Hx Ha].
  now rewrite (Hpq _ Hx), (IH Ha).
Qed.

Lemma prefix_spec (a s : string) :
  String.prefix a s = true <-> exists b, s = a ++ b.
Proof.
  revert s. induction a as [|x a IH]; intros s.
  - split; [exists s; reflexivity | now destruct s].
  - destruct s as [|y s]; simpl.
    + split; [discriminate | intros [b Hb]; discriminate].
    + destruct (ascii_dec x y) as [->|Hxy].
      * rewrite IH. split; intros [b Hb]; exists b; [now subst | now inversion Hb].
      * split; [discriminate | intros [b Hb]; congruence].
Qed.

Lemma includes_unfold (s sub : string) :
  includes s sub =
  String.prefix sub s
  || match s with
     | EmptyString => false
     | String _ s' => includes s' sub
     end.
Proof. destruct s; reflexivity. Qed.

(** [includes] is containment as a substring. *)
Lemma includes_spec (s sub : string) :
  includes s sub = true <-> exists a b, s = a ++ sub ++ b.
Proof.
  induction s as [|x s IH]; rewrite includes_unfold.
  - rewrite orb_false_r, prefix_spec. split.
    + intros [b Hb]. exists "", b. exact Hb.
    + intros [a [b Hab]]. destruct a; [now exists b | discriminate].
  - rewrite orb_true_iff, IH, prefix_spec. split.
    + intros [[b Hb] | [a [b Hab]]].
      * exists "", b. exact Hb.
      * exists (String x a), b. simpl. now rewrite Hab.
    + intros [a [b Hab]]. destruct a as [|y a]; simpl in Hab.
      * left. now exists b.
      * right. inversion Hab. now exists a, b.
Qed.

(** A run of [cls] characters followed by a character outside [cls]
    can be read off a string in one way only. *)
Lemma split_unique (cls : ascii -> bool) (a a' r r' : string) :
  JSString.forallb cls a = true -> JSString.forallb cls a' = true ->
  stopsAt cls r = true -> stopsAt cls r' = true ->
  a ++ r = a' ++ r' -> a = a' /\ r = r'.
Proof.
  revert a'. induction a as [|x a IH]; intros [|y a'] Ha Ha' Hr Hr' E;
    simpl in *.
  - now split.
  - subst r. simpl in Hr. apply andb_true_iff in Ha' as [Hy _].
    rewrite Hy in Hr. discriminate.
  - subst r'. simpl in Hr'. apply andb_true_iff in Ha as [Hx _].
    rewrite Hx in Hr'. discriminate.
  - inversion E; subst.
    apply andb_true_iff in Ha as [_ Ha]. apply andb_true_iff in Ha' as [_ Ha'].
    destruct (IH a' Ha Ha' Hr Hr' H1) as [-> ->]. now split.
Qed.

(** The character classes are disjoint where the pattern needs it. *)
Lemma oneToThree_digit c : isOneToThree c = true -> isDigit c = true.
Proof.
  unfold isOneToThree, isDigit. intros H.
  apply andb_true_iff in H as [H1 H2].
  apply Nat.leb_le in H1, H2. apply andb_true_iff; split; apply Nat.leb_le; lia.
Qed.

Lemma alphaOrSpace_not_digit c : isAlphaOrSpace c = true -> isDigit c = false.
Proof.
  unfold isAlphaOrSpace, isAlpha, isSpace, isDigit. intros H.
  destruct (48 <=? code c)%nat eqn:E1; [|reflexivity].
  destruct (code c <=? 57)%nat eqn:E2; [|reflexivity].
  apply Nat.leb_le in E1, E2. exfalso.
  repeat (apply orb_true_iff in H as [H|H]);
    try (apply andb_true_iff in H as [Ha Hb]; apply Nat.leb_le in Ha, Hb; lia);
    apply Nat.eqb_eq in H; lia.
Qed.

Lemma space_alphaOrSpace c : isSpace c = true -> isAlphaOrSpace c = true.
Proof. unfold isAlphaOrSpace. intros ->. apply orb_true_r. Qed.

Lemma digit_not_space c : isDigit c = true -> isSpace c = false.
Proof.
  intros H. destruct (isSpace c) eqn:E; [|reflexivity].
  apply space_alphaOrSpace, alphaOrSpace_not_digit in E. congruence.
Qed.

Lemma colon_not_digit : isDigit ":" = false.
Proof. reflexivity. Qed.

End StringFacts.

(* ================================================================== *)
(** ** The matcher and the shape agree *)

Module RegexFacts.
Import StringFacts.

Section Quantifiers.
Context {A : Type}.
Variables (cls : ascii -> bool) (k : string -> option A).

(** When [cls*] fails, the continuation fails after every run. *)
Lemma star_none (s : string) :
  Regex.star cls k s = None ->
  forall x rest, s = x ++ rest -> JSString.forallb cls x = true ->
                 k rest = None.
Proof.
  induction s as [|c s IH]; intros H x rest E Hx.
  - destruct x; [simpl in E; subst rest; exact H | discriminate].
  - destruct x as [|c' x]; simpl in E.
    + subst rest. simpl in H.
      destruct (cls c); [|exact H].
      destruct (Regex.star cls k s); [discriminate | exact H].
    + inversion E; subst c' s. simpl in Hx, H.
      apply andb_true_iff in Hx as [Hc Hx]. rewrite Hc in H.
      destruct (Regex.star cls k (x ++ rest)) eqn:Es; [discriminate|].
      now apply (IH eq_refl x rest).
Qed.

(** [cls*] succeeds as soon as the continuation does after some run. *)
Lemma star_complete (x rest : string) :
  JSString.forallb cls x = true -> k rest <> None ->
  Regex.star cls k (x ++ rest) <> None.
Proof.
  intros Hx Hk Hnone. apply Hk. now apply (star_none _ Hnone x rest).
Qed.

(** A success of [cls*] is the success of the continuation after the
    longest run that lets it succeed. *)
Lemma star_sound (s : string) (r : A) :
  Regex.star cls k s = Some r ->
  exists x rest,
    s = x ++ rest /\ JSString.forallb cls x = true /\ k rest = Some r
    /\ (forall y rest', y <> "" -> rest = y ++ rest' ->
                        JSString.forallb cls y = true -> k rest' = None).
Proof.
  induction s as [|c s IH]; simpl; intros H.
  - exists "", "". repeat split; auto.
    intros [|c y] rest' Hy E _; [congruence | discriminate].
  - destruct (cls c) eqn:Hc.
    + destruct (Regex.star cls k s) eqn:Es.
      * inversion H; subst a.
        destruct (IH eq_refl) as (x & rest & E & Hx & Hk & Hmax).
        exists (String c x), rest. simpl. rewrite Hc, E. repeat split; auto.
      * exists "", (String c s). repeat split; auto.
        intros [|c' y] rest' Hy E Hcls; [congruence|].
        simpl in E. inversion E; subst c' s. simpl in Hcls.
        apply andb_true_iff in Hcls as [_ Hcls].
        now apply (star_none _ Es y rest').
    + exists "", (String c s). repeat split; auto.
      intros [|c' y] rest' Hy E Hcls; [congruence|].
      simpl in E. inversion E; subst c'. simpl in Hcls.
      rewrite Hc in Hcls. discriminate.
Qed.

Lemma plus_complete (c : ascii) (x rest : string) :
  cls c = true -> JSString.forallb cls x = true -> k rest <> None ->
  Regex.plus cls k (String c x ++ rest) <> None.
Proof.
  intros Hc Hx Hk. simpl. rewrite Hc. now apply star_complete.
Qed.

Lemma plus_sound (s : string) (r : A) :
  Regex.plus cls k s = Some r ->
  exists x rest,
    s = x ++ rest /\ x <> "" /\ JSString.forallb cls x = true
    /\ k rest = Some r
    /\ (forall y rest', y <> "" -> rest = y ++ rest' ->
                        JSString.forallb cls y = true -> k rest' = None).
Proof.
  destruct s as [|c s]; simpl; [discriminate|].
  destruct (cls c) eqn:Hc; [|discriminate]. intros H.
  destruct (star_sound _ _ H) as (x & rest & E & Hx & Hk & Hmax).
  exists (String c x), rest. simpl. rewrite Hc, E.
  repeat split; auto. discriminate.
Qed.

Lemma opt_skip (s : string) : k s <> None -> Regex.opt cls k s <> None.
Proof.
  intros Hk. destruct s as [|c s]; simpl; [exact Hk|].
  destruct (cls c); [|exact Hk]. destruct (k s); [discriminate | exact Hk].
Qed.

Lemma opt_take (c : ascii) (s : string) :
  cls c = true -> k s <> None -> Regex.opt cls k (String c s) <> None.
Proof.
  intros Hc Hk. simpl. rewrite Hc. destruct (k s); [discriminate | congruence].
Qed.

Lemma opt_sound (s : string) (r : A) :
  Regex.opt cls k s = Some r ->
  k s = Some r
  \/ exists c rest, s = String c rest /\ cls c = true /\ k rest = Some r.
Proof.
  destruct s as [|c s]; simpl; [now left|].
  destruct (cls c) eqn:Hc; [|now left].
  destruct (k s) eqn:Hk; [|now left].
  intros H. right. exists c, s. now rewrite <- H.
Qed.

Lemma char_sound (ch : ascii) (s : string) (r : A) :
  Regex.char ch k s = Some r ->
  exists rest, s = String ch rest /\ k rest = Some r.
Proof.
  destruct s as [|c s]; simpl; [discriminate|].
  destruct (Ascii.eqb_spec c ch) as [->|]; [|discriminate].
  intros H. now exists s.
Qed.
End Quantifiers.

Lemma eos_sound {A : Type} (r r' : A) (s : string) :
  Regex.eos r s = Some r' -> s = "" /\ r' = r.
Proof. destruct s; simpl; [|discriminate]. intros H. now inversion H. Qed.

End RegexFacts.

Module PatternFacts.
Import StringFacts RegexFacts.

Lemma digits_inv (d : string) :
  digits d = true ->
  exists c d', d = String c d' /\ isDigit c = true
               /\ JSString.forallb isDigit d' = true.
Proof.
  unfold digits. destruct d as [|c d']; simpl; [discriminate|].
  intros H. apply andb_true_iff in H as [Hc Hd]. now exists c, d'.
Qed.

Lemma digits_intro (d : string) :
  d <> "" -> JSString.forallb isDigit d = true -> digits d = true.
Proof. unfold digits. destruct d; [congruence | simpl; auto]. Qed.

(** The pattern from the chapter on: [(\d+):(\d+)$]. *)
Lemma chapterVerse_sound (b s4 : string) (r : string * string * string) :
  Regex.plus isDigit (fun s5 =>
    Regex.char ":" (fun s6 =>
      Regex.plus isDigit (fun s7 =>
        Regex.eos (b, Regex.captured s4 s5, Regex.captured s6 s7) s7) s6) s5)
    s4 = Some r ->
  exists c v, s4 = c ++ ":" ++ v /\ digits c = true /\ digits v = true
              /\ r = (b, c, v).
Proof.
  intros H.
  apply plus_sound in H as (c & s5 & E4 & Hc0 & Hc & H & _).
  apply char_sound in H as (s6 & E5 & H).
  apply plus_sound in H as (v & s7 & E6 & Hv0 & Hv & H & _).
  apply eos_sound in H as [E7 ->]. subst s7 s5 s4.
  rewrite append_nil_r in E6. subst s6.
  exists c, v. repeat split; auto using digits_intro.
  rewrite captured_append.
  replace (Regex.captured v "") with (Regex.captured (v ++ "") "")
    by now rewrite append_nil_r.
  now rewrite captured_append.
Qed.

Lemma chapterVerse_complete (b c v : string) :
  digits c = true -> digits v = true ->
  Regex.plus isDigit (fun s5 =>
    Regex.char ":" (fun s6 =>
      Regex.plus isDigit (fun s7 =>
        Regex.eos (b, Regex.captured (c ++ ":" ++ v) s5,
                   Regex.captured s6 s7) s7) s6) s5)
    (c ++ ":" ++ v) <> None.
Proof.
  intros Hc Hv.
  apply digits_inv in Hc as (c0 & c' & -> & Hc0 & Hc').
  apply digits_inv in Hv as (v0 & v' & -> & Hv0 & Hv').
  apply plus_complete; auto. simpl Regex.char. rewrite Hv0.
  match goal with
  | |- Regex.star _ ?K _ <> None =>
      pose proof (star_complete isDigit K v' "" Hv') as HS
  end.
  rewrite append_nil_r in HS. apply HS. simpl. discriminate.
Qed.

(** The pattern after the numeral prefix; [s0] is where the first group
    opened. *)
Lemma words_sound (s0 s1 : string) (r : string * string * string) :
  Regex.star isSpace (fun s2 =>
    Regex.plus isAlphaOrSpace (fun s3 =>
      Regex.star isSpace (fun s4 =>
        Regex.plus isDigit (fun s5 =>
          Regex.char ":" (fun s6 =>
            Regex.plus isDigit (fun s7 =>
              Regex.eos (Regex.captured s0 s3, Regex.captured s4 s5,
                         Regex.captured s6 s7) s7) s6) s5) s4) s3) s2)
    s1 = Some r ->
  exists w c v,
    s1 = w ++ c ++ ":" ++ v /\ bookWords w = true
    /\ digits c = true /\ digits v = true
    /\ r = (Regex.captured s0 (c ++ ":" ++ v), c, v).
Proof.
  intros H.
  apply star_sound in H as (x1 & s2 & E1 & Hx1 & H & _).
  apply plus_sound in H as (x2 & s3 & E2 & Hx20 & Hx2 & H & Hmax).
  pose proof H as Hgreedy.
  apply star_sound in H as (x3 & s4 & E3 & Hx3 & H & _).
  assert (x3 = "") as ->.
  { destruct x3 as [|c3 x3]; [reflexivity | exfalso].
    assert (Hnone := Hmax (String c3 x3) s4 ltac:(discriminate) E3
                       (forallb_impl _ _ _ space_alphaOrSpace Hx3)).
    cbv beta in Hnone.
    pose proof (star_none _ _ _ Hnone "" s4 eq_refl eq_refl) as Hnone'.
    cbv beta in Hnone'.
    apply chapterVerse_sound in H as (c & v & E & Hc & Hv & _). subst s4.
    now apply (chapterVerse_complete _ c v Hc Hv) in Hnone'. }
  simpl in E3. subst s4.
  apply chapterVerse_sound in H as (c & v & E & Hc & Hv & ->).
  exists (x1 ++ x2), c, v. subst s1 s2 s3.
  rewrite append_assoc. repeat split; auto.
  unfold bookWords. rewrite forallb_append, Hx2.
  rewrite (forallb_impl _ _ _ space_alphaOrSpace Hx1).
  destruct x1; destruct x2; simpl; congruence.
Qed.

Lemma words_complete (s0 w c v : string) :
  bookWords w = true -> digits c = true -> digits v = true ->
  Regex.star isSpace (fun s2 =>
    Regex.plus isAlphaOrSpace (fun s3 =>
      Regex.star isSpace (fun s4 =>
        Regex.plus isDigit (fun s5 =>
          Regex.char ":" (fun s6 =>
            Regex.plus isDigit (fun s7 =>
              Regex.eos (Regex.captured s0 s3, Regex.captured s4 s5,
                         Regex.captured s6 s7) s7) s6) s5) s4) s3) s2)
    (w ++ c ++ ":" ++ v) <> None.
Proof.
  intros Hw Hc Hv. unfold bookWords in Hw.
  destruct w as [|w0 w']; [discriminate|]. simpl in Hw.
  apply andb_true_iff in Hw as [Hw0 Hw'].
  apply (star_complete _ _ "" (String w0 w' ++ c ++ ":" ++ v) eq_refl).
  apply plus_complete; auto.
  apply (star_complete _ _ "" (c ++ ":" ++ v) eq_refl).
  now apply chapterVerse_complete.
Qed.

(** The pattern accepts the strings of the shape, and none else. *)
Theorem verseRefPattern_sound (s b c v : string) :
  verseRefPattern s = Some (b, c, v) ->
  exists p w, b = p ++ w /\ verseRefShape s p w c v.
Proof.
  unfold verseRefPattern. intros H.
  apply opt_sound in H as [H | (d & s1 & E & Hd & H)].
  - apply words_sound in H as (w & c' & v' & E & Hw & Hc & Hv & R).
    inversion R; subst c' v'. exists "", w. split.
    + rewrite E at 1. simpl.
      replace (w ++ c ++ ":" ++ v) with (w ++ (c ++ ":" ++ v)) by reflexivity.
      apply captured_append.
    + now repeat split.
  - apply words_sound in H as (w & c' & v' & E' & Hw & Hc & Hv & R).
    inversion R; subst c' v'. exists (String d ""), w. split.
    + rewrite E, E'.
      change (String d (w ++ c ++ ":" ++ v))
        with ((String d "" ++ w) ++ (c ++ ":" ++ v)).
      apply captured_append.
    + repeat split; auto. now rewrite E, E'.
Qed.

Lemma verseRefPattern_accepts (s p w c v : string) :
  verseRefShape s p w c v -> verseRefPattern s <> None.
Proof.
  intros (E & Hp & Hw & Hc & Hv). subst s. unfold verseRefPattern.
  destruct p as [|d [|d' p']]; try discriminate; simpl in Hp.
  - simpl append at 1. apply opt_skip. now apply words_complete.
  - simpl append at 1. apply opt_take; auto. now apply words_complete.
Qed.

(** The parts of a string of the shape are determined by the string. *)
Lemma verseRefShape_unique (s p w c v p' w' c' v' : string) :
  verseRefShape s p w c v -> verseRefShape s p' w' c' v' ->
  p ++ w = p' ++ w' /\ c = c' /\ v = v'.
Proof.
  intros (E & Hp & Hw & Hc & Hv) (E' & Hp' & Hw' & Hc' & Hv').
  assert (Hnd : forall x, bookWords x = true ->
                JSString.forallb (fun a => negb (isDigit a)) x = true).
  { intros x Hx. unfold bookWords in Hx. apply andb_true_iff in Hx as [_ Hx].
    revert Hx. apply forallb_impl. intros a Ha.
    now rewrite (alphaOrSpace_not_digit _ Ha). }
  assert (Hstop : forall x y, digits x = true ->
                  stopsAt (fun a => negb (isDigit a)) (x ++ ":" ++ y) = true).
  { intros x y Hx. apply digits_inv in Hx as (a & x' & -> & Ha & _).
    simpl. now rewrite Ha. }
  assert (Hfirst : forall x, bookWords x = true ->
                   exists a z, x = String a z /\ isDigit a = false).
  { intros x Hx. unfold bookWords in Hx. destruct x as [|a x]; [discriminate|].
    simpl in Hx. apply andb_true_iff in Hx as [Ha _].
    exists a, x. split; [reflexivity | now apply alphaOrSpace_not_digit]. }
  assert (Hwt : w ++ (c ++ ":" ++ v) = w' ++ (c' ++ ":" ++ v') ->
                w = w' /\ c = c' /\ v = v').
  { intros Ew.
    destruct (split_unique _ _ _ _ _ (Hnd _ Hw) (Hnd _ Hw')
                (Hstop _ v Hc) (Hstop _ v' Hc') Ew) as [-> Et].
    unfold digits in Hc, Hc'.
    apply andb_true_iff in Hc as [_ Hc]. apply andb_true_iff in Hc' as [_ Hc'].
    destruct (split_unique isDigit c c' (":" ++ v) (":" ++ v') Hc Hc'
                eq_refl eq_refl Et) as [-> Ev].
    inversion Ev. now repeat split. }
  rewrite E in E'. clear E.
  destruct p as [|d [|? ?]]; try discriminate;
    destruct p' as [|d' [|? ?]]; try discriminate; simpl in *.
  - destruct (Hwt E') as (-> & -> & ->). now repeat split.
  - destruct (Hfirst w Hw) as (a & z & -> & Hda).
    simpl in E'. inversion E'; subst a.
    rewrite (oneToThree_digit _ Hp') in Hda. discriminate.
  - destruct (Hfirst w' Hw') as (a & z & -> & Hda).
    simpl in E'. inversion E'; subst a.
    rewrite (oneToThree_digit _ Hp) in Hda. discriminate.
  - inversion E' as [[Ed Ew]]. destruct (Hwt Ew) as (-> & -> & ->).
    now repeat split.
Qed.

(** On a string of the shape the groups are the prefix with the words,
    the chapter and the verse. *)
Theorem verseRefPattern_complete (s p w c v : string) :
  verseRefShape s p w c v -> verseRefPattern s = Some (p ++ w, c, v).
Proof.
  intros Hs. pose proof (verseRefPattern_accepts _ _ _ _ _ Hs) as Hacc.
  destruct (verseRefPattern s) as [[[b c'] v']|] eqn:Hm; [|congruence].
  destruct (verseRefPattern_sound _ _ _ _ Hm) as (p' & w' & -> & Hs').
  destruct (verseRefShape_unique _ _ _ _ _ _ _ _ _ Hs Hs') as (-> & -> & ->).
  reflexivity.
Qed.

End PatternFacts.

(** The pattern and the search on the fallback sample data. *)
Module Examples.

Example pattern_john :
  verseRefPattern "john 3:16" = Some ("john ", "3", "16").
Proof. reflexivity. Qed.

Example pattern_numeral_prefix :
  verseRefPattern "1 corinthians 13:4" = Some ("1 corinthians ", "13", "4").
Proof. reflexivity. Qed.

Example pattern_blank_words : verseRefPattern "1 2:3" = Some ("1 ", "2", "3").
Proof. reflexivity. Qed.

Example pattern_no_words : verseRefPattern "12:3" = None.
Proof. reflexivity. Qed.

Example pattern_prefix_four : verseRefPattern "4 john 3:16" = None.
Proof. reflexivity. Qed.

Example pattern_book_only : verseRefPattern "genesis" = None.
Proof. reflexivity. Qed.

Example search_reference :
  map BibleVerse.id (searchVerses (newMemStorage None) " John 3:16") = [3].
Proof. reflexivity. Qed.

Example search_reference_absent :
  searchVerses (newMemStorage None) "john 3:17" = [].
Proof. reflexivity. Qed.

Example search_book_name :
  map BibleVerse.id (searchVerses (newMemStorage None) "GENESIS") = [1].
Proof. reflexivity. Qed.

Example search_book_without_first_chapter :
  searchVerses (newMemStorage None) "john" = [].
Proof. reflexivity. Qed.

Example search_text :
  map BibleVerse.id (searchVerses (newMemStorage None) "god") = [1; 3].
Proof. reflexivity. Qed.

Example search_short_query :
  map BibleVerse.id (searchVerses (newMemStorage None) "jo") = [3].
Proof. reflexivity. Qed.

Example key_sample : verseKey "John" 3 16 = "John:3:16".
Proof. reflexivity. Qed.

End Examples.

Module ParseFacts.
Import StringFacts PatternFacts.

Lemma digitValue_nonneg c : isDigit c = true -> 0 <= digitValue c.
Proof.
  unfold isDigit, digitValue. intros H. apply andb_true_iff in H as [H _].
  apply Nat.leb_le in H. lia.
Qed.

Lemma readDigits_some (s : string) (a : Z) :
  0 <= a -> exists n, readDigits (Some a) s = Some n /\ 0 <= n.
Proof.
  revert a. induction s as [|c s IH]; intros a Ha; cbn [readDigits].
  - now exists a.
  - destruct (isDigit c) eqn:Hc; [|now exists a].
    apply IH. pose proof (digitValue_nonneg _ Hc). lia.
Qed.

Lemma digit_not_sign c :
  isDigit c = true -> c <> "-"%char /\ c <> "+"%char.
Proof. intros H; split; intros ->; discriminate. Qed.

Lemma parseInt_digit_first (c : ascii) (s : string) :
  isDigit c = true -> parseInt (String c s) = readDigits None (String c s).
Proof.
  intros Hc. unfold parseInt. simpl trimStart.
  rewrite (digit_not_space _ Hc).
  destruct (digit_not_sign _ Hc) as [Hm Hp].
  destruct c as [[] [] [] [] [] [] [] []]; try reflexivity; congruence.
Qed.

(** [parseInt] of a captured chapter or verse is a number, not [NaN]. *)
Lemma parseInt_digits (d : string) :
  digits d = true -> exists n, parseInt d = Some n /\ 0 <= n.
Proof.
  intros H. apply digits_inv in H as (c & d' & -> & Hc & _).
  rewrite (parseInt_digit_first _ _ Hc). cbn [readDigits]. rewrite Hc.
  apply readDigits_some. pose proof (digitValue_nonneg _ Hc). lia.
Qed.

End ParseFacts.

(* ================================================================== *)
(** ** [searchVerses] *)

Module SearchFacts.
Import StringFacts PatternFacts ParseFacts.

Lemma verseRefPattern_none_iff (s : string) :
  verseRefPattern s = None <-> forall p w c v, ~ verseRefShape s p w c v.
Proof.
  split.
  - intros H p w c v Hs. apply verseRefPattern_complete in Hs. congruence.
  - intros H. destruct (verseRefPattern s) as [[[b c] v]|] eqn:Hm; [|reflexivity].
    destruct (verseRefPattern_sound _ _ _ _ Hm) as (p & w & _ & Hs).
    now destruct (H p w c v).
Qed.

Lemma referenceHit_spec (bookName : string) (chapter verse : Z)
      (x : BibleVerse.t) :
  referenceHit bookName (Some chapter) (Some verse) x = true
  <-> referredBy bookName chapter verse x.
Proof.
  unfold referenceHit, referredBy, numEq.
  rewrite !andb_true_iff, !Z.eqb_eq. tauto.
Qed.

Lemma searchVerses_reference_eq (st : MemStorage) (query p w c v : string) :
  verseRefShape (trim (toLowerCase query)) p w c v ->
  searchVerses st query = referenceBranch st (p ++ w) c v.
Proof.
  intros Hs. unfold searchVerses.
  now rewrite (verseRefPattern_complete _ _ _ _ _ Hs).
Qed.

Lemma searchVerses_no_reference (st : MemStorage) (query : string) :
  verseRefPattern (trim (toLowerCase query)) = None ->
  searchVerses st query =
  match filter (bookNameHit (trim (toLowerCase query)))
               (JSMap.values (verses st)) with
  | first :: _ =>
      if (2 <? String.length (trim (toLowerCase query)))%nat
      then firstChapterOf st (BibleVerse.book first)
      else fullTextBranch st (trim (toLowerCase query))
  | [] => fullTextBranch st (trim (toLowerCase query))
  end.
Proof. intros H. unfold searchVerses. now rewrite H. Qed.

(** The head of a [filter] is what [find] finds. *)
Lemma filter_head {A : Type} (f : A -> bool) (l : list A) :
  find f l = hd_error (filter f l).
Proof.
  induction l as [|a l IH]; simpl; [reflexivity|].
  destruct (f a); [reflexivity | exact IH].
Qed.

Lemma firstn_filter_length {A : Type} (n : nat) (l : list A) :
  (List.length (firstn n l) <= n)%nat.
Proof. rewrite length_firstn. lia. Qed.

Lemma In_firstn {A : Type} (n : nat) (l : list A) (x : A) :
  In x (firstn n l) -> In x l.
Proof.
  intros H. rewrite <- (firstn_skipn n l). apply in_or_app. now left.
Qed.

End SearchFacts.

Import SearchFacts.

(** C1. A query whose normalized form has the verse-reference shape is
    answered by the reference branch alone: the chapter and the verse
    parse to numbers, and the answer is one stored verse whose lower-cased
    book contains the extracted book name and whose chapter and verse are
    those numbers, or the empty list when the store has no such verse. *)
Theorem C1_searchVerses_reference (st : MemStorage) (query p w c v : string) :
  verseRefShape (trim (toLowerCase query)) p w c v ->
  exists chapter verse,
    parseInt c = Some chapter /\ parseInt v = Some verse
    /\ searchVerses st query = referenceBranch st (p ++ w) c v
    /\ ((exists x, searchVerses st query = [x]
                   /\ In x (JSMap.values (verses st))
                   /\ referredBy (toLowerCase (trim (p ++ w))) chapter verse x)
        \/ (searchVerses st query = []
            /\ forall x, In x (JSMap.values (verses st)) ->
                         ~ referredBy (toLowerCase (trim (p ++ w)))
                             chapter verse x)).
Proof.
  intros Hs. pose proof Hs as (_ & _ & _ & Hc & Hv).
  destruct (ParseFacts.parseInt_digits _ Hc) as (chapter & Pc & _).
  destruct (ParseFacts.parseInt_digits _ Hv) as (verse & Pv & _).
  exists chapter, verse. split; [exact Pc|]. split; [exact Pv|].
  rewrite (searchVerses_reference_eq st _ _ _ _ _ Hs). split; [reflexivity|].
  unfold referenceBranch. rewrite Pc, Pv.
  destruct (find _ _) as [x|] eqn:Hfind.
  - left. exists x. apply find_some in Hfind as [Hin Hhit].
    apply referenceHit_spec in Hhit. auto.
  - right. split; [reflexivity|]. intros x Hin Hx.
    apply referenceHit_spec in Hx.
    pose proof (find_none _ _ Hfind x Hin) as Hn. congruence.
Qed.

Lemma C1_searchVerses_reference_witness :
  verseRefShape (trim (toLowerCase "  John 3:16 ")) "" "john " "3" "16"
  /\ exists chapter verse,
      parseInt "3" = Some chapter /\ parseInt "16" = Some verse
      /\ searchVerses (newMemStorage None) "  John 3:16 "
         = referenceBranch (newMemStorage None) ("" ++ "john ") "3" "16"
      /\ ((exists x, searchVerses (newMemStorage None) "  John 3:16 " = [x]
                     /\ In x (JSMap.values (verses (newMemStorage None)))
                     /\ referredBy (toLowerCase (trim ("" ++ "john ")))
                          chapter verse x)
          \/ (searchVerses (newMemStorage None) "  John 3:16 " = []
              /\ forall x, In x (JSMap.values (verses (newMemStorage None))) ->
                           ~ referredBy (toLowerCase (trim ("" ++ "john ")))
                               chapter verse x)).
Proof.
  split.
  - repeat split; reflexivity.
  - apply (C1_searchVerses_reference (newMemStorage None) "  John 3:16 "
             "" "john " "3" "16").
    repeat split; reflexivity.
Defined.

(** C2. A query that is no verse reference, longer than two characters
    once normalized, and contained in the lower-cased book of some stored
    verse, is answered with the first ten, in storage order, of the verses
    of chapter 1 of the book of the first such verse. *)
Theorem C2_searchVerses_bookName (st : MemStorage) (query : string) :
  verseRefPattern (trim (toLowerCase query)) = None ->
  (exists x, In x (JSMap.values (verses st))
             /\ includes (toLowerCase (BibleVerse.book x))
                  (trim (toLowerCase query)) = true) ->
  (2 < String.length (trim (toLowerCase query)))%nat ->
  exists first,
    find (bookNameHit (trim (toLowerCase query))) (JSMap.values (verses st))
    = Some first
    /\ searchVerses st query
       = firstn 10
           (filter (fun x => String.eqb (BibleVerse.book x) (BibleVerse.book first)
                             && (BibleVerse.chapter x =? 1))
              (JSMap.values (verses st)))
    /\ (List.length (searchVerses st query) <= 10)%nat
    /\ Forall (fun x => In x (JSMap.values (verses st))
                        /\ BibleVerse.book x = BibleVerse.book first
                        /\ BibleVerse.chapter x = 1)
         (searchVerses st query).
Proof.
  intros Hnone (x & Hin & Hx) Hlen.
  rewrite (searchVerses_no_reference _ _ Hnone).
  assert (Hf : In x (filter (bookNameHit (trim (toLowerCase query)))
                       (JSMap.values (verses st)))).
  { apply filter_In. now split. }
  rewrite filter_head.
  destruct (filter (bookNameHit _) _) as [|first rest]; [contradiction|].
  apply Nat.ltb_lt in Hlen. rewrite Hlen.
  exists first. split; [reflexivity|]. split; [reflexivity|].
  unfold firstChapterOf, JSArray.slice0. split.
  - apply firstn_filter_length.
  - apply Forall_forall. intros y Hy.
    apply In_firstn in Hy. apply filter_In in Hy as [Hy Hb].
    apply andb_true_iff in Hb as [Hb Hc].
    apply String.eqb_eq in Hb. apply Z.eqb_eq in Hc. auto.
Qed.

Lemma C2_searchVerses_bookName_witness :
  exists first,
    find (bookNameHit (trim (toLowerCase " GENESIS ")))
         (JSMap.values (verses (newMemStorage None))) = Some first
    /\ searchVerses (newMemStorage None) " GENESIS "
       = firstn 10
           (filter (fun x => String.eqb (BibleVerse.book x) (BibleVerse.book first)
                             && (BibleVerse.chapter x =? 1))
              (JSMap.values (verses (newMemStorage None))))
    /\ (List.length (searchVerses (newMemStorage None) " GENESIS ") <= 10)%nat
    /\ Forall (fun x => In x (JSMap.values (verses (newMemStorage None)))
                        /\ BibleVerse.book x = BibleVerse.book first
                        /\ BibleVerse.chapter x = 1)
         (searchVerses (newMemStorage None) " GENESIS ").
Proof.
  apply (C2_searchVerses_bookName (newMemStorage None) " GENESIS ").
  - reflexivity.
  - exists (BibleVerse.mk 1 "Genesis" 1 1
              "In the beginning God created the heavens and the earth.").
    split; [simpl; auto | reflexivity].
  - simpl. lia.
Defined.

(** C3. A query that reaches the full-text fallback (no verse reference,
    and either no stored book contains it or it has at most two
    characters once normalized) is answered with every stored verse whose
    lower-cased text or lower-cased book contains the normalized query, in
    storage order and without a cap. *)
Theorem C3_searchVerses_fullText (st : MemStorage) (query : string) :
  verseRefPattern (trim (toLowerCase query)) = None ->
  (forall x, In x (JSMap.values (verses st)) ->
             includes (toLowerCase (BibleVerse.book x))
               (trim (toLowerCase query)) = false)
  \/ (String.length (trim (toLowerCase query)) <= 2)%nat ->
  searchVerses st query
  = filter (textHit (trim (toLowerCase query))) (JSMap.values (verses st))
  /\ (forall x, In x (searchVerses st query) <->
                In x (JSMap.values (verses st))
                /\ (includes (toLowerCase (BibleVerse.text x))
                      (trim (toLowerCase query)) = true
                    \/ includes (toLowerCase (BibleVerse.book x))
                         (trim (toLowerCase query)) = true))
  /\ (Forall (fun x => textHit (trim (toLowerCase query)) x = true)
        (JSMap.values (verses st)) ->
      searchVerses st query = JSMap.values (verses st)).
Proof.
  intros Hnone Hfall.
  assert (E : searchVerses st query
              = filter (textHit (trim (toLowerCase query)))
                  (JSMap.values (verses st))).
  { rewrite (searchVerses_no_reference _ _ Hnone).
    destruct (filter (bookNameHit _) _) as [|first rest] eqn:Hf; [reflexivity|].
    destruct Hfall as [Hno | Hshort].
    - assert (Hin : In first (filter (bookNameHit (trim (toLowerCase query)))
                                (JSMap.values (verses st))))
        by (rewrite Hf; now left).
      apply filter_In in Hin as [Hin Hhit]. unfold bookNameHit in Hhit.
      rewrite (Hno _ Hin) in Hhit. discriminate.
    - apply Nat.ltb_ge in Hshort. now rewrite Hshort. }
  rewrite E. split; [reflexivity|]. split.
  - intros x. rewrite filter_In. unfold textHit. now rewrite orb_true_iff.
  - intros Hall. apply forallb_filter_id. now apply forallb_forall, Forall_forall.
Qed.

Lemma C3_searchVerses_fullText_witness :
  searchVerses (newMemStorage None) "God"
  = filter (textHit (trim (toLowerCase "God")))
      (JSMap.values (verses (newMemStorage None)))
  /\ (forall x, In x (searchVerses (newMemStorage None) "God") <->
                In x (JSMap.values (verses (newMemStorage None)))
                /\ (includes (toLowerCase (BibleVerse.text x))
                      (trim (toLowerCase "God")) = true
                    \/ includes (toLowerCase (BibleVerse.book x))
                         (trim (toLowerCase "God")) = true))
  /\ (Forall (fun x => textHit (trim (toLowerCase "God")) x = true)
        (JSMap.values (verses (newMemStorage None))) ->
      searchVerses (newMemStorage None) "God"
      = JSMap.values (verses (newMemStorage None))).
Proof.
  apply (C3_searchVerses_fullText (newMemStorage None) "God").
  - reflexivity.
  - left. intros x Hin. simpl in Hin.
    destruct Hin as [<- | [<- | [<- | []]]]; reflexivity.
Defined.

(* ================================================================== *)
(** ** The verse key *)

Module KeyFacts.
Import StringFacts.

Lemma string_of_uint_notColon (d : Decimal.uint) :
  JSString.forallb notColon (NilEmpty.string_of_uint d) = true.
Proof. induction d; simpl; auto. Qed.

Lemma toString_notColon (n : Z) : JSString.forallb notColon (toString n) = true.
Proof.
  unfold toString. destruct (Z.to_int n); simpl;
    apply string_of_uint_notColon.
Qed.

Lemma toString_inj (n m : Z) : toString n = toString m -> n = m.
Proof.
  unfold toString. intros H.
  assert (E : Some (Z.to_int n) = Some (Z.to_int m))
    by (rewrite <- !NilEmpty.isi; now rewrite H).
  inversion E as [E']. rewrite <- (DecimalZ.of_to n), <- (DecimalZ.of_to m).
  now rewrite E'.
Qed.

(** The part after the last colon determines the split. *)
Lemma last_colon_unique (a a' t t' : string) :
  JSString.forallb notColon t = true -> JSString.forallb notColon t' = true ->
  a ++ ":" ++ t = a' ++ ":" ++ t' -> a = a' /\ t = t'.
Proof.
  revert a'. induction a as [|x a IH]; intros [|y a'] Ht Ht' E; simpl in E.
  - inversion E. now split.
  - inversion E as [[Ey Et]]. subst t.
    rewrite forallb_append in Ht. simpl in Ht.
    rewrite andb_false_r in Ht. discriminate.
  - inversion E as [[Ex Et]]. subst t'.
    rewrite forallb_append in Ht'. simpl in Ht'.
    rewrite andb_false_r in Ht'. discriminate.
  - inversion E as [[Ex Et]]. destruct (IH a' Ht Ht' Et) as [-> ->].
    now split.
Qed.

(** Distinct triples have distinct keys, whatever the book name holds. *)
Theorem verseKey_inj (b b' : string) (c c' v v' : Z) :
  verseKey b c v = verseKey b' c' v' -> b = b' /\ c = c' /\ v = v'.
Proof.
  unfold verseKey. intros E.
  assert (E' : (b ++ ":" ++ toString c) ++ ":" ++ toString v
               = (b' ++ ":" ++ toString c') ++ ":" ++ toString v')
    by (rewrite !append_assoc; exact E).
  clear E. rename E' into E.
  apply last_colon_unique in E as [E Ev]; auto using toString_notColon.
  apply last_colon_unique in E as [Eb Ec]; auto using toString_notColon.
  apply toString_inj in Ev, Ec. auto.
Qed.

Lemma tripleKey_inj (x y : BibleVerse.t) :
  tripleKey x = tripleKey y -> triple x = triple y.
Proof.
  unfold tripleKey, triple. intros E.
  apply verseKey_inj in E as (-> & -> & ->). reflexivity.
Qed.

End KeyFacts.

(* ================================================================== *)
(** ** Maps *)

Module MapFacts.
Local Open Scope list_scope.

Section Keys.
Context {K V : Type}.
Variable eqb : K -> K -> bool.
Hypothesis eqb_eq : forall a b, eqb a b = true <-> a = b.

Lemma eqb_refl (a : K) : eqb a a = true.
Proof. now apply eqb_eq. Qed.

Lemma eqb_false (a b : K) : a <> b -> eqb a b = false.
Proof.
  intros H. destruct (eqb a b) eqn:E; [|reflexivity].
  apply eqb_eq in E. contradiction.
Qed.

Lemma get_None (k : K) (m : list (K * V)) :
  JSMap.get eqb k m = None <-> ~ In k (JSMap.keys m).
Proof.
  induction m as [|[k' v'] m IH]; simpl; [tauto|].
  destruct (eqb k' k) eqn:E.
  - apply eqb_eq in E. split; [discriminate | intros H; exfalso; auto].
  - rewrite IH. split; [|tauto].
    intros H [Hk|Hk]; [|tauto]. subst k'. now rewrite eqb_refl in E.
Qed.

Lemma get_In (k : K) (v : V) (m : list (K * V)) :
  NoDup (JSMap.keys m) ->
  (JSMap.get eqb k m = Some v <-> In (k, v) m).
Proof.
  induction m as [|[k' v'] m IH]; simpl; intros Hnd.
  - split; [discriminate | tauto].
  - inversion Hnd as [|? ? Hnotin Hnd']; subst.
    destruct (eqb k' k) eqn:E.
    + apply eqb_eq in E. subst k'. split.
      * intros H. inversion H. now left.
      * intros [H|H]; [now inversion H|].
        exfalso. apply Hnotin. now apply (in_map fst) in H.
    + rewrite (IH Hnd'). split; [tauto|].
      intros [H|H]; [|exact H]. inversion H; subst.
      now rewrite eqb_refl in E.
Qed.

Lemma set_fresh (k : K) (v : V) (m : list (K * V)) :
  ~ In k (JSMap.keys m) -> JSMap.set eqb k v m = m ++ [(k, v)].
Proof.
  induction m as [|[k' v'] m IH]; simpl; intros H; [reflexivity|].
  rewrite eqb_false by tauto. rewrite IH by tauto. reflexivity.
Qed.

Lemma keys_set (k : K) (v : V) (m : list (K * V)) :
  JSMap.keys (JSMap.set eqb k v m) = JSMap.keys m
  \/ (~ In k (JSMap.keys m)
      /\ JSMap.keys (JSMap.set eqb k v m) = JSMap.keys m ++ [k]).
Proof.
  induction m as [|[k' v'] m IH]; simpl.
  - right. tauto.
  - destruct (eqb k' k) eqn:E; simpl; [now left|].
    destruct IH as [IH | [Hn IH]]; rewrite IH; [now left|].
    right. split; [|reflexivity].
    intros [H|H]; [|tauto]. subst k'. now rewrite eqb_refl in E.
Qed.

Lemma In_set (k : K) (v : V) (m : list (K * V)) (kv : K * V) :
  In kv (JSMap.set eqb k v m) -> kv = (k, v) \/ In kv m.
Proof.
  induction m as [|[k' v'] m IH]; simpl.
  - intros [H|[]]. now left.
  - destruct (eqb k' k) eqn:E; simpl.
    + apply eqb_eq in E. subst k'. intros [H|H]; auto.
    + intros [H|H]; auto. destruct (IH H); auto.
Qed.

Lemma In_set_new (k : K) (v : V) (m : list (K * V)) :
  In (k, v) (JSMap.set eqb k v m).
Proof.
  induction m as [|[k' v'] m IH]; simpl; [now left|].
  destruct (eqb k' k) eqn:E; simpl; [|now right].
  apply eqb_eq in E. subst k'. now left.
Qed.

Lemma NoDup_keys_set (k : K) (v : V) (m : list (K * V)) :
  NoDup (JSMap.keys m) -> NoDup (JSMap.keys (JSMap.set eqb k v m)).
Proof.
  intros Hnd. destruct (keys_set k v m) as [E | [Hn E]]; rewrite E; auto.
  apply NoDup_rev in Hnd. rewrite <- (rev_involutive (_ ++ [k])).
  apply NoDup_rev. rewrite rev_app_distr. simpl. constructor; auto.
  now rewrite <- in_rev.
Qed.

Lemma keyedBy_set (f : V -> K) (k : K) (v : V) (m : list (K * V)) :
  keyedBy f m -> k = f v -> keyedBy f (JSMap.set eqb k v m).
Proof.
  intros [Hk Hnd] Hkv. split; [|now apply NoDup_keys_set].
  apply Forall_forall. intros kv Hin.
  destruct (In_set _ _ _ _ Hin) as [-> | Hin']; [exact Hkv|].
  now apply (proj1 (Forall_forall _ _) Hk).
Qed.

Lemma delete_absent (k : K) (m : list (K * V)) :
  ~ In k (JSMap.keys m) -> JSMap.delete eqb k m = m.
Proof.
  induction m as [|[k' v'] m IH]; simpl; intros H; [reflexivity|].
  rewrite eqb_false by tauto. now rewrite IH by tauto.
Qed.

(** Deleting the key of an entry takes out that entry and no other. *)
Lemma delete_split (k : K) (v : V) (l1 l2 : list (K * V)) :
  NoDup (JSMap.keys (l1 ++ (k, v) :: l2)) ->
  JSMap.delete eqb k (l1 ++ (k, v) :: l2) = l1 ++ l2.
Proof.
  induction l1 as [|[k' v'] l1 IH]; simpl; intros Hnd.
  - now rewrite eqb_refl.
  - inversion Hnd as [|? ? Hnotin Hnd']; subst.
    rewrite eqb_false.
    + now rewrite IH.
    + intros ->. apply Hnotin. unfold JSMap.keys.
      rewrite map_app. apply in_or_app. right. now left.
Qed.

Lemma keyedBy_sub (f : V -> K) (l1 l2 : list (K * V)) (kv : K * V) :
  keyedBy f (l1 ++ kv :: l2) -> keyedBy f (l1 ++ l2).
Proof.
  intros [Hk Hnd]. split.
  - apply Forall_app in Hk as [H1 H2]. inversion H2; subst.
    apply Forall_app. now split.
  - unfold JSMap.keys in *. rewrite map_app in *. simpl in Hnd.
    now apply NoDup_remove_1 in Hnd.
Qed.
End Keys.

End MapFacts.

(* ================================================================== *)
(** ** The invariant of the store *)

Module InvariantFacts.
Import MapFacts.
Local Open Scope list_scope.

Lemma find_values_split {K V : Type} (p : V -> bool) (m : list (K * V))
      (x : V) :
  find p (JSMap.values m) = Some x ->
  exists l1 k l2,
    m = l1 ++ (k, x) :: l2 /\ p x = true
    /\ forall y, In y (JSMap.values l1) -> p y = false.
Proof.
  induction m as [|[k' v'] m IH]; simpl; [discriminate|].
  destruct (p v') eqn:Hp.
  - intros H. inversion H; subst. exists [], k', m. simpl. tauto.
  - intros H. destruct (IH H) as (l1 & k & l2 & -> & Hx & Hl1).
    exists ((k', v') :: l1), k, l2. simpl. repeat split; auto.
    intros y [<-|Hy]; auto.
Qed.

(** Deleting under the key of the entity that [find] picked removes
    that very entry. *)
Lemma delete_found {K V : Type} (eqb : K -> K -> bool)
      (eqb_eq : forall a b, eqb a b = true <-> a = b)
      (f : V -> K) (p : V -> bool) (m : list (K * V)) (x : V) :
  keyedBy f m -> find p (JSMap.values m) = Some x ->
  exists l1 l2,
    m = l1 ++ (f x, x) :: l2 /\ p x = true
    /\ (forall y, In y (JSMap.values l1) -> p y = false)
    /\ JSMap.delete eqb (f x) m = l1 ++ l2.
Proof.
  intros [Hk Hnd] Hfind.
  destruct (find_values_split _ _ _ Hfind) as (l1 & k & l2 & -> & Hx & Hl1).
  assert (k = f x) as ->.
  { apply Forall_app in Hk as [_ Hk]. now inversion Hk. }
  exists l1, l2. repeat split; auto. now apply delete_split.
Qed.

Lemma Forall_keys_set {K V : Type} (eqb : K -> K -> bool)
      (eqb_eq : forall a b, eqb a b = true <-> a = b)
      (P : K -> Prop) (k : K) (v : V) (m : list (K * V)) :
  Forall P (JSMap.keys m) -> P k ->
  Forall P (JSMap.keys (JSMap.set eqb k v m)).
Proof.
  intros Hm Hk.
  destruct (keys_set eqb eqb_eq k v m) as [E | [_ E]]; rewrite E; auto.
  apply Forall_app. split; auto.
Qed.

Lemma Forall_lt_succ (n : Z) (l : list Z) :
  Forall (fun k => k < n) l -> Forall (fun k => k < n + 1) l.
Proof. apply Forall_impl. intros; lia. Qed.

Lemma Forall_keys_sub {K V : Type} (P : K -> Prop)
      (l1 l2 : list (K * V)) (kv : K * V) :
  Forall P (JSMap.keys (l1 ++ kv :: l2)) -> Forall P (JSMap.keys (l1 ++ l2)).
Proof.
  unfold JSMap.keys. rewrite !map_app. simpl. intros H.
  apply Forall_app in H as [H1 H2]. inversion H2; subst.
  apply Forall_app. now split.
Qed.

Lemma invariant_empty : invariant emptyStorage.
Proof.
  constructor; simpl; try (split; constructor); constructor.
Qed.

Lemma registerBook_invariant (st : MemStorage) (newBook : BibleBook.t) :
  invariant st -> BibleBook.id newBook = currentBookId st ->
  invariant (registerBook st newBook).
Proof.
  intros [Hv Hb Hh Hm Hbi Hhi Hmi] Hid. constructor; simpl; auto.
  - now apply keyedBy_set; [apply Z.eqb_eq | |].
  - apply Forall_keys_set; [apply Z.eqb_eq | now apply Forall_lt_succ | lia].
Qed.

Lemma registerVerse_invariant (st : MemStorage) (key : string)
      (newVerse : BibleVerse.t) :
  invariant st -> key = tripleKey newVerse ->
  invariant (registerVerse st key newVerse).
Proof.
  intros [Hv Hb Hh Hm Hbi Hhi Hmi] Hkey. constructor; simpl; auto.
  now apply keyedBy_set; [apply String.eqb_eq | |].
Qed.

Lemma loadEntry_invariant (data : list RawVerse.t)
      (acc : list (string * BibleBook.t) * MemStorage) (verse : RawVerse.t) :
  invariant (snd acc) -> invariant (snd (loadEntry data acc verse)).
Proof.
  destruct acc as [bookMap st]. simpl. intros Hinv.
  destruct (negb (JSMap.has String.eqb (RawVerse.book_name verse) bookMap));
    simpl; apply registerVerse_invariant; auto.
  now apply registerBook_invariant.
Qed.

Lemma loadAll_invariant (data : list RawVerse.t) (st : MemStorage) :
  invariant st -> invariant (snd (loadAll data st)).
Proof.
  unfold loadAll. intros Hinv.
  assert (G : forall entries acc,
             invariant (snd acc) ->
             invariant (snd (fold_left (loadEntry data) entries acc))).
  { induction entries as [|e entries IH]; intros acc Hacc; simpl; auto.
    apply IH. now apply loadEntry_invariant. }
  now apply G.
Qed.

Lemma initializeSampleData_invariant (st : MemStorage) :
  invariant st -> invariant (initializeSampleData st).
Proof.
  intros Hinv. unfold initializeSampleData, booksData, sampleVerses. simpl.
  repeat (first [ apply registerVerse_invariant; [|reflexivity]
                | apply registerBook_invariant; [|reflexivity] ]).
  exact Hinv.
Qed.

Lemma newMemStorage_invariant (dataset : option (list RawVerse.t)) :
  invariant (newMemStorage dataset).
Proof.
  unfold newMemStorage, initializeBibleData. destruct dataset as [data|].
  - apply loadAll_invariant, invariant_empty.
  - apply initializeSampleData_invariant, invariant_empty.
Qed.

Lemma createHighlight_invariant (st : MemStorage) (h : InsertHighlight.t) :
  invariant st -> invariant (snd (createHighlight st h)).
Proof.
  intros [Hv Hb Hh Hm Hbi Hhi Hmi]. constructor; simpl; auto.
  - now apply keyedBy_set; [apply Z.eqb_eq | |].
  - apply Forall_keys_set; [apply Z.eqb_eq | now apply Forall_lt_succ | lia].
Qed.

Lemma createBookmark_invariant (st : MemStorage) (b : InsertBookmark.t) :
  invariant st -> invariant (snd (createBookmark st b)).
Proof.
  intros [Hv Hb Hh Hm Hbi Hhi Hmi]. constructor; simpl; auto.
  - now apply keyedBy_set; [apply Z.eqb_eq | |].
  - apply Forall_keys_set; [apply Z.eqb_eq | now apply Forall_lt_succ | lia].
Qed.

Lemma deleteHighlight_invariant (st : MemStorage) (verseId : string)
      (userId : option string) :
  invariant st -> invariant (deleteHighlight st verseId userId).
Proof.
  intros Hinv. unfold deleteHighlight.
  destruct (find _ _) as [h|] eqn:Hfind; [|exact Hinv].
  destruct Hinv as [Hv Hb Hh Hm Hbi Hhi Hmi].
  destruct (delete_found Z.eqb Z.eqb_eq _ _ _ _ Hh Hfind)
    as (l1 & l2 & E & _ & _ & Hdel).
  constructor; simpl; auto; rewrite Hdel; rewrite E in *.
  - eapply keyedBy_sub; eauto.
  - eapply Forall_keys_sub; eauto.
Qed.

Lemma deleteBookmark_invariant (st : MemStorage) (verseId : string)
      (userId : option string) :
  invariant st -> invariant (deleteBookmark st verseId userId).
Proof.
  intros Hinv. unfold deleteBookmark.
  destruct (find _ _) as [b|] eqn:Hfind; [|exact Hinv].
  destruct Hinv as [Hv Hb Hh Hm Hbi Hhi Hmi].
  destruct (delete_found Z.eqb Z.eqb_eq _ _ _ _ Hm Hfind)
    as (l1 & l2 & E & _ & _ & Hdel).
  constructor; simpl; auto; rewrite Hdel; rewrite E in *.
  - eapply keyedBy_sub; eauto.
  - eapply Forall_keys_sub; eauto.
Qed.

Lemma exec_invariant (st : MemStorage) (op : Op) :
  invariant st -> invariant (exec st op).
Proof.
  intros Hinv. destruct op; simpl; auto.
  - now apply createHighlight_invariant.
  - now apply deleteHighlight_invariant.
  - now apply createBookmark_invariant.
  - now apply deleteBookmark_invariant.
Qed.

(** Every store a process can be in satisfies the invariant. *)
Theorem reachable_invariant (st : MemStorage) :
  reachable st -> invariant st.
Proof.
  induction 1 as [dataset | st op _ IH].
  - apply newMemStorage_invariant.
  - now apply exec_invariant.
Qed.

Lemma run_reachable (ops : list Op) (st : MemStorage) :
  reachable st -> reachable (run ops st).
Proof.
  revert st. induction ops as [|op ops IH]; intros st H; simpl; auto.
  apply IH. now constructor.
Qed.

End InvariantFacts.

(* ================================================================== *)
(** ** [getVerse] *)

Module VerseFacts.
Import MapFacts KeyFacts.
Local Open Scope list_scope.

Lemma keyedBy_keys {K V : Type} (f : V -> K) (m : list (K * V)) :
  keyedBy f m -> JSMap.keys m = map f (JSMap.values m).
Proof.
  intros [Hk _]. induction Hk as [|[k x] m Hkx _ IH]; simpl; [reflexivity|].
  simpl in Hkx. now rewrite Hkx, IH.
Qed.

Lemma In_values {K V : Type} (m : list (K * V)) (x : V) :
  In x (JSMap.values m) <-> exists k, In (k, x) m.
Proof.
  unfold JSMap.values. rewrite in_map_iff. split.
  - intros [[k y] [E Hin]]. simpl in E. subst y. now exists k.
  - intros [k Hin]. now exists (k, x).
Qed.

Lemma keyedBy_In {K V : Type} (f : V -> K) (m : list (K * V))
      (k : K) (x : V) :
  keyedBy f m -> In (k, x) m -> k = f x.
Proof.
  intros [Hk _] Hin. exact (proj1 (Forall_forall _ _) Hk _ Hin).
Qed.

Lemma getVerse_Some (st : MemStorage) (b : string) (c v : Z)
      (x : BibleVerse.t) :
  invariant st ->
  (getVerse st b c v = Some x
   <-> In x (JSMap.values (verses st)) /\ triple x = (b, c, v)).
Proof.
  intros Hinv. pose proof (inv_verses _ Hinv) as Hk. unfold getVerse.
  rewrite (get_In String.eqb String.eqb_eq) by apply Hk. split.
  - intros Hin. split; [apply In_values; eauto|].
    apply (keyedBy_In _ _ _ _ Hk) in Hin. unfold tripleKey in Hin.
    apply verseKey_inj in Hin as (-> & -> & ->). reflexivity.
  - intros [Hin Ht]. apply In_values in Hin as [k Hin].
    rewrite (keyedBy_In _ _ _ _ Hk Hin) in Hin. unfold tripleKey in Hin.
    unfold triple in Ht. inversion Ht; subst. exact Hin.
Qed.

Lemma triples_NoDup (st : MemStorage) :
  invariant st -> NoDup (map triple (JSMap.values (verses st))).
Proof.
  intros Hinv. pose proof (inv_verses _ Hinv) as Hk.
  pose proof (proj2 Hk) as Hnd. rewrite (keyedBy_keys _ _ Hk) in Hnd.
  apply (NoDup_map_inv (fun t => verseKey (fst (fst t)) (snd (fst t)) (snd t))).
  now rewrite map_map.
Qed.

End VerseFacts.

(** C4. In every store the triples (book, chapter, verse) of the verses
    are pairwise distinct, and [getVerse b c v] is the stored verse with
    the triple [(b, c, v)] when there is one and [undefined] when there is
    none (for every [c] and [v], so for those from 1 on). *)
Theorem C4_getVerse (st : MemStorage) (b : string) (c v : Z) :
  reachable st ->
  NoDup (map triple (JSMap.values (verses st)))
  /\ (forall x, getVerse st b c v = Some x
                <-> In x (JSMap.values (verses st)) /\ triple x = (b, c, v))
  /\ (getVerse st b c v = None
      <-> forall x, In x (JSMap.values (verses st)) -> triple x <> (b, c, v)).
Proof.
  intros Hr. apply InvariantFacts.reachable_invariant in Hr as Hinv.
  split; [now apply VerseFacts.triples_NoDup|].
  split; [intros x; now apply VerseFacts.getVerse_Some|].
  split.
  - intros Hnone x Hin Ht.
    assert (getVerse st b c v = Some x)
      by (apply VerseFacts.getVerse_Some; auto).
    congruence.
  - intros Hno. destruct (getVerse st b c v) as [x|] eqn:Hg; [|reflexivity].
    apply VerseFacts.getVerse_Some in Hg as [Hin Ht]; auto.
    now destruct (Hno x Hin).
Qed.

Lemma C4_getVerse_witness :
  NoDup (map triple (JSMap.values (verses (newMemStorage None))))
  /\ (forall x, getVerse (newMemStorage None) "John" 3 16 = Some x
                <-> In x (JSMap.values (verses (newMemStorage None)))
                    /\ triple x = ("John", 3, 16))
  /\ (getVerse (newMemStorage None) "John" 3 16 = None
      <-> forall x, In x (JSMap.values (verses (newMemStorage None))) ->
                    triple x <> ("John", 3, 16)).
Proof.
  apply (C4_getVerse (newMemStorage None) "John" 3 16).
  apply reachable_new.
Defined.

(* ================================================================== *)
(** ** [sort] with a difference of keys as comparator *)

Module SortFacts.
Local Open Scope list_scope.

Section ByKey.
Context {A : Type}.
Variable key : A -> Z.

Let byKey : A -> A -> Z := fun a b => key a - key b.
Let ascending : A -> A -> Prop := fun a b => key a <= key b.

Lemma insert_perm (x : A) (l : list A) :
  Permutation (JSArray.insert byKey x l) (x :: l).
Proof.
  induction l as [|y l IH]; simpl; [reflexivity|].
  destruct (byKey x y <=? 0); [reflexivity|].
  rewrite IH. apply perm_swap.
Qed.

Lemma sort_perm (l : list A) : Permutation (JSArray.sort byKey l) l.
Proof.
  induction l as [|x l IH]; simpl; [reflexivity|].
  rewrite insert_perm. now constructor.
Qed.

Lemma insert_sorted (x : A) (l : list A) :
  StronglySorted ascending l ->
  StronglySorted ascending (JSArray.insert byKey x l).
Proof.
  induction 1 as [|y l Hs IH Hy]; simpl.
  - repeat constructor.
  - unfold byKey at 1. destruct (Z.leb_spec (key x - key y) 0) as [Hle|Hgt].
    + constructor; [now constructor|]. constructor.
      * unfold ascending. lia.
      * revert Hy. apply Forall_impl. unfold ascending. intros; lia.
    + constructor; [exact IH|].
      apply (Permutation_Forall (Permutation_sym (insert_perm x l))).
      constructor; [unfold ascending; lia | exact Hy].
Qed.

Lemma sort_sorted (l : list A) :
  StronglySorted ascending (JSArray.sort byKey l).
Proof.
  induction l as [|x l IH]; simpl; [constructor | now apply insert_sorted].
Qed.

(** The sort is stable: elements of equal key keep their order. *)
Lemma insert_filter (k : Z) (x : A) (l : list A) :
  StronglySorted ascending l ->
  filter (fun a => key a =? k) (JSArray.insert byKey x l)
  = filter (fun a => key a =? k) (x :: l).
Proof.
  induction 1 as [|y l Hs IH Hy]; [reflexivity|].
  cbn [JSArray.insert]. unfold byKey at 1.
  destruct (Z.leb_spec (key x - key y) 0) as [Hle|Hgt]; [reflexivity|].
  cbn [filter] in *. rewrite IH.
  destruct (Z.eqb_spec (key y) k) as [Ey|Ny];
    destruct (Z.eqb_spec (key x) k) as [Ex|Nx]; try reflexivity.
  lia.
Qed.

Lemma sort_stable (k : Z) (l : list A) :
  filter (fun a => key a =? k) (JSArray.sort byKey l)
  = filter (fun a => key a =? k) l.
Proof.
  induction l as [|x l IH]; [reflexivity|].
  cbn [JSArray.sort fold_right].
  change (fold_right (JSArray.insert byKey) [] l) with (JSArray.sort byKey l).
  rewrite insert_filter by apply sort_sorted.
  cbn [filter]. now rewrite IH.
Qed.
End ByKey.

End SortFacts.

(** C5. [getVersesByBook b chapter], with the chapter left out or at
    least 1, returns stored verses of the book [b] only (of that chapter
    when it is given), ascending by verse number; it returns all of them,
    each as often as it is stored. *)
Theorem C5_getVersesByBook (st : MemStorage) (b : string) (chapter : option Z) :
  (forall c, chapter = Some c -> 1 <= c) ->
  Forall (fun x => In x (JSMap.values (verses st))
                   /\ BibleVerse.book x = b
                   /\ forall c, chapter = Some c -> BibleVerse.chapter x = c)
    (getVersesByBook st b chapter)
  /\ StronglySorted (fun x y => BibleVerse.verse x <= BibleVerse.verse y)
       (getVersesByBook st b chapter)
  /\ Permutation (getVersesByBook st b chapter)
       (filter (fun x => String.eqb (BibleVerse.book x) b
                         && match chapter with
                            | Some c => BibleVerse.chapter x =? c
                            | None => true
                            end)
          (JSMap.values (verses st))).
Proof.
  intros Hc. unfold getVersesByBook.
  assert (E : forall x,
             (if negb (String.eqb (BibleVerse.book x) b) then false
              else chapterFilter chapter x)
             = String.eqb (BibleVerse.book x) b
               && match chapter with
                  | Some c => BibleVerse.chapter x =? c
                  | None => true
                  end).
  { intros x. destruct (String.eqb (BibleVerse.book x) b); simpl; [|reflexivity].
    unfold chapterFilter. destruct chapter as [c|]; [|reflexivity].
    specialize (Hc c eq_refl).
    destruct (Z.eqb_spec c 0) as [->|_]; [lia|]. simpl.
    now destruct (BibleVerse.chapter x =? c). }
  rewrite (filter_ext _ _ E).
  pose proof (SortFacts.sort_perm BibleVerse.verse
                (filter (fun x => String.eqb (BibleVerse.book x) b
                                  && match chapter with
                                     | Some c => BibleVerse.chapter x =? c
                                     | None => true
                                     end)
                   (JSMap.values (verses st)))) as Hperm.
  split; [|split; [apply SortFacts.sort_sorted | exact Hperm]].
  apply (Permutation_Forall (Permutation_sym Hperm)).
  apply Forall_forall. intros x Hx. apply filter_In in Hx as [Hin Hx].
  apply andb_true_iff in Hx as [Hb Hch]. apply String.eqb_eq in Hb.
  repeat split; auto.
  intros c ->. now apply Z.eqb_eq.
Qed.

Lemma C5_getVersesByBook_witness :
  Forall (fun x => In x (JSMap.values (verses (newMemStorage None)))
                   /\ BibleVerse.book x = "John"
                   /\ forall c, Some 3 = Some c -> BibleVerse.chapter x = c)
    (getVersesByBook (newMemStorage None) "John" (Some 3))
  /\ StronglySorted (fun x y => BibleVerse.verse x <= BibleVerse.verse y)
       (getVersesByBook (newMemStorage None) "John" (Some 3))
  /\ Permutation (getVersesByBook (newMemStorage None) "John" (Some 3))
       (filter (fun x => String.eqb (BibleVerse.book x) "John"
                         && (BibleVerse.chapter x =? 3))
          (JSMap.values (verses (newMemStorage None)))).
Proof.
  apply (C5_getVersesByBook (newMemStorage None) "John" (Some 3)).
  intros c Hc. inversion Hc. lia.
Defined.

(* ================================================================== *)
(** ** Deleting *)

Module DeleteFacts.
Import MapFacts InvariantFacts.
Local Open Scope list_scope.

Lemma find_None_iff {A : Type} (p : A -> bool) (l : list A) :
  find p l = None <-> forall y, In y l -> p y = false.
Proof.
  split; [apply find_none|].
  intros H. destruct (find p l) as [x|] eqn:E; [|reflexivity].
  apply find_some in E as [Hin Hp]. rewrite (H x Hin) in Hp. discriminate.
Qed.

Lemma find_Some_exists {A : Type} (p : A -> bool) (l : list A) :
  (exists y, In y l /\ p y = true) -> exists x, find p l = Some x.
Proof.
  intros (y & Hin & Hp). destruct (find p l) as [x|] eqn:E; [now exists x|].
  rewrite (find_none _ _ E y Hin) in Hp. discriminate.
Qed.

Lemma deleteHighlight_first (st : MemStorage) (verseId : string)
      (userId : option string) :
  invariant st ->
  (exists h, In h (JSMap.values (highlightsList st))
             /\ highlightHit verseId (defaultArg userId) h = true) ->
  removesFirst (highlightHit verseId (defaultArg userId))
    (highlightsList st)
    (highlightsList (deleteHighlight st verseId userId)).
Proof.
  intros Hinv Hex. apply find_Some_exists in Hex as [h Hfind].
  unfold deleteHighlight. rewrite Hfind. simpl.
  destruct (delete_found Z.eqb Z.eqb_eq _ _ _ _ (inv_highlights _ Hinv) Hfind)
    as (l1 & l2 & E & Hh & Hl1 & Hdel).
  now exists l1, (Highlight.id h), h, l2.
Qed.

Lemma deleteBookmark_first (st : MemStorage) (verseId : string)
      (userId : option string) :
  invariant st ->
  (exists b, In b (JSMap.values (bookmarksList st))
             /\ bookmarkHit verseId (defaultArg userId) b = true) ->
  removesFirst (bookmarkHit verseId (defaultArg userId))
    (bookmarksList st)
    (bookmarksList (deleteBookmark st verseId userId)).
Proof.
  intros Hinv Hex. apply find_Some_exists in Hex as [b Hfind].
  unfold deleteBookmark. rewrite Hfind. simpl.
  destruct (delete_found Z.eqb Z.eqb_eq _ _ _ _ (inv_bookmarks _ Hinv) Hfind)
    as (l1 & l2 & E & Hb & Hl1 & Hdel).
  now exists l1, (Bookmark.id b), b, l2.
Qed.

Lemma deleteHighlight_none (st : MemStorage) (verseId : string)
      (userId : option string) :
  (forall h, In h (JSMap.values (highlightsList st)) ->
             highlightHit verseId (defaultArg userId) h = false) ->
  deleteHighlight st verseId userId = st.
Proof.
  intros H. apply find_None_iff in H. unfold deleteHighlight. now rewrite H.
Qed.

Lemma deleteBookmark_none (st : MemStorage) (verseId : string)
      (userId : option string) :
  (forall b, In b (JSMap.values (bookmarksList st)) ->
             bookmarkHit verseId (defaultArg userId) b = false) ->
  deleteBookmark st verseId userId = st.
Proof.
  intros H. apply find_None_iff in H. unfold deleteBookmark. now rewrite H.
Qed.

End DeleteFacts.

(** C7. In every store, deleting a highlight (a bookmark) for a pair
    (verseId, userId) that no stored entity matches returns the store as
    it was, and is a total function, so nothing is raised; when an entity
    matches, the collection loses its first matching entry and nothing
    else. *)
Theorem C7_delete (st : MemStorage) (verseId : string) (userId : option string) :
  reachable st ->
  ((forall h, In h (JSMap.values (highlightsList st)) ->
              highlightHit verseId (defaultArg userId) h = false) ->
   deleteHighlight st verseId userId = st)
  /\ ((exists h, In h (JSMap.values (highlightsList st))
                 /\ highlightHit verseId (defaultArg userId) h = true) ->
      removesFirst (highlightHit verseId (defaultArg userId))
        (highlightsList st)
        (highlightsList (deleteHighlight st verseId userId)))
  /\ ((forall b, In b (JSMap.values (bookmarksList st)) ->
                 bookmarkHit verseId (defaultArg userId) b = false) ->
      deleteBookmark st verseId userId = st)
  /\ ((exists b, In b (JSMap.values (bookmarksList st))
                 /\ bookmarkHit verseId (defaultArg userId) b = true) ->
      removesFirst (bookmarkHit verseId (defaultArg userId))
        (bookmarksList st)
        (bookmarksList (deleteBookmark st verseId userId))).
Proof.
  intros Hr. apply InvariantFacts.reachable_invariant in Hr as Hinv.
  repeat split.
  - apply DeleteFacts.deleteHighlight_none.
  - now apply DeleteFacts.deleteHighlight_first.
  - apply DeleteFacts.deleteBookmark_none.
  - now apply DeleteFacts.deleteBookmark_first.
Qed.

(* ================================================================== *)
(** ** The id counters *)

Module CounterFacts.

Lemma exec_highlight_counter (st : MemStorage) (op : Op) :
  currentHighlightId st <= currentHighlightId (exec st op).
Proof.
  destruct op; simpl; try lia.
  - unfold deleteHighlight. destruct (find _ _); simpl; lia.
  - unfold deleteBookmark. destruct (find _ _); simpl; lia.
Qed.

Lemma exec_bookmark_counter (st : MemStorage) (op : Op) :
  currentBookmarkId st <= currentBookmarkId (exec st op).
Proof.
  destruct op; simpl; try lia.
  - unfold deleteHighlight. destruct (find _ _); simpl; lia.
  - unfold deleteBookmark. destruct (find _ _); simpl; lia.
Qed.

Lemma run_highlight_counter (ops : list Op) (st : MemStorage) :
  currentHighlightId st <= currentHighlightId (run ops st).
Proof.
  revert st. induction ops as [|op ops IH]; intros st; [simpl; lia|].
  change (run (op :: ops) st) with (run ops (exec st op)).
  pose proof (exec_highlight_counter st op). specialize (IH (exec st op)). lia.
Qed.

Lemma run_bookmark_counter (ops : list Op) (st : MemStorage) :
  currentBookmarkId st <= currentBookmarkId (run ops st).
Proof.
  revert st. induction ops as [|op ops IH]; intros st; [simpl; lia|].
  change (run (op :: ops) st) with (run ops (exec st op)).
  pose proof (exec_bookmark_counter st op). specialize (IH (exec st op)). lia.
Qed.

(** An id given out is not the id of anything stored. *)
Lemma createHighlight_fresh (st : MemStorage) (h : InsertHighlight.t) :
  invariant st ->
  ~ In (Highlight.id (fst (createHighlight st h)))
       (JSMap.keys (highlightsList st)).
Proof.
  intros Hinv Hin. simpl in Hin.
  pose proof (proj1 (Forall_forall _ _) (inv_highlight_ids _ Hinv) _ Hin).
  simpl in *. lia.
Qed.

Lemma createBookmark_fresh (st : MemStorage) (b : InsertBookmark.t) :
  invariant st ->
  ~ In (Bookmark.id (fst (createBookmark st b)))
       (JSMap.keys (bookmarksList st)).
Proof.
  intros Hinv Hin. simpl in Hin.
  pose proof (proj1 (Forall_forall _ _) (inv_bookmark_ids _ Hinv) _ Hin).
  simpl in *. lia.
Qed.

End CounterFacts.

(** C8. A create takes the value of the counter of its kind as the id and
    moves the counter up by one; no call moves a counter down; so of two
    creations of one kind, with any calls in between, the later gets the
    strictly larger id. *)
Theorem C8_sequential_ids (st : MemStorage) (ops : list Op)
        (h1 h2 : InsertHighlight.t) (b1 b2 : InsertBookmark.t) :
  (Highlight.id (fst (createHighlight st h1)) = currentHighlightId st
   /\ currentHighlightId (snd (createHighlight st h1))
      = currentHighlightId st + 1
   /\ Highlight.id (fst (createHighlight st h1))
      < Highlight.id
          (fst (createHighlight (run ops (snd (createHighlight st h1))) h2)))
  /\ (Bookmark.id (fst (createBookmark st b1)) = currentBookmarkId st
      /\ currentBookmarkId (snd (createBookmark st b1))
         = currentBookmarkId st + 1
      /\ Bookmark.id (fst (createBookmark st b1))
         < Bookmark.id
             (fst (createBookmark (run ops (snd (createBookmark st b1))) b2)))
  /\ (forall op, currentHighlightId st <= currentHighlightId (exec st op)
                 /\ currentBookmarkId st <= currentBookmarkId (exec st op)).
Proof.
  repeat split; try reflexivity.
  - pose proof (CounterFacts.run_highlight_counter ops
                  (snd (createHighlight st h1))) as H.
    simpl in *. lia.
  - pose proof (CounterFacts.run_bookmark_counter ops
                  (snd (createBookmark st b1))) as H.
    simpl in *. lia.
  - apply CounterFacts.exec_highlight_counter.
  - apply CounterFacts.exec_bookmark_counter.
Qed.

(** C10. No call of the public interface changes the books or the
    verses; a highlight call leaves the bookmarks and their counter as
    they were, a bookmark call leaves the highlights and their counter as
    they were, and a read leaves the whole store as it was. *)
Theorem C10_frame (st : MemStorage) (op : Op) :
  books (exec st op) = books st
  /\ verses (exec st op) = verses st
  /\ currentBookId (exec st op) = currentBookId st
  /\ currentVerseId (exec st op) = currentVerseId st
  /\ match op with
     | CreateHighlight _ | DeleteHighlight _ _ =>
         bookmarksList (exec st op) = bookmarksList st
         /\ currentBookmarkId (exec st op) = currentBookmarkId st
     | CreateBookmark _ | DeleteBookmark _ _ =>
         highlightsList (exec st op) = highlightsList st
         /\ currentHighlightId (exec st op) = currentHighlightId st
     | _ => exec st op = st
     end.
Proof.
  destruct op; simpl; try (repeat split; reflexivity).
  - unfold deleteHighlight. destruct (find _ _); simpl; repeat split; reflexivity.
  - unfold deleteBookmark. destruct (find _ _); simpl; repeat split; reflexivity.
Qed.

Lemma C7_delete_witness :
  let st :=
    run [ CreateHighlight (InsertHighlight.mk "Genesis:1:1" "green" None);
          CreateHighlight (InsertHighlight.mk "John:3:16" "yellow" None);
          CreateHighlight (InsertHighlight.mk "John:3:16" "blue" None);
          CreateBookmark (InsertBookmark.mk "Genesis:1:1" None);
          CreateBookmark (InsertBookmark.mk "John:3:16" None);
          CreateBookmark (InsertBookmark.mk "John:3:16" None) ]
      (newMemStorage None) in
  reachable st
  /\ deleteHighlight st "Matthew:5:3" None = st
  /\ deleteBookmark st "Matthew:5:3" None = st
  /\ removesFirst (highlightHit "John:3:16" (defaultArg None))
       (highlightsList st)
       (highlightsList (deleteHighlight st "John:3:16" None))
  /\ removesFirst (bookmarkHit "John:3:16" (defaultArg None))
       (bookmarksList st)
       (bookmarksList (deleteBookmark st "John:3:16" None))
  /\ JSMap.keys (highlightsList (deleteHighlight st "John:3:16" None)) = [1; 3]
  /\ JSMap.keys (bookmarksList (deleteBookmark st "John:3:16" None)) = [1; 3].
Proof.
  intros st.
  assert (Hr : reachable st)
    by (apply InvariantFacts.run_reachable; apply reachable_new).
  destruct (C7_delete st "Matthew:5:3" None Hr) as (Hnone & _ & Bnone & _).
  destruct (C7_delete st "John:3:16" None Hr) as (_ & Hfirst & _ & Bfirst).
  split; [exact Hr|]. split; [|split; [|split; [|split; [|split]]]].
  - apply Hnone. simpl. intros h [<-|[<-|[<-|[]]]]; reflexivity.
  - apply Bnone. simpl. intros b [<-|[<-|[<-|[]]]]; reflexivity.
  - apply Hfirst. exists (Highlight.mk 2 "John:3:16" "yellow" "default").
    split; [simpl; auto | reflexivity].
  - apply Bfirst. exists (Bookmark.mk 2 "John:3:16" "default").
    split; [simpl; auto | reflexivity].
  - reflexivity.
  - reflexivity.
Defined.

(* ================================================================== *)
(** ** The round trip of a highlight *)

Module RoundTripFacts.
Import MapFacts InvariantFacts DeleteFacts.
Local Open Scope list_scope.

Lemma find_app_skip {A : Type} (p : A -> bool) (l1 l2 : list A) :
  (forall y, In y l1 -> p y = false) -> find p (l1 ++ l2) = find p l2.
Proof.
  induction l1 as [|a l1 IH]; simpl; intros H; [reflexivity|].
  rewrite (H a) by now left. apply IH. intros y Hy. apply H. now right.
Qed.

(** Where nothing stored matches, create then delete gives the
    collection back. *)
Lemma create_delete (st : MemStorage) (h : InsertHighlight.t) :
  invariant st ->
  (forall x, In x (JSMap.values (highlightsList st)) ->
             highlightHit (InsertHighlight.verseId h)
               (orDefault (InsertHighlight.userId h)) x = false) ->
  highlightsList
    (deleteHighlight (snd (createHighlight st h)) (InsertHighlight.verseId h)
       (Some (orDefault (InsertHighlight.userId h))))
  = highlightsList st.
Proof.
  intros Hinv Hno.
  pose proof (createHighlight_invariant st h Hinv) as Hinv'.
  pose proof (CounterFacts.createHighlight_fresh st h Hinv) as Hfresh.
  unfold deleteHighlight. simpl in *.
  rewrite (set_fresh Z.eqb Z.eqb_eq) in * by exact Hfresh.
  unfold JSMap.values. rewrite map_app. simpl.
  rewrite (find_app_skip _ _ _ Hno). simpl.
  unfold highlightHit at 1. simpl. rewrite !String.eqb_refl. simpl.
  rewrite (delete_split Z.eqb Z.eqb_eq).
  - apply app_nil_r.
  - destruct Hinv' as [_ _ [_ Hnd] _ _ _ _]. exact Hnd.
Qed.

End RoundTripFacts.

(** C6 as stated fails in a store that already holds a highlight of the
    verse for "default": the delete removes the older one and the created
    one stays listed. *)
Lemma C6_roundtrip_counterexample :
  reachable (exec (newMemStorage None)
               (CreateHighlight (InsertHighlight.mk "John:3:16" "yellow" None)))
  /\ ~ highlightRoundTrip
         (exec (newMemStorage None)
            (CreateHighlight (InsertHighlight.mk "John:3:16" "yellow" None))).
Proof.
  split.
  - apply reachable_exec, reachable_new.
  - intros (_ & _ & H).
    apply (H (Highlight.mk 2 "John:3:16" "yellow" "default")).
    + vm_compute. now left.
    + now split.
Qed.

(** C6, amended. From a store that holds no highlight of the verse id
    "John:3:16" for the user "default": the highlight created without a
    user id is listed by [getHighlights()] with the user id "default", and
    after [deleteHighlight("John:3:16")] no highlight of that verse id and
    user id is listed. *)
Theorem C6_roundtrip (st : MemStorage) :
  reachable st ->
  (forall h, In h (JSMap.values (highlightsList st)) ->
             ~ (Highlight.verseId h = "John:3:16"
                /\ Highlight.userId h = "default")) ->
  highlightRoundTrip st.
Proof.
  intros Hr Hno. apply InvariantFacts.reachable_invariant in Hr as Hinv.
  assert (Hno' : forall x, In x (JSMap.values (highlightsList st)) ->
                           highlightHit "John:3:16" "default" x = false).
  { intros x Hx. specialize (Hno x Hx). unfold highlightHit.
    destruct (String.eqb_spec (Highlight.verseId x) "John:3:16");
      destruct (String.eqb_spec (Highlight.userId x) "default");
      try reflexivity. tauto. }
  unfold highlightRoundTrip. split; [|split; [reflexivity|]].
  - unfold getHighlights. apply filter_In. split; [|reflexivity].
    apply VerseFacts.In_values. eexists.
    apply (MapFacts.In_set_new Z.eqb Z.eqb_eq).
  - intros h Hin. unfold getHighlights in Hin. apply filter_In in Hin as [Hin _].
    pose proof (RoundTripFacts.create_delete st
                  (InsertHighlight.mk "John:3:16" "yellow" None) Hinv Hno') as E.
    simpl in E. unfold deleteHighlight in *. simpl in *.
    rewrite E in Hin. now apply Hno.
Qed.

Lemma C6_roundtrip_witness : highlightRoundTrip (newMemStorage None).
Proof.
  apply (C6_roundtrip (newMemStorage None)).
  - apply reachable_new.
  - simpl. intros h [].
Defined.

(* ================================================================== *)
(** ** The books the loader registers *)

Module LoaderFacts.
Import MapFacts InvariantFacts.
Local Open Scope list_scope.

Lemma has_false (k : string) (m : list (string * BibleBook.t)) :
  JSMap.has String.eqb k m = false -> ~ In k (JSMap.keys m).
Proof.
  unfold JSMap.has. intros H. apply (get_None String.eqb String.eqb_eq).
  now destruct (JSMap.get String.eqb k m).
Qed.

Lemma loadEntry_loading (data : list RawVerse.t)
      (acc : list (string * BibleBook.t) * MemStorage) (e : RawVerse.t) :
  In e data -> loading data acc -> loading data (loadEntry data acc e).
Proof.
  destruct acc as [bookMap st]. intros He (Hinv & Hsame & Hkey & Hfrom).
  simpl in Hinv, Hsame, Hkey, Hfrom. unfold loading, loadEntry.
  destruct (JSMap.has String.eqb (RawVerse.book_name e) bookMap) eqn:Hhas;
    cbn [negb fst snd].
  - split; [|split; [|split]]; auto.
    now apply registerVerse_invariant.
  - apply has_false in Hhas.
    assert (Hfresh : ~ In (currentBookId st) (JSMap.keys (books st))).
    { intros Hin.
      pose proof (proj1 (Forall_forall _ _) (inv_book_ids _ Hinv) _ Hin).
      simpl in *. lia. }
    split; [|split; [|split]].
    + apply registerVerse_invariant; [|reflexivity].
      now apply registerBook_invariant.
    + cbn [registerVerse registerBook books BibleBook.id].
      rewrite (set_fresh Z.eqb Z.eqb_eq) by exact Hfresh.
      rewrite (set_fresh String.eqb String.eqb_eq) by exact Hhas.
      unfold JSMap.values in *. rewrite !map_app. now rewrite Hsame.
    + now apply keyedBy_set; [apply String.eqb_eq | |].
    + rewrite (set_fresh String.eqb String.eqb_eq) by exact Hhas.
      unfold JSMap.values in *. rewrite map_app. apply Forall_app.
      split; [exact Hfrom|]. constructor; [|constructor].
      exists e. simpl. auto.
Qed.

Lemma loadAll_loading (data : list RawVerse.t) :
  loading data (loadAll data emptyStorage).
Proof.
  unfold loadAll.
  assert (G : forall entries acc,
             incl entries data -> loading data acc ->
             loading data (fold_left (loadEntry data) entries acc)).
  { induction entries as [|e entries IH]; intros acc Hincl Hacc; simpl; auto.
    apply IH.
    - intros x Hx. apply Hincl. now right.
    - apply loadEntry_loading; auto. apply Hincl. now left. }
  apply G; [apply incl_refl|].
  split; [apply invariant_empty|]. repeat split; simpl; constructor.
Qed.

Lemma fromEntry_testament (data : list RawVerse.t) (bk : BibleBook.t) :
  fromEntry data bk -> testamentByOrder bk.
Proof.
  intros (e & _ & _ & Ho & Ht). unfold testamentByOrder. rewrite Ht, Ho.
  destruct (Z.leb_spec (RawVerse.book e) 39); split; intros Hyp;
    try reflexivity; try discriminate; lia.
Qed.

(** Keys that are distinct carry over to a second key that decides the
    first. *)
Lemma NoDup_map_transfer {A B C : Type} (f : A -> B) (g : A -> C)
      (l : list A) :
  NoDup (map f l) ->
  (forall x y, In x l -> In y l -> g x = g y -> f x = f y) ->
  NoDup (map g l).
Proof.
  induction l as [|a l IH]; simpl; intros Hnd Hfg; [constructor|].
  inversion Hnd as [|? ? Hnotin Hnd']; subst. constructor.
  - intros Hin. apply in_map_iff in Hin as (y & Ey & Hy).
    apply Hnotin. rewrite <- (Hfg y a) by auto. now apply in_map.
  - apply IH; auto.
Qed.

(** The loader registers one book per book name. *)
Lemma loaded_names_NoDup (data : list RawVerse.t) :
  NoDup (map BibleBook.name
           (JSMap.values (books (newMemStorage (Some data))))).
Proof.
  destruct (loadAll_loading data) as (_ & Hsame & Hkey & _).
  unfold newMemStorage, initializeBibleData. rewrite Hsame.
  rewrite <- (VerseFacts.keyedBy_keys _ _ Hkey). apply Hkey.
Qed.

Lemma loaded_orders_NoDup (data : list RawVerse.t) :
  ordinalNamesBook data ->
  NoDup (map BibleBook.order
           (JSMap.values (books (newMemStorage (Some data))))).
Proof.
  intros Hord.
  apply (NoDup_map_transfer BibleBook.name); [apply loaded_names_NoDup|].
  destruct (loadAll_loading data) as (_ & Hsame & _ & Hfrom).
  unfold newMemStorage, initializeBibleData. rewrite Hsame.
  intros x y Hx Hy Hxy.
  destruct (proj1 (Forall_forall _ _) Hfrom x Hx) as (ex & Hex & Nx & Ox & _).
  destruct (proj1 (Forall_forall _ _) Hfrom y Hy) as (ey & Hey & Ny & Oy & _).
  rewrite Nx, Ny. apply Hord; auto. congruence.
Qed.

Lemma loaded_testaments (data : list RawVerse.t) :
  Forall testamentByOrder (JSMap.values (books (newMemStorage (Some data)))).
Proof.
  destruct (loadAll_loading data) as (_ & Hsame & _ & Hfrom).
  unfold newMemStorage, initializeBibleData. rewrite Hsame.
  revert Hfrom. apply Forall_impl. apply fromEntry_testament.
Qed.

End LoaderFacts.

(** C9 as stated fails on a dataset in which two book names share an
    ordinal: the loader registers a book for each name, both of order 1. *)
Lemma C9_orders_counterexample :
  ~ NoDup (map BibleBook.order
             (JSMap.values
                (books (newMemStorage
                          (Some [ RawVerse.mk 1 "Genesis" 1 1 "In the beginning";
                                  RawVerse.mk 1 "Gen" 1 2 "And the earth" ]))))).
Proof.
  vm_compute. intros H. inversion H as [|? ? Hnotin _]. apply Hnotin. now left.
Qed.

(** C9, amended. Every book the loader registers, from a dataset or from
    the fallback sample data, has the testament "Old" exactly when its
    order is at most 39; the orders of the registered books are pairwise
    distinct for the fallback sample data and for every dataset whose
    entries of one ordinal carry one book name. *)
Theorem C9_books (dataset : option (list RawVerse.t)) :
  Forall testamentByOrder (JSMap.values (books (newMemStorage dataset)))
  /\ ((forall data, dataset = Some data -> ordinalNamesBook data) ->
      NoDup (map BibleBook.order
               (JSMap.values (books (newMemStorage dataset))))).
Proof.
  destruct dataset as [data|].
  - split.
    + apply LoaderFacts.loaded_testaments.
    + intros Hord. apply LoaderFacts.loaded_orders_NoDup. now apply Hord.
  - split.
    + repeat constructor; try discriminate; simpl; lia.
    + intros _. vm_compute. repeat constructor; simpl; intuition discriminate.
Qed.

Lemma C9_books_witness :
  Forall testamentByOrder
    (JSMap.values
       (books (newMemStorage
                 (Some [ RawVerse.mk 1 "Genesis" 1 1 "In the beginning";
                         RawVerse.mk 1 "Gen" 1 2 "And the earth" ]))))
  /\ Forall testamentByOrder
       (JSMap.values
          (books (newMemStorage
                    (Some [ RawVerse.mk 1 "Genesis" 1 1 "In the beginning";
                            RawVerse.mk 43 "John" 3 16 "For God so loved" ]))))
  /\ NoDup (map BibleBook.order
              (JSMap.values
                 (books (newMemStorage
                           (Some [ RawVerse.mk 1 "Genesis" 1 1 "In the beginning";
                                   RawVerse.mk 43 "John" 3 16 "For God so loved" ]))))).
Proof.
  split.
  - apply (C9_books
             (Some [ RawVerse.mk 1 "Genesis" 1 1 "In the beginning";
                     RawVerse.mk 1 "Gen" 1 2 "And the earth" ])).
  - destruct (C9_books
                (Some [ RawVerse.mk 1 "Genesis" 1 1 "In the beginning";
                        RawVerse.mk 43 "John" 3 16 "For God so loved" ]))
      as [Htest Hord].
    split; [exact Htest|]. apply Hord.
    intros data E. inversion E; subst. intros e1 e2 H1 H2 Hb. simpl in H1, H2.
    destruct H1 as [<-|[<-|[]]]; destruct H2 as [<-|[<-|[]]];
      simpl in *; try reflexivity; discriminate.
Defined.

(* ================================================================== *)
(** ** Further properties of the store

    What follows covers the rest of [MemStorage]: the listing methods,
    the per-user views, the loader's books, verses and ids, and how the
    operations compose. *)

Module MoreMapFacts.
Import MapFacts.
Local Open Scope list_scope.

Section Keys.
Context {K V : Type}.
Variable eqb : K -> K -> bool.
Hypothesis eqb_eq : forall a b, eqb a b = true <-> a = b.

Lemma get_set_same (k : K) (v : V) (m : list (K * V)) :
  JSMap.get eqb k (JSMap.set eqb k v m) = Some v.
Proof.
  induction m as [|[k' v'] m IH]; simpl.
  - now rewrite (eqb_refl eqb eqb_eq).
  - destruct (eqb k' k) eqn:E; simpl; rewrite E; auto.
Qed.

Lemma get_set_other (k k' : K) (v : V) (m : list (K * V)) :
  k <> k' -> JSMap.get eqb k (JSMap.set eqb k' v m) = JSMap.get eqb k m.
Proof.
  intros Hk. induction m as [|[k0 v0] m IH]; simpl.
  - rewrite (eqb_false eqb eqb_eq); auto.
  - destruct (eqb k0 k') eqn:E; simpl.
    + apply eqb_eq in E. subst k0.
      rewrite (eqb_false eqb eqb_eq k' k); auto.
    + destruct (eqb k0 k); auto.
Qed.

Lemma In_delete (k : K) (m : list (K * V)) (kv : K * V) :
  In kv (JSMap.delete eqb k m) -> In kv m.
Proof.
  induction m as [|[k' v'] m IH]; simpl; [tauto|].
  destruct (eqb k' k); simpl; [now right|].
  intros [H|H]; [now left | right; auto].
Qed.

Lemma length_set (k : K) (v : V) (m : list (K * V)) :
  (List.length m <= List.length (JSMap.set eqb k v m) <= S (List.length m))%nat.
Proof.
  induction m as [|[k' v'] m IH]; simpl; [lia|].
  destruct (eqb k' k); simpl; lia.
Qed.
End Keys.

Lemma values_app {K V : Type} (l1 l2 : list (K * V)) :
  JSMap.values (l1 ++ l2) = JSMap.values l1 ++ JSMap.values l2.
Proof. apply map_app. Qed.

Lemma filter_none {A : Type} (p : A -> bool) (l : list A) :
  (forall x, In x l -> p x = false) -> filter p l = [].
Proof.
  induction l as [|a l IH]; simpl; intros H; [reflexivity|].
  rewrite (H a) by now left. apply IH. intros x Hx. apply H. now right.
Qed.

End MoreMapFacts.

(** X1. The pattern of [searchVerses] matches a string exactly when it
    has the verse-reference shape, and then its three groups are the
    prefix with the words, the chapter digits and the verse digits. *)
Theorem X1_verseRefPattern_iff (s b c v : string) :
  verseRefPattern s = Some (b, c, v)
  <-> exists p w, b = p ++ w /\ verseRefShape s p w c v.
Proof.
  split.
  - apply PatternFacts.verseRefPattern_sound.
  - intros (p & w & -> & Hs). now apply PatternFacts.verseRefPattern_complete.
Qed.

(** X2. [getAllBooks] lists every stored book once, ascending by order;
    books of equal order keep their storage order. *)
Theorem X2_getAllBooks (st : MemStorage) :
  Permutation (getAllBooks st) (JSMap.values (books st))
  /\ StronglySorted (fun a b => BibleBook.order a <= BibleBook.order b)
       (getAllBooks st)
  /\ forall k,
       filter (fun bk => BibleBook.order bk =? k) (getAllBooks st)
       = filter (fun bk => BibleBook.order bk =? k) (JSMap.values (books st)).
Proof.
  unfold getAllBooks. split; [apply SortFacts.sort_perm|].
  split; [apply SortFacts.sort_sorted|].
  intros k. apply SortFacts.sort_stable.
Qed.

Module BookFacts.
Import MapFacts InvariantFacts.
Local Open Scope list_scope.

Lemma exec_books (st : MemStorage) (op : Op) : books (exec st op) = books st.
Proof.
  destruct op; simpl; try reflexivity.
  - unfold deleteHighlight. now destruct (find _ _).
  - unfold deleteBookmark. now destruct (find _ _).
Qed.

Lemma exec_verses (st : MemStorage) (op : Op) : verses (exec st op) = verses st.
Proof.
  destruct op; simpl; try reflexivity.
  - unfold deleteHighlight. now destruct (find _ _).
  - unfold deleteBookmark. now destruct (find _ _).
Qed.

(** The books and verses of a store are those of its construction. *)
Lemma reachable_corpus (st : MemStorage) :
  reachable st ->
  exists dataset, books st = books (newMemStorage dataset)
                  /\ verses st = verses (newMemStorage dataset).
Proof.
  induction 1 as [dataset | st op _ (dataset & Hb & Hv)].
  - now exists dataset.
  - exists dataset. now rewrite exec_books, exec_verses.
Qed.

Lemma book_names_NoDup (st : MemStorage) :
  reachable st -> NoDup (map BibleBook.name (JSMap.values (books st))).
Proof.
  intros Hr. destruct (reachable_corpus st Hr) as ([data|] & -> & _).
  - apply LoaderFacts.loaded_names_NoDup.
  - vm_compute. repeat constructor; simpl; intuition discriminate.
Qed.

Lemma find_unique {A B : Type} (f : A -> B) (p : A -> bool) (l : list A)
      (x : A) :
  NoDup (map f l) ->
  (forall y z, p y = true -> p z = true -> f y = f z) ->
  In x l -> p x = true -> find p l = Some x.
Proof.
  induction l as [|a l IH]; simpl; intros Hnd Hp Hin Hx; [contradiction|].
  inversion Hnd as [|? ? Hnotin Hnd']; subst.
  destruct (p a) eqn:Ha.
  - destruct Hin as [->|Hin]; [reflexivity|].
    exfalso. apply Hnotin. rewrite (Hp a x Ha Hx). now apply in_map.
  - destruct Hin as [->|Hin]; [congruence|]. now apply IH.
Qed.

End BookFacts.

(** X3. In every store the book names are pairwise distinct, and
    [getBookByName] returns the stored book of exactly that name, or
    [undefined] when no book has it. *)
Theorem X3_getBookByName (st : MemStorage) (name : string) :
  reachable st ->
  NoDup (map BibleBook.name (JSMap.values (books st)))
  /\ (forall bk, getBookByName st name = Some bk
                 <-> In bk (JSMap.values (books st))
                     /\ BibleBook.name bk = name)
  /\ (getBookByName st name = None
      <-> forall bk, In bk (JSMap.values (books st)) ->
                     BibleBook.name bk <> name).
Proof.
  intros Hr. pose proof (BookFacts.book_names_NoDup st Hr) as Hnd.
  split; [exact Hnd|]. unfold getBookByName. split.
  - intros bk. split.
    + intros H. apply find_some in H as [Hin Hn].
      apply String.eqb_eq in Hn. now split.
    + intros [Hin Hn].
      apply (BookFacts.find_unique BibleBook.name); auto.
      * intros y z Hy Hz. apply String.eqb_eq in Hy, Hz. congruence.
      * now apply String.eqb_eq.
  - rewrite DeleteFacts.find_None_iff. split; intros H bk Hin.
    + apply String.eqb_neq. auto.
    + apply String.eqb_neq. auto.
Qed.

Lemma X3_getBookByName_witness :
  NoDup (map BibleBook.name (JSMap.values (books (newMemStorage None))))
  /\ (forall bk, getBookByName (newMemStorage None) "John" = Some bk
                 <-> In bk (JSMap.values (books (newMemStorage None)))
                     /\ BibleBook.name bk = "John")
  /\ (getBookByName (newMemStorage None) "John" = None
      <-> forall bk, In bk (JSMap.values (books (newMemStorage None))) ->
                     BibleBook.name bk <> "John").
Proof.
  apply (X3_getBookByName (newMemStorage None) "John"). apply reachable_new.
Defined.

(* ================================================================== *)
(** ** The per-user views *)

Module ViewFacts.
Import MapFacts MoreMapFacts InvariantFacts.
Local Open Scope list_scope.

Lemma orDefault_nonempty (u : option string) : orDefault u <> "".
Proof. destruct u as [[|c u]|]; simpl; discriminate. Qed.

Lemma createHighlight_values (st : MemStorage) (h : InsertHighlight.t) :
  invariant st ->
  JSMap.values (highlightsList (snd (createHighlight st h)))
  = JSMap.values (highlightsList st) ++ [fst (createHighlight st h)].
Proof.
  intros Hinv. pose proof (CounterFacts.createHighlight_fresh st h Hinv) as Hf.
  simpl in *. rewrite (set_fresh Z.eqb Z.eqb_eq) by exact Hf.
  now rewrite values_app.
Qed.

Lemma createBookmark_values (st : MemStorage) (b : InsertBookmark.t) :
  invariant st ->
  JSMap.values (bookmarksList (snd (createBookmark st b)))
  = JSMap.values (bookmarksList st) ++ [fst (createBookmark st b)].
Proof.
  intros Hinv. pose proof (CounterFacts.createBookmark_fresh st b Hinv) as Hf.
  simpl in *. rewrite (set_fresh Z.eqb Z.eqb_eq) by exact Hf.
  now rewrite values_app.
Qed.

Lemma Forall_values_delete {V : Type} (P : V -> Prop) (k : Z)
      (m : list (Z * V)) :
  Forall P (JSMap.values m) -> Forall P (JSMap.values (JSMap.delete Z.eqb k m)).
Proof.
  rewrite !Forall_forall. intros H x Hx.
  apply VerseFacts.In_values in Hx as [k' Hx]. apply In_delete in Hx.
  apply H. apply VerseFacts.In_values. now exists k'.
Qed.

Lemma reachable_userIdsSet (st : MemStorage) : reachable st -> userIdsSet st.
Proof.
  induction 1 as [dataset | st op Hr [Hh Hb]].
  - assert (E : highlightsList (newMemStorage dataset) = []
                /\ bookmarksList (newMemStorage dataset) = []).
    { unfold newMemStorage, initializeBibleData. destruct dataset as [data|].
      - unfold loadAll.
        assert (G : forall entries acc,
                   highlightsList (snd acc) = [] /\ bookmarksList (snd acc) = [] ->
                   highlightsList (snd (fold_left (loadEntry data) entries acc)) = []
                   /\ bookmarksList (snd (fold_left (loadEntry data) entries acc)) = []).
        { induction entries as [|e entries IH]; intros acc Hacc; simpl; auto.
          apply IH. destruct acc as [bm s]. simpl in *. unfold loadEntry.
          destruct (negb _); simpl; exact Hacc. }
        apply G. now split.
      - now split. }
    destruct E as [E1 E2]. unfold userIdsSet. rewrite E1, E2. split; constructor.
  - apply reachable_invariant in Hr as Hinv.
    destruct op; cbn [exec]; try (split; assumption).
    + split; [|exact Hb].
      rewrite (createHighlight_values st highlight Hinv).
      apply Forall_app. split; [exact Hh|].
      constructor; [apply orDefault_nonempty | constructor].
    + unfold deleteHighlight. destruct (find _ _); [|split; assumption].
      split; [|exact Hb]. now apply Forall_values_delete.
    + split; [exact Hh|].
      rewrite (createBookmark_values st bookmark Hinv).
      apply Forall_app. split; [exact Hb|].
      constructor; [apply orDefault_nonempty | constructor].
    + unfold deleteBookmark. destruct (find _ _); [|split; assumption].
      split; [exact Hh|]. now apply Forall_values_delete.
Qed.

Lemma createBookmark_delete (st : MemStorage) (b : InsertBookmark.t) :
  invariant st ->
  (forall x, In x (JSMap.values (bookmarksList st)) ->
             bookmarkHit (InsertBookmark.verseId b)
               (orDefault (InsertBookmark.userId b)) x = false) ->
  bookmarksList
    (deleteBookmark (snd (createBookmark st b)) (InsertBookmark.verseId b)
       (Some (orDefault (InsertBookmark.userId b))))
  = bookmarksList st.
Proof.
  intros Hinv Hno.
  pose proof (createBookmark_invariant st b Hinv) as Hinv'.
  pose proof (CounterFacts.createBookmark_fresh st b Hinv) as Hfresh.
  unfold deleteBookmark. simpl in *.
  rewrite (set_fresh Z.eqb Z.eqb_eq) in * by exact Hfresh.
  unfold JSMap.values. rewrite map_app. simpl.
  rewrite (RoundTripFacts.find_app_skip _ _ _ Hno). simpl.
  unfold bookmarkHit at 1. simpl. rewrite !String.eqb_refl. simpl.
  rewrite (delete_split Z.eqb Z.eqb_eq).
  - apply app_nil_r.
  - destruct Hinv' as [_ _ _ [_ Hnd] _ _ _]. exact Hnd.
Qed.

(** What one removal does to the matching and to the other entries. *)
Lemma removesFirst_counts {V : Type} (p : V -> bool)
      (before after : list (Z * V)) :
  removesFirst p before after ->
  filter (fun x => negb (p x)) (JSMap.values after)
  = filter (fun x => negb (p x)) (JSMap.values before)
  /\ S (List.length (filter p (JSMap.values after)))
     = List.length (filter p (JSMap.values before))
  /\ S (List.length after) = List.length before.
Proof.
  intros (l1 & k & x & l2 & -> & Hx & _ & ->).
  rewrite !values_app. simpl. rewrite !filter_app. simpl. rewrite Hx. simpl.
  rewrite !length_app. simpl. repeat split; lia.
Qed.

End ViewFacts.

(** X4. In every store a created highlight goes to the end of the
    listing of its own user (the given user id, "default" when it is
    missing or empty) and changes the listing of no other user; the same
    holds of bookmarks. *)
Theorem X4_create_view (st : MemStorage) (h : InsertHighlight.t)
        (b : InsertBookmark.t) (userId : option string) :
  reachable st ->
  getHighlights (snd (createHighlight st h)) userId
  = (if String.eqb (orDefault (InsertHighlight.userId h)) (defaultArg userId)
     then getHighlights st userId ++ [fst (createHighlight st h)]
     else getHighlights st userId)%list
  /\ getBookmarks (snd (createBookmark st b)) userId
     = (if String.eqb (orDefault (InsertBookmark.userId b)) (defaultArg userId)
        then getBookmarks st userId ++ [fst (createBookmark st b)]
        else getBookmarks st userId)%list.
Proof.
  intros Hr. apply InvariantFacts.reachable_invariant in Hr as Hinv.
  unfold getHighlights, getBookmarks.
  rewrite (ViewFacts.createHighlight_values st h Hinv).
  rewrite (ViewFacts.createBookmark_values st b Hinv).
  rewrite !filter_app. simpl.
  destruct (String.eqb (orDefault (InsertHighlight.userId h)) (defaultArg userId));
    destruct (String.eqb (orDefault (InsertBookmark.userId b)) (defaultArg userId));
    rewrite ?app_nil_r; split; reflexivity.
Qed.

Lemma X4_create_view_witness :
  getHighlights
    (snd (createHighlight (newMemStorage None)
            (InsertHighlight.mk "John:3:16" "yellow" (Some ""))))
    None
  = (if String.eqb (orDefault (Some "")) (defaultArg None)
     then getHighlights (newMemStorage None) None
          ++ [fst (createHighlight (newMemStorage None)
                     (InsertHighlight.mk "John:3:16" "yellow" (Some "")))]
     else getHighlights (newMemStorage None) None)%list
  /\ getBookmarks
       (snd (createBookmark (newMemStorage None)
               (InsertBookmark.mk "John:3:16" (Some "ann"))))
       None
     = (if String.eqb (orDefault (Some "ann")) (defaultArg None)
        then getBookmarks (newMemStorage None) None
             ++ [fst (createBookmark (newMemStorage None)
                        (InsertBookmark.mk "John:3:16" (Some "ann")))]
        else getBookmarks (newMemStorage None) None)%list.
Proof.
  apply (X4_create_view (newMemStorage None)
           (InsertHighlight.mk "John:3:16" "yellow" (Some ""))
           (InsertBookmark.mk "John:3:16" (Some "ann")) None).
  apply reachable_new.
Defined.

(** X5. No stored highlight or bookmark ever has the empty user id: a
    create replaces it by "default".  So listing for the user id "" gives
    the empty list and deleting for the user id "" changes nothing,
    although creating with the user id "" stores under "default". *)
Theorem X5_empty_userId (st : MemStorage) (verseId : string) :
  reachable st ->
  Forall (fun h => Highlight.userId h <> "") (JSMap.values (highlightsList st))
  /\ Forall (fun b => Bookmark.userId b <> "") (JSMap.values (bookmarksList st))
  /\ getHighlights st (Some "") = []
  /\ getBookmarks st (Some "") = []
  /\ deleteHighlight st verseId (Some "") = st
  /\ deleteBookmark st verseId (Some "") = st.
Proof.
  intros Hr. destruct (ViewFacts.reachable_userIdsSet st Hr) as [Hh Hb].
  rewrite Forall_forall in Hh, Hb.
  assert (Hh' : forall h, In h (JSMap.values (highlightsList st)) ->
                          String.eqb (Highlight.userId h) "" = false)
    by (intros h Hin; apply String.eqb_neq; auto).
  assert (Hb' : forall b, In b (JSMap.values (bookmarksList st)) ->
                          String.eqb (Bookmark.userId b) "" = false)
    by (intros b Hin; apply String.eqb_neq; auto).
  repeat split.
  - now apply Forall_forall.
  - now apply Forall_forall.
  - apply MoreMapFacts.filter_none. exact Hh'.
  - apply MoreMapFacts.filter_none. exact Hb'.
  - apply DeleteFacts.deleteHighlight_none. intros h Hin.
    unfold highlightHit. simpl. rewrite (Hh' h Hin). apply andb_false_r.
  - apply DeleteFacts.deleteBookmark_none. intros b Hin.
    unfold bookmarkHit. simpl. rewrite (Hb' b Hin). apply andb_false_r.
Qed.

Lemma X5_empty_userId_witness :
  let st := snd (createHighlight (newMemStorage None)
                   (InsertHighlight.mk "John:3:16" "yellow" (Some ""))) in
  Forall (fun h => Highlight.userId h <> "") (JSMap.values (highlightsList st))
  /\ Forall (fun b => Bookmark.userId b <> "") (JSMap.values (bookmarksList st))
  /\ getHighlights st (Some "") = []
  /\ getBookmarks st (Some "") = []
  /\ deleteHighlight st "John:3:16" (Some "") = st
  /\ deleteBookmark st "John:3:16" (Some "") = st.
Proof.
  apply (X5_empty_userId
           (snd (createHighlight (newMemStorage None)
                   (InsertHighlight.mk "John:3:16" "yellow" (Some ""))))
           "John:3:16").
  apply (reachable_exec (newMemStorage None)
           (CreateHighlight (InsertHighlight.mk "John:3:16" "yellow" (Some "")))).
  apply reachable_new.
Defined.

(** X6. In every store that holds no highlight (bookmark) of the verse id
    and user of the input, creating and then deleting for that verse id
    and user gives back the collection exactly as it was; only the
    counter has moved. *)
Theorem X6_create_delete (st : MemStorage) (h : InsertHighlight.t)
        (b : InsertBookmark.t) :
  reachable st ->
  ((forall x, In x (JSMap.values (highlightsList st)) ->
              highlightHit (InsertHighlight.verseId h)
                (orDefault (InsertHighlight.userId h)) x = false) ->
   highlightsList
     (deleteHighlight (snd (createHighlight st h)) (InsertHighlight.verseId h)
        (Some (orDefault (InsertHighlight.userId h))))
   = highlightsList st)
  /\ ((forall x, In x (JSMap.values (bookmarksList st)) ->
                 bookmarkHit (InsertBookmark.verseId b)
                   (orDefault (InsertBookmark.userId b)) x = false) ->
      bookmarksList
        (deleteBookmark (snd (createBookmark st b)) (InsertBookmark.verseId b)
           (Some (orDefault (InsertBookmark.userId b))))
      = bookmarksList st).
Proof.
  intros Hr. apply InvariantFacts.reachable_invariant in Hr as Hinv. split.
  - now apply RoundTripFacts.create_delete.
  - now apply ViewFacts.createBookmark_delete.
Qed.

Lemma X6_create_delete_witness :
  ((forall x, In x (JSMap.values (highlightsList (newMemStorage None))) ->
              highlightHit "John:3:16" (orDefault (Some "ann")) x = false) ->
   highlightsList
     (deleteHighlight
        (snd (createHighlight (newMemStorage None)
                (InsertHighlight.mk "John:3:16" "blue" (Some "ann"))))
        "John:3:16" (Some (orDefault (Some "ann"))))
   = highlightsList (newMemStorage None))
  /\ ((forall x, In x (JSMap.values (bookmarksList (newMemStorage None))) ->
                 bookmarkHit "Genesis:1:1" (orDefault None) x = false) ->
      bookmarksList
        (deleteBookmark
           (snd (createBookmark (newMemStorage None)
                   (InsertBookmark.mk "Genesis:1:1" None)))
           "Genesis:1:1" (Some (orDefault None)))
      = bookmarksList (newMemStorage None)).
Proof.
  apply (X6_create_delete (newMemStorage None)
           (InsertHighlight.mk "John:3:16" "blue" (Some "ann"))
           (InsertBookmark.mk "Genesis:1:1" None)).
  apply reachable_new.
Defined.

(** X7. In every store a delete keeps every highlight (bookmark) that
    does not match the verse id and user, in order; of the matching ones
    it removes one when there is any, so as many deletes as there are
    duplicates are needed to clear them. *)
Theorem X7_delete_counts (st : MemStorage) (verseId : string)
        (userId : option string) :
  reachable st ->
  (filter (fun h => negb (highlightHit verseId (defaultArg userId) h))
     (JSMap.values (highlightsList (deleteHighlight st verseId userId)))
   = filter (fun h => negb (highlightHit verseId (defaultArg userId) h))
       (JSMap.values (highlightsList st))
   /\ List.length
        (filter (highlightHit verseId (defaultArg userId))
           (JSMap.values (highlightsList (deleteHighlight st verseId userId))))
      = Nat.pred
          (List.length
             (filter (highlightHit verseId (defaultArg userId))
                (JSMap.values (highlightsList st)))))
  /\ (filter (fun b => negb (bookmarkHit verseId (defaultArg userId) b))
        (JSMap.values (bookmarksList (deleteBookmark st verseId userId)))
      = filter (fun b => negb (bookmarkHit verseId (defaultArg userId) b))
          (JSMap.values (bookmarksList st))
      /\ List.length
           (filter (bookmarkHit verseId (defaultArg userId))
              (JSMap.values (bookmarksList (deleteBookmark st verseId userId))))
         = Nat.pred
             (List.length
                (filter (bookmarkHit verseId (defaultArg userId))
                   (JSMap.values (bookmarksList st))))).
Proof.
  intros Hr. apply InvariantFacts.reachable_invariant in Hr as Hinv. split.
  - destruct (find (highlightHit verseId (defaultArg userId))
                (JSMap.values (highlightsList st))) as [h|] eqn:Hfind.
    + apply find_some in Hfind as Hex.
      destruct (ViewFacts.removesFirst_counts _ _ _
                  (DeleteFacts.deleteHighlight_first st verseId userId Hinv
                     (ex_intro _ h Hex))) as (E1 & E2 & _).
      split; [exact E1|]. rewrite <- E2. reflexivity.
    + pose proof (find_none _ _ Hfind) as Hno.
      rewrite (DeleteFacts.deleteHighlight_none st verseId userId Hno).
      split; [reflexivity|].
      now rewrite (MoreMapFacts.filter_none _ _ Hno).
  - destruct (find (bookmarkHit verseId (defaultArg userId))
                (JSMap.values (bookmarksList st))) as [b|] eqn:Hfind.
    + apply find_some in Hfind as Hex.
      destruct (ViewFacts.removesFirst_counts _ _ _
                  (DeleteFacts.deleteBookmark_first st verseId userId Hinv
                     (ex_intro _ b Hex))) as (E1 & E2 & _).
      split; [exact E1|]. rewrite <- E2. reflexivity.
    + pose proof (find_none _ _ Hfind) as Hno.
      rewrite (DeleteFacts.deleteBookmark_none st verseId userId Hno).
      split; [reflexivity|].
      now rewrite (MoreMapFacts.filter_none _ _ Hno).
Qed.

Lemma X7_delete_counts_witness :
  let st := run [CreateHighlight (InsertHighlight.mk "John:3:16" "yellow" None);
                 CreateHighlight (InsertHighlight.mk "John:3:16" "blue" None)]
              (newMemStorage None) in
  (filter (fun h => negb (highlightHit "John:3:16" (defaultArg None) h))
     (JSMap.values (highlightsList (deleteHighlight st "John:3:16" None)))
   = filter (fun h => negb (highlightHit "John:3:16" (defaultArg None) h))
       (JSMap.values (highlightsList st))
   /\ List.length
        (filter (highlightHit "John:3:16" (defaultArg None))
           (JSMap.values (highlightsList (deleteHighlight st "John:3:16" None))))
      = Nat.pred
          (List.length
             (filter (highlightHit "John:3:16" (defaultArg None))
                (JSMap.values (highlightsList st)))))
  /\ (filter (fun b => negb (bookmarkHit "John:3:16" (defaultArg None) b))
        (JSMap.values (bookmarksList (deleteBookmark st "John:3:16" None)))
      = filter (fun b => negb (bookmarkHit "John:3:16" (defaultArg None) b))
          (JSMap.values (bookmarksList st))
      /\ List.length
           (filter (bookmarkHit "John:3:16" (defaultArg None))
              (JSMap.values (bookmarksList (deleteBookmark st "John:3:16" None))))
         = Nat.pred
             (List.length
                (filter (bookmarkHit "John:3:16" (defaultArg None))
                   (JSMap.values (bookmarksList st))))).
Proof.
  apply (X7_delete_counts
           (run [CreateHighlight (InsertHighlight.mk "John:3:16" "yellow" None);
                 CreateHighlight (InsertHighlight.mk "John:3:16" "blue" None)]
              (newMemStorage None))
           "John:3:16" None).
  apply InvariantFacts.run_reachable. apply reachable_new.
Defined.

(** X8. In every store the ids of the stored books, of the stored
    highlights and of the stored bookmarks are pairwise distinct within
    their kind and below the counter of their kind. *)
Theorem X8_distinct_ids (st : MemStorage) :
  reachable st ->
  (NoDup (map BibleBook.id (JSMap.values (books st)))
   /\ Forall (fun bk => BibleBook.id bk < currentBookId st)
        (JSMap.values (books st)))
  /\ (NoDup (map Highlight.id (JSMap.values (highlightsList st)))
      /\ Forall (fun h => Highlight.id h < currentHighlightId st)
           (JSMap.values (highlightsList st)))
  /\ (NoDup (map Bookmark.id (JSMap.values (bookmarksList st)))
      /\ Forall (fun b => Bookmark.id b < currentBookmarkId st)
           (JSMap.values (bookmarksList st))).
Proof.
  intros Hr. apply InvariantFacts.reachable_invariant in Hr as Hinv.
  destruct Hinv as [_ Hb Hh Hm Hbi Hhi Hmi].
  rewrite (VerseFacts.keyedBy_keys _ _ Hb) in Hbi.
  rewrite (VerseFacts.keyedBy_keys _ _ Hh) in Hhi.
  rewrite (VerseFacts.keyedBy_keys _ _ Hm) in Hmi.
  pose proof (proj2 Hb) as Nb. rewrite (VerseFacts.keyedBy_keys _ _ Hb) in Nb.
  pose proof (proj2 Hh) as Nh. rewrite (VerseFacts.keyedBy_keys _ _ Hh) in Nh.
  pose proof (proj2 Hm) as Nm. rewrite (VerseFacts.keyedBy_keys _ _ Hm) in Nm.
  rewrite Forall_map in Hbi, Hhi, Hmi. auto.
Qed.

Lemma X8_distinct_ids_witness :
  let st := run [CreateHighlight (InsertHighlight.mk "John:3:16" "yellow" None);
                 DeleteHighlight "John:3:16" None;
                 CreateHighlight (InsertHighlight.mk "John:3:16" "blue" None)]
              (newMemStorage None) in
  (NoDup (map BibleBook.id (JSMap.values (books st)))
   /\ Forall (fun bk => BibleBook.id bk < currentBookId st)
        (JSMap.values (books st)))
  /\ (NoDup (map Highlight.id (JSMap.values (highlightsList st)))
      /\ Forall (fun h => Highlight.id h < currentHighlightId st)
           (JSMap.values (highlightsList st)))
  /\ (NoDup (map Bookmark.id (JSMap.values (bookmarksList st)))
      /\ Forall (fun b => Bookmark.id b < currentBookmarkId st)
           (JSMap.values (bookmarksList st))).
Proof.
  apply (X8_distinct_ids
           (run [CreateHighlight (InsertHighlight.mk "John:3:16" "yellow" None);
                 DeleteHighlight "John:3:16" None;
                 CreateHighlight (InsertHighlight.mk "John:3:16" "blue" None)]
              (newMemStorage None))).
  apply InvariantFacts.run_reachable. apply reachable_new.
Defined.

(* ================================================================== *)
(** ** More about [searchVerses] and [getVersesByBook] *)

Module MoreSearchFacts.
Import StringFacts.
Local Open Scope list_scope.

Lemma includes_empty (s : string) : includes s "" = true.
Proof. rewrite includes_unfold. now destruct s. Qed.

Lemma lowerChar_space (c : ascii) : isSpace (lowerChar c) = isSpace c.
Proof. destruct c as [[] [] [] [] [] [] [] []]; reflexivity. Qed.

Lemma trimStart_blank (s : string) :
  JSString.forallb isSpace s = true -> trimStart s = "".
Proof.
  induction s as [|c s IH]; simpl; [reflexivity|].
  intros H. apply andb_true_iff in H as [Hc Hs]. rewrite Hc. now apply IH.
Qed.

Lemma toLowerCase_blank (s : string) :
  JSString.forallb isSpace s = true ->
  JSString.forallb isSpace (toLowerCase s) = true.
Proof.
  induction s as [|c s IH]; simpl; [reflexivity|].
  intros H. apply andb_true_iff in H as [Hc Hs].
  now rewrite lowerChar_space, Hc, IH.
Qed.

Lemma normalize_blank (query : string) :
  JSString.forallb isSpace query = true -> trim (toLowerCase query) = "".
Proof.
  intros H. unfold trim.
  now rewrite (trimStart_blank _ (toLowerCase_blank _ H)).
Qed.

Lemma firstn_one_filter {A : Type} (p : A -> bool) (l : list A) :
  match find p l with Some x => [x] | None => [] end = firstn 1 (filter p l).
Proof.
  rewrite SearchFacts.filter_head. now destruct (filter p l).
Qed.

End MoreSearchFacts.

(** X9. Whatever the query, the answer of [searchVerses] is a selection
    of the stored verses in storage order, cut after some number of them:
    no verse is made up, repeated or moved. *)
Theorem X9_search_selection (st : MemStorage) (query : string) :
  exists (p : BibleVerse.t -> bool) (n : nat),
    searchVerses st query = firstn n (filter p (JSMap.values (verses st))).
Proof.
  unfold searchVerses.
  destruct (verseRefPattern (trim (toLowerCase query))) as [[[b c] v]|].
  - unfold referenceBranch. eexists _, 1%nat.
    apply MoreSearchFacts.firstn_one_filter.
  - assert (Hfull : exists p n,
               fullTextBranch st (trim (toLowerCase query))
               = firstn n (filter p (JSMap.values (verses st)))).
    { eexists _, _. unfold fullTextBranch. symmetry. apply firstn_all. }
    destruct (filter (bookNameHit _) _) as [|first rest]; [exact Hfull|].
    destruct (2 <? String.length (trim (toLowerCase query)))%nat; [|exact Hfull].
    eexists _, 10%nat. reflexivity.
Qed.

(** X10. A query of white space only (blanks, tabs, line breaks) is
    answered with the whole corpus in storage order. *)
Theorem X10_search_blank (st : MemStorage) (query : string) :
  JSString.forallb isSpace query = true ->
  searchVerses st query = JSMap.values (verses st).
Proof.
  intros H. unfold searchVerses.
  rewrite (MoreSearchFacts.normalize_blank _ H).
  change (verseRefPattern "") with (@None (string * string * string)).
  assert (E : fullTextBranch st "" = JSMap.values (verses st)).
  { unfold fullTextBranch. apply forallb_filter_id. apply forallb_forall.
    intros x _. unfold textHit. now rewrite !MoreSearchFacts.includes_empty. }
  destruct (filter (bookNameHit "") _); simpl; exact E.
Qed.

Lemma X10_search_blank_witness :
  searchVerses (newMemStorage None) "   "
  = JSMap.values (verses (newMemStorage None)).
Proof.
  apply (X10_search_blank (newMemStorage None) "   "). reflexivity.
Defined.

Module MoreSortFacts.
Local Open Scope list_scope.

Section ByKey.
Context {A : Type}.
Variable key : A -> Z.
Variable p : A -> bool.

Lemma insert_front (x : A) (l : list A) :
  Forall (fun y => key x <= key y) l ->
  JSArray.insert (fun a b => key a - key b) x l = x :: l.
Proof.
  destruct l as [|y l]; simpl; [reflexivity|].
  intros H. inversion H; subst.
  destruct (Z.leb_spec (key x - key y) 0); [reflexivity | lia].
Qed.

Lemma filter_insert (x : A) (l : list A) :
  StronglySorted (fun a b => key a <= key b) l ->
  filter p (JSArray.insert (fun a b => key a - key b) x l)
  = if p x then JSArray.insert (fun a b => key a - key b) x (filter p l)
    else filter p l.
Proof.
  induction 1 as [|y l Hs IH Hy]; simpl.
  - now destruct (p x).
  - destruct (Z.leb_spec (key x - key y) 0) as [Hle|Hgt]; simpl.
    + destruct (p x) eqn:Hx; [|reflexivity].
      symmetry. f_equal. apply insert_front.
      assert (Hall : Forall (fun z => key x <= key z) (y :: l)).
      { constructor; [lia|]. revert Hy. apply Forall_impl. intros; lia. }
      apply Forall_forall. intros z Hz.
      change (if p y then y :: filter p l else filter p l)
        with (filter p (y :: l)) in Hz.
      apply filter_In in Hz as [Hz _].
      exact (proj1 (Forall_forall _ _) Hall z Hz).
    + rewrite IH. destruct (p x) eqn:Hx; destruct (p y) eqn:Hpy; simpl;
        try reflexivity.
      destruct (Z.leb_spec (key x - key y) 0); [lia | reflexivity].
Qed.

(** Filtering before or after the sort gives the same list. *)
Lemma sort_filter (l : list A) :
  JSArray.sort (fun a b => key a - key b) (filter p l)
  = filter p (JSArray.sort (fun a b => key a - key b) l).
Proof.
  induction l as [|x l IH]; [reflexivity|].
  cbn [JSArray.sort fold_right filter].
  change (fold_right (JSArray.insert (fun a b => key a - key b)) [] l)
    with (JSArray.sort (fun a b => key a - key b) l).
  rewrite filter_insert by apply SortFacts.sort_sorted.
  destruct (p x); [|exact IH].
  cbn [JSArray.sort fold_right]. f_equal. exact IH.
Qed.
End ByKey.

Lemma filter_both {A : Type} (f g : A -> bool) (l : list A) :
  filter f (filter g l) = filter (fun x => g x && f x) l.
Proof.
  induction l as [|a l IH]; simpl; [reflexivity|].
  destruct (g a); simpl; [|exact IH]. destruct (f a); now rewrite IH.
Qed.

End MoreSortFacts.

(** X11. [getVersesByBook] with the chapter 0 is the listing without a
    chapter, and with any other chapter it is the part of that listing
    that lies in the chapter, in the same order; for a book with no
    stored verse both are empty. *)
Theorem X11_getVersesByBook_chapter (st : MemStorage) (b : string) (c : Z) :
  getVersesByBook st b (Some 0) = getVersesByBook st b None
  /\ (c <> 0 ->
      getVersesByBook st b (Some c)
      = filter (fun x => BibleVerse.chapter x =? c) (getVersesByBook st b None))
  /\ ((forall x, In x (JSMap.values (verses st)) -> BibleVerse.book x <> b) ->
      getVersesByBook st b None = []).
Proof.
  unfold getVersesByBook. split; [|split].
  - reflexivity.
  - intros Hc.
    rewrite <- (MoreSortFacts.sort_filter BibleVerse.verse).
    apply (f_equal (JSArray.sort _)).
    rewrite MoreSortFacts.filter_both. apply filter_ext. intros x.
    unfold chapterFilter.
    destruct (Z.eqb_spec c 0) as [E|_]; [contradiction|].
    destruct (String.eqb (BibleVerse.book x) b);
      destruct (BibleVerse.chapter x =? c); reflexivity.
  - intros Hno. rewrite MoreMapFacts.filter_none; [reflexivity|].
    intros x Hx. apply Hno in Hx. apply String.eqb_neq in Hx. now rewrite Hx.
Qed.

Lemma X11_getVersesByBook_chapter_witness :
  getVersesByBook (newMemStorage None) "John" (Some 0)
  = getVersesByBook (newMemStorage None) "John" None
  /\ (3 <> 0 ->
      getVersesByBook (newMemStorage None) "John" (Some 3)
      = filter (fun x => BibleVerse.chapter x =? 3)
          (getVersesByBook (newMemStorage None) "John" None))
  /\ ((forall x, In x (JSMap.values (verses (newMemStorage None))) ->
                 BibleVerse.book x <> "John") ->
      getVersesByBook (newMemStorage None) "John" None = []).
Proof.
  apply (X11_getVersesByBook_chapter (newMemStorage None) "John" 3).
Defined.

(* ================================================================== *)
(** ** What the loader stores *)

Module CorpusFacts.
Import MapFacts MoreMapFacts InvariantFacts KeyFacts.
Local Open Scope list_scope.

(** A fold seen as a run over the prefixes of its input. *)
Lemma fold_left_prefix {A B : Type} (f : B -> A -> B)
      (P : list A -> B -> Prop) (data : list A) (acc0 : B) :
  P [] acc0 ->
  (forall pre e rest acc,
      data = pre ++ e :: rest -> P pre acc -> P (pre ++ [e]) (f acc e)) ->
  P data (fold_left f data acc0).
Proof.
  intros H0 Hstep.
  assert (G : forall rest pre acc,
             data = pre ++ rest -> P pre acc -> P data (fold_left f rest acc)).
  { induction rest as [|e rest IH]; intros pre acc E Hacc; simpl.
    - rewrite app_nil_r in E. now subst.
    - apply (IH (pre ++ [e])).
      + now rewrite <- app_assoc.
      + now apply (Hstep pre e rest). }
  now apply (G data []).
Qed.

(** The last element of a non-empty split. *)
Lemma snoc_split {A : Type} (pre l1 l2 : list A) (e0 e : A) :
  pre ++ [e0] = l1 ++ e :: l2 ->
  (l2 = [] /\ e = e0 /\ l1 = pre)
  \/ exists l2', l2 = l2' ++ [e0] /\ pre = l1 ++ e :: l2'.
Proof.
  intros E. destruct l2 as [|y l2].
  - left. destruct (app_inj_tail _ _ _ _ E) as [-> ->]. auto.
  - right. destruct (exists_last (l := y :: l2)) as (l2' & z & E2);
      [discriminate|].
    rewrite E2 in E. change (l1 ++ e :: l2' ++ [z]) with (l1 ++ (e :: l2') ++ [z]) in E.
    rewrite app_assoc in E. destruct (app_inj_tail _ _ _ _ E) as [-> ->].
    exists l2'. now rewrite E2.
Qed.

(** The last occurrence of a property in a list. *)
Lemma last_occurrence {A : Type} (P : A -> Prop) (l : list A) :
  (forall x, P x \/ ~ P x) ->
  (exists x, In x l /\ P x) ->
  exists l1 e l2, l = l1 ++ e :: l2 /\ P e /\ forall x, In x l2 -> ~ P x.
Proof.
  intros Hdec. induction l as [|a l IH]; intros (x & Hin & Hx); [contradiction|].
  assert (Hl : (exists y, In y l /\ P y) \/ ~ (exists y, In y l /\ P y)).
  { clear IH Hin. induction l as [|b l IHl].
    - right. intros (y & [] & _).
    - destruct (Hdec b) as [Hb|Hb]; [left; exists b; simpl; auto|].
      destruct IHl as [(y & Hy & Py)|Hn].
      + left. exists y. simpl. auto.
      + right. intros (y & [<-|Hy] & Py); auto. apply Hn. now exists y. }
  destruct Hl as [Hl|Hl].
  - destruct (IH Hl) as (l1 & e & l2 & -> & He & Hl2).
    now exists (a :: l1), e, l2.
  - exists [], a, l. simpl. repeat split.
    + destruct Hin as [->|Hin]; [exact Hx|]. exfalso. apply Hl. now exists x.
    + intros y Hy Py. apply Hl. now exists y.
Qed.

(** The first occurrence of a property in a list. *)
Lemma first_occurrence {A : Type} (P : A -> Prop) (l : list A) :
  (forall x, P x \/ ~ P x) ->
  (exists x, In x l /\ P x) ->
  exists l1 e l2, l = l1 ++ e :: l2 /\ P e /\ forall x, In x l1 -> ~ P x.
Proof.
  intros Hdec. induction l as [|a l IH]; intros (x & Hin & Hx); [contradiction|].
  destruct (Hdec a) as [Ha|Ha].
  - exists [], a, l. simpl. repeat split; auto.
  - destruct Hin as [->|Hin]; [contradiction|].
    destruct (IH (ex_intro _ x (conj Hin Hx))) as (l1 & e & l2 & -> & He & Hl1).
    exists (a :: l1), e, l2. simpl. repeat split; auto.
    intros y [<-|Hy]; auto.
Qed.

Lemma some_entry (k : string) (l : list RawVerse.t) :
  ~ (forall e, In e l -> rawKey e <> k) -> exists e, In e l /\ rawKey e = k.
Proof.
  induction l as [|a l IH]; intros Hn.
  - exfalso. apply Hn. intros e [].
  - destruct (string_dec (rawKey a) k) as [Ea|Na].
    + exists a. split; [now left | exact Ea].
    + destruct IH as (e & He & Ek).
      * intros Hall. apply Hn. intros e [<-|He]; auto.
      * exists e. split; [now right | exact Ek].
Qed.

Lemma rawKey_triple (e e' : RawVerse.t) :
  rawKey e' = rawKey e <-> rawTriple e' = rawTriple e.
Proof.
  unfold rawKey, rawTriple. split.
  - intros H. apply verseKey_inj in H as (-> & -> & ->). reflexivity.
  - intros H. inversion H. reflexivity.
Qed.

Lemma loadEntry_verses (data : list RawVerse.t)
      (acc : list (string * BibleBook.t) * MemStorage) (e : RawVerse.t) :
  verses (snd (loadEntry data acc e))
  = JSMap.set String.eqb (rawKey e) (verseOf (currentVerseId (snd acc)) e)
      (verses (snd acc))
  /\ currentVerseId (snd (loadEntry data acc e)) = currentVerseId (snd acc) + 1.
Proof.
  destruct acc as [bookMap st]. unfold loadEntry.
  destruct (negb (JSMap.has String.eqb (RawVerse.book_name e) bookMap));
    split; reflexivity.
Qed.

Lemma loadAll_versesLoaded (data : list RawVerse.t) :
  versesLoaded data data (loadAll data emptyStorage).
Proof.
  unfold loadAll.
  apply (fold_left_prefix (loadEntry data) (versesLoaded data)).
  - split; [|split; [|split]].
    + split; [apply invariant_empty|]. repeat split; simpl; constructor.
    + reflexivity.
    + intros l1 e l2 E. destruct l1; discriminate.
    + reflexivity.
  - intros pre e0 rest acc Edata (Hload & Hid & Hlast & Hnone).
    pose proof (loadEntry_verses data acc e0) as [Ev Ec].
    split; [|split; [|split]].
    + apply LoaderFacts.loadEntry_loading; auto.
      rewrite Edata. apply in_or_app. right. now left.
    + rewrite Ec, Hid, length_app. simpl. lia.
    + intros l1 e l2 E Hl2. rewrite Ev.
      destruct (snoc_split _ _ _ _ _ E) as [(-> & -> & ->) | (l2' & -> & ->)].
      * rewrite (get_set_same String.eqb String.eqb_eq). now rewrite Hid.
      * rewrite (get_set_other String.eqb String.eqb_eq).
        -- apply (Hlast l1 e l2' eq_refl).
           intros e' He'. apply Hl2. apply in_or_app. now left.
        -- intros Hk. apply (Hl2 e0); [apply in_or_app; right; now left|].
           now symmetry.
    + intros k Hk. rewrite Ev.
      rewrite (get_set_other String.eqb String.eqb_eq).
      * apply Hnone. intros e He. apply Hk. apply in_or_app. now left.
      * intros Ek. apply (Hk e0); [apply in_or_app; right; now left|].
        now symmetry.
Qed.

(** The stored verses are the last entries of the triples. *)
Lemma loaded_verses (data : list RawVerse.t) (x : BibleVerse.t) :
  In x (JSMap.values (verses (newMemStorage (Some data))))
  <-> lastOfTriple data x.
Proof.
  destruct (loadAll_versesLoaded data) as ((Hinv & _) & _ & Hlast & Hnone).
  unfold newMemStorage, initializeBibleData.
  pose proof (inv_verses _ Hinv) as Hkeyed. split.
  - intros Hin. apply VerseFacts.In_values in Hin as [k Hin].
    apply (get_In String.eqb String.eqb_eq) in Hin as Hget; [|apply Hkeyed].
    assert (Hex : exists e, In e data /\ rawKey e = k).
    { apply some_entry. intros Hall. rewrite (Hnone k Hall) in Hget.
      discriminate. }
    destruct (last_occurrence (fun e => rawKey e = k) data) as (l1 & e & l2 & E & He & Hl2).
    + intros e. destruct (string_dec (rawKey e) k); auto.
    + exact Hex.
    + subst k. rewrite (Hlast l1 e l2 E Hl2) in Hget. inversion Hget.
      exists l1, e, l2. repeat split; auto.
      intros e' He' Ht. apply (Hl2 e' He'). now apply rawKey_triple.
  - intros (l1 & e & l2 & E & Hl2 & ->).
    apply VerseFacts.In_values. exists (rawKey e).
    apply (get_In String.eqb String.eqb_eq); [apply Hkeyed|].
    apply (Hlast l1 e l2 E). intros e' He' Hk. apply (Hl2 e' He').
    now apply rawKey_triple.
Qed.

End CorpusFacts.

(** X12. After loading a dataset the stored verses are exactly the last
    entries of their triple (book name, chapter, verse), each under the id
    that is the position of that entry counted from 1: a later entry of
    the same triple replaces the earlier one, and [getVerse] on the
    triple of an entry returns the verse of the last such entry. *)
Theorem X12_loader_verses (data : list RawVerse.t) :
  (forall x, In x (JSMap.values (verses (newMemStorage (Some data))))
             <-> lastOfTriple data x)
  /\ (forall l1 e l2,
         data = (l1 ++ e :: l2)%list ->
         (forall e', In e' l2 -> rawTriple e' <> rawTriple e) ->
         getVerse (newMemStorage (Some data)) (RawVerse.book_name e)
           (RawVerse.chapter e) (RawVerse.verse e)
         = Some (verseOf (Z.of_nat (List.length l1) + 1) e)).
Proof.
  split; [apply CorpusFacts.loaded_verses|].
  intros l1 e l2 E Hl2.
  apply VerseFacts.getVerse_Some;
    [apply InvariantFacts.newMemStorage_invariant|].
  split; [|reflexivity].
  apply CorpusFacts.loaded_verses. now exists l1, e, l2.
Qed.

Lemma X12_loader_verses_witness :
  getVerse
    (newMemStorage
       (Some [ RawVerse.mk 1 "Genesis" 1 1 "first reading";
               RawVerse.mk 1 "Genesis" 1 2 "And the earth";
               RawVerse.mk 1 "Genesis" 1 1 "second reading" ]))
    "Genesis" 1 1
  = Some (verseOf 3 (RawVerse.mk 1 "Genesis" 1 1 "second reading")).
Proof.
  apply (proj2 (X12_loader_verses
                  [ RawVerse.mk 1 "Genesis" 1 1 "first reading";
                    RawVerse.mk 1 "Genesis" 1 2 "And the earth";
                    RawVerse.mk 1 "Genesis" 1 1 "second reading" ])
           [ RawVerse.mk 1 "Genesis" 1 1 "first reading";
             RawVerse.mk 1 "Genesis" 1 2 "And the earth" ]
           (RawVerse.mk 1 "Genesis" 1 1 "second reading") []).
  - reflexivity.
  - intros e' [].
Defined.

Module VerseIdFacts.
Import CorpusFacts.
Local Open Scope list_scope.

Lemma lastOfTriple_id (data : list RawVerse.t) (x : BibleVerse.t) :
  lastOfTriple data x ->
  1 <= BibleVerse.id x <= Z.of_nat (List.length data).
Proof.
  intros (l1 & e & l2 & -> & _ & ->). simpl. rewrite length_app. simpl. lia.
Qed.

Lemma lastOfTriple_id_inj (data : list RawVerse.t) (x y : BibleVerse.t) :
  lastOfTriple data x -> lastOfTriple data y ->
  BibleVerse.id x = BibleVerse.id y -> x = y.
Proof.
  intros (l1 & e & l2 & E & _ & ->) (l1' & e' & l2' & E' & _ & ->). simpl.
  intros Hid. assert (Hlen : List.length l1 = List.length l1') by lia.
  rewrite E in E'. clear E Hid.
  assert (Hl : l1 = l1' /\ e :: l2 = e' :: l2').
  { revert l1' Hlen E'. induction l1 as [|a l1 IH]; intros [|a' l1'] Hlen E';
      simpl in *; try discriminate; [now split|].
    inversion E'; subst. destruct (IH l1') as [-> ->]; auto. }
  destruct Hl as [-> Hl]. inversion Hl. reflexivity.
Qed.

Lemma loaded_length (data : list RawVerse.t) :
  (List.length (verses (newMemStorage (Some data))) <= List.length data)%nat.
Proof.
  unfold newMemStorage, initializeBibleData, loadAll.
  apply (fold_left_prefix (loadEntry data)
           (fun pre acc => (List.length (verses (snd acc)) <= List.length pre)%nat)).
  - simpl. lia.
  - intros pre e rest acc _ H.
    destruct (loadEntry_verses data acc e) as [-> _].
    pose proof (MoreMapFacts.length_set String.eqb (rawKey e)
                  (verseOf (currentVerseId (snd acc)) e) (verses (snd acc))).
    rewrite length_app. simpl. lia.
Qed.

End VerseIdFacts.

(** X13. After loading a dataset of n entries the verse counter stands
    at n + 1; the ids of the stored verses are pairwise distinct and lie
    between 1 and n; no more than n verses are stored. *)
Theorem X13_loader_verse_ids (data : list RawVerse.t) :
  currentVerseId (newMemStorage (Some data)) = Z.of_nat (List.length data) + 1
  /\ NoDup (map BibleVerse.id
              (JSMap.values (verses (newMemStorage (Some data)))))
  /\ Forall (fun x => 1 <= BibleVerse.id x <= Z.of_nat (List.length data))
       (JSMap.values (verses (newMemStorage (Some data))))
  /\ (List.length (JSMap.values (verses (newMemStorage (Some data))))
      <= List.length data)%nat.
Proof.
  split; [|split; [|split]].
  - now destruct (CorpusFacts.loadAll_versesLoaded data) as (_ & Hid & _).
  - apply (LoaderFacts.NoDup_map_transfer tripleKey).
    + pose proof (inv_verses _ (InvariantFacts.newMemStorage_invariant (Some data)))
        as Hk.
      rewrite <- (VerseFacts.keyedBy_keys _ _ Hk). apply Hk.
    + intros x y Hx Hy Hid. apply CorpusFacts.loaded_verses in Hx, Hy.
      now rewrite (VerseIdFacts.lastOfTriple_id_inj data x y Hx Hy Hid).
  - apply Forall_forall. intros x Hx. apply CorpusFacts.loaded_verses in Hx.
    now apply VerseIdFacts.lastOfTriple_id.
  - unfold JSMap.values. rewrite length_map. apply VerseIdFacts.loaded_length.
Qed.

(* ================================================================== *)
(** ** The books the loader registers, one by one *)

Module BookLoadFacts.
Import MapFacts MoreMapFacts InvariantFacts CorpusFacts.
Local Open Scope list_scope.

Lemma loadEntry_bookMap (data : list RawVerse.t)
      (bookMap : list (string * BibleBook.t)) (st : MemStorage)
      (e : RawVerse.t) :
  (JSMap.has String.eqb (RawVerse.book_name e) bookMap = true
   /\ fst (loadEntry data (bookMap, st) e) = bookMap
   /\ currentBookId (snd (loadEntry data (bookMap, st) e)) = currentBookId st)
  \/ (JSMap.has String.eqb (RawVerse.book_name e) bookMap = false
      /\ exists nb,
          fst (loadEntry data (bookMap, st) e)
          = JSMap.set String.eqb (RawVerse.book_name e) nb bookMap
          /\ BibleBook.id nb = currentBookId st
          /\ bookFrom data e nb
          /\ currentBookId (snd (loadEntry data (bookMap, st) e))
             = currentBookId st + 1).
Proof.
  unfold loadEntry.
  destruct (JSMap.has String.eqb (RawVerse.book_name e) bookMap); simpl.
  - left. auto.
  - right. split; [reflexivity|]. eexists. split; [reflexivity|].
    repeat split.
Qed.

Lemma firstOfName_snoc (data pre : list RawVerse.t) (e0 : RawVerse.t)
      (bk : BibleBook.t) :
  firstOfName data pre bk -> firstOfName data (pre ++ [e0]) bk.
Proof.
  intros (l1 & e & l2 & -> & Hl1 & Hbk). exists l1, e, (l2 ++ [e0]).
  split; [now rewrite <- app_assoc | auto].
Qed.

Lemma has_get {V : Type} (k : string) (m : list (string * V)) :
  JSMap.has String.eqb k m = true <-> exists v, JSMap.get String.eqb k m = Some v.
Proof.
  unfold JSMap.has. destruct (JSMap.get String.eqb k m) as [v|].
  - split; [now exists v | reflexivity].
  - split; [discriminate | intros [v Hv]; discriminate].
Qed.

(** A name met among [pre] is in the local map. *)
Lemma seen_name (data pre : list RawVerse.t)
      (acc : list (string * BibleBook.t) * MemStorage) (e : RawVerse.t) :
  booksLoaded data pre acc -> In e pre ->
  JSMap.has String.eqb (RawVerse.book_name e) (fst acc) = true.
Proof.
  intros (_ & _ & Hfirst & _) Hin.
  destruct (first_occurrence
              (fun x => RawVerse.book_name x = RawVerse.book_name e) pre)
    as (l1 & e1 & l2 & E & He1 & Hl1).
  - intros x. destruct (string_dec (RawVerse.book_name x) (RawVerse.book_name e));
      auto.
  - now exists e.
  - destruct (Hfirst l1 e1 l2 E) as (bk & Hget & _).
    + intros e' He'. rewrite He1. now apply Hl1.
    + rewrite <- He1. apply has_get. now exists bk.
Qed.

(** A name in the local map was met among [pre]. *)
Lemma mapped_name (data pre : list RawVerse.t)
      (acc : list (string * BibleBook.t) * MemStorage) (n : string) :
  booksLoaded data pre acc ->
  JSMap.has String.eqb n (fst acc) = true ->
  exists e, In e pre /\ RawVerse.book_name e = n.
Proof.
  intros ((_ & _ & Hkey & _) & _ & _ & Hall) Hhas.
  apply has_get in Hhas as [bk Hget].
  apply (get_In String.eqb String.eqb_eq) in Hget; [|apply Hkey].
  pose proof (VerseFacts.keyedBy_In _ _ _ _ Hkey Hget) as Hn. simpl in Hn.
  assert (Hin : In bk (JSMap.values (fst acc)))
    by (apply VerseFacts.In_values; now exists n).
  destruct (proj1 (Forall_forall _ _) Hall bk Hin)
    as (l1 & e & l2 & -> & _ & Hname & _).
  exists e. split; [apply in_or_app; right; now left | congruence].
Qed.

Lemma seq_snoc (n : nat) :
  map Z.of_nat (seq 1 (S n)) = map Z.of_nat (seq 1 n) ++ [Z.of_nat n + 1].
Proof.
  rewrite seq_S, map_app. simpl. f_equal. f_equal. lia.
Qed.

Lemma loadAll_booksLoaded (data : list RawVerse.t) :
  booksLoaded data data (loadAll data emptyStorage).
Proof.
  unfold loadAll.
  apply (fold_left_prefix (loadEntry data) (booksLoaded data)).
  - split; [|split; [|split]].
    + split; [apply invariant_empty|]. repeat split; simpl; constructor.
    + split; reflexivity.
    + intros l1 e l2 E. destruct l1; discriminate.
    + constructor.
  - intros pre e0 rest [bookMap st] Edata Hacc.
    pose proof Hacc as (Hload & (Hids & Hctr) & Hfirst & Hall).
    assert (He0 : In e0 data)
      by (rewrite Edata; apply in_or_app; right; now left).
    pose proof (LoaderFacts.loadEntry_loading data (bookMap, st) e0 He0 Hload)
      as Hload'.
    simpl in Hids, Hctr, Hfirst, Hall.
    destruct (loadEntry_bookMap data bookMap st e0)
      as [(Hhas & Efst & Ectr) | (Hhas & nb & Efst & Hnb & Hfrom & Ectr)].
    + (* the name was seen before *)
      split; [exact Hload'|]. rewrite Efst, Ectr.
      split; [now split|]. split.
      * intros l1 e l2 E Hl1.
        destruct (snoc_split _ _ _ _ _ E) as [(-> & -> & ->) | (l2' & -> & ->)].
        -- destruct (mapped_name data pre (bookMap, st) _ Hacc Hhas)
             as (e1 & Hin & Hn).
           now destruct (Hl1 e1 Hin).
        -- now apply (Hfirst l1 e l2').
      * revert Hall. apply Forall_impl. intros bk. apply firstOfName_snoc.
    + (* a new name *)
      assert (Hnew : forall e, In e pre ->
                               RawVerse.book_name e <> RawVerse.book_name e0).
      { intros e Hin Hn.
        pose proof (seen_name data pre (bookMap, st) e Hacc Hin) as Hs.
        simpl in Hs. rewrite Hn in Hs. congruence. }
      pose proof (LoaderFacts.has_false _ _ Hhas) as Hfresh.
      split; [exact Hload'|]. rewrite Efst, Ectr.
      rewrite (set_fresh String.eqb String.eqb_eq) by exact Hfresh.
      split; [|split].
      * rewrite values_app, map_app, length_app. simpl.
        rewrite Nat.add_1_r, seq_snoc, Hids, Hnb, Hctr. split; [reflexivity|lia].
      * intros l1 e l2 E Hl1.
        destruct (snoc_split _ _ _ _ _ E) as [(-> & -> & ->) | (l2' & -> & ->)].
        -- exists nb. split; [|exact Hfrom].
           rewrite <- (set_fresh String.eqb String.eqb_eq) by exact Hfresh.
           apply (get_set_same String.eqb String.eqb_eq).
        -- destruct (Hfirst l1 e l2' eq_refl Hl1) as (bk & Hget & Hbk).
           exists bk. split; [|exact Hbk].
           rewrite <- (set_fresh String.eqb String.eqb_eq) by exact Hfresh.
           rewrite (get_set_other String.eqb String.eqb_eq); [exact Hget|].
           apply Hnew. apply in_or_app. right. now left.
      * rewrite values_app. apply Forall_app. split.
        -- revert Hall. apply Forall_impl. intros bk. apply firstOfName_snoc.
        -- constructor; [|constructor]. exists pre, e0, []. auto.
Qed.

End BookLoadFacts.

Module BookLoadResults.
Import MapFacts CorpusFacts BookLoadFacts.
Local Open Scope list_scope.

Lemma loaded_books_values (data : list RawVerse.t) :
  JSMap.values (books (newMemStorage (Some data)))
  = JSMap.values (fst (loadAll data emptyStorage)).
Proof.
  now destruct (loadAll_booksLoaded data) as ((_ & Hsame & _) & _).
Qed.

Lemma loaded_first (data : list RawVerse.t) :
  Forall (firstOfName data data)
    (JSMap.values (books (newMemStorage (Some data)))).
Proof.
  rewrite loaded_books_values.
  now destruct (loadAll_booksLoaded data) as (_ & _ & _ & Hall).
Qed.

Lemma loaded_book_of_entry (data l1 l2 : list RawVerse.t) (e : RawVerse.t) :
  data = l1 ++ e :: l2 ->
  (forall e', In e' l1 -> RawVerse.book_name e' <> RawVerse.book_name e) ->
  exists bk, In bk (JSMap.values (books (newMemStorage (Some data))))
             /\ bookFrom data e bk.
Proof.
  intros E Hl1. rewrite loaded_books_values.
  destruct (loadAll_booksLoaded data) as ((_ & _ & Hkey & _) & _ & Hfirst & _).
  destruct (Hfirst l1 e l2 E Hl1) as (bk & Hget & Hbk).
  exists bk. split; [|exact Hbk].
  apply (get_In String.eqb String.eqb_eq) in Hget; [|apply Hkey].
  apply VerseFacts.In_values. eauto.
Qed.

(** The largest of a start value and the chapters of a list. *)
Lemma fold_max (l : list RawVerse.t) (a : Z) :
  let m := fold_left (fun max v => Z.max max (RawVerse.chapter v)) l a in
  a <= m
  /\ (forall e, In e l -> RawVerse.chapter e <= m)
  /\ (m = a \/ exists e, In e l /\ RawVerse.chapter e = m).
Proof.
  revert a. induction l as [|x l IH]; intros a; simpl.
  - repeat split; [lia | intros e [] | now left].
  - destruct (IH (Z.max a (RawVerse.chapter x))) as (H1 & H2 & H3).
    repeat split.
    + lia.
    + intros e [<-|He]; [lia | now apply H2].
    + destruct H3 as [H3 | (e & He & Hm)].
      * destruct (Z.max_spec a (RawVerse.chapter x)) as [[_ Hmax]|[_ Hmax]].
        -- right. exists x. split; [now left | congruence].
        -- left. congruence.
      * right. exists e. split; [now right | exact Hm].
Qed.

Lemma maxChapter_spec (data : list RawVerse.t) (n : string) :
  0 <= maxChapter data n
  /\ (forall e, In e data -> RawVerse.book_name e = n ->
                RawVerse.chapter e <= maxChapter data n)
  /\ (maxChapter data n = 0
      \/ exists e, In e data /\ RawVerse.book_name e = n
                   /\ RawVerse.chapter e = maxChapter data n).
Proof.
  unfold maxChapter.
  destruct (fold_max (filter (fun v => String.eqb (RawVerse.book_name v) n) data) 0)
    as (H1 & H2 & H3).
  repeat split; auto.
  - intros e He Hn. apply H2. apply filter_In. split; [exact He|].
    now apply String.eqb_eq.
  - destruct H3 as [H3 | (e & He & Hm)]; [now left|].
    right. apply filter_In in He as [He Hn]. apply String.eqb_eq in Hn.
    now exists e.
Qed.

End BookLoadResults.

(** X14. After loading a dataset the registered books carry the ids
    1, 2, ... in the order of registration and the book counter stands
    one above their number; each registered book is built from the first
    entry of its name (name, order and testament of that entry); and
    for the first entry of every name [getBookByName] finds that book. *)
Theorem X14_loader_books (data : list RawVerse.t) :
  map BibleBook.id (JSMap.values (books (newMemStorage (Some data))))
  = map Z.of_nat
      (seq 1 (List.length (JSMap.values (books (newMemStorage (Some data))))))
  /\ currentBookId (newMemStorage (Some data))
     = Z.of_nat (List.length (JSMap.values (books (newMemStorage (Some data)))))
       + 1
  /\ Forall (firstOfName data data)
       (JSMap.values (books (newMemStorage (Some data))))
  /\ (forall l1 e l2,
         data = (l1 ++ e :: l2)%list ->
         (forall e', In e' l1 -> RawVerse.book_name e' <> RawVerse.book_name e) ->
         exists bk,
           getBookByName (newMemStorage (Some data)) (RawVerse.book_name e)
           = Some bk
           /\ bookFrom data e bk).
Proof.
  pose proof (BookLoadFacts.loadAll_booksLoaded data)
    as (_ & (Hids & Hctr) & _ & _).
  rewrite BookLoadResults.loaded_books_values.
  unfold JSMap.values at 2 3. rewrite !length_map.
  split; [exact Hids|]. split; [exact Hctr|].
  split; [rewrite <- BookLoadResults.loaded_books_values;
          apply BookLoadResults.loaded_first|].
  intros l1 e l2 E Hl1.
  destruct (BookLoadResults.loaded_book_of_entry data l1 l2 e E Hl1)
    as (bk & Hin & Hbk).
  exists bk. split; [|exact Hbk]. unfold getBookByName.
  apply (BookFacts.find_unique BibleBook.name).
  - apply LoaderFacts.loaded_names_NoDup.
  - intros y z Hy Hz. apply String.eqb_eq in Hy, Hz. congruence.
  - exact Hin.
  - apply String.eqb_eq. apply Hbk.
Qed.

Lemma X14_loader_books_witness :
  exists bk,
    getBookByName
      (newMemStorage
         (Some [ RawVerse.mk 1 "Genesis" 1 1 "In the beginning";
                 RawVerse.mk 43 "John" 3 16 "For God so loved";
                 RawVerse.mk 1 "Genesis" 2 1 "Thus the heavens" ]))
      "John"
    = Some bk
    /\ bookFrom [ RawVerse.mk 1 "Genesis" 1 1 "In the beginning";
                  RawVerse.mk 43 "John" 3 16 "For God so loved";
                  RawVerse.mk 1 "Genesis" 2 1 "Thus the heavens" ]
         (RawVerse.mk 43 "John" 3 16 "For God so loved") bk.
Proof.
  apply (proj2 (proj2 (proj2
           (X14_loader_books
              [ RawVerse.mk 1 "Genesis" 1 1 "In the beginning";
                RawVerse.mk 43 "John" 3 16 "For God so loved";
                RawVerse.mk 1 "Genesis" 2 1 "Thus the heavens" ])))
           [ RawVerse.mk 1 "Genesis" 1 1 "In the beginning" ]
           (RawVerse.mk 43 "John" 3 16 "For God so loved")
           [ RawVerse.mk 1 "Genesis" 2 1 "Thus the heavens" ]).
  - reflexivity.
  - intros e' [<-|[]]. discriminate.
Defined.

(** X15. The chapter count of a book registered from a dataset is never
    negative, is at least the chapter of every entry of the book's name,
    and is the chapter of one of these entries unless it is 0. *)
Theorem X15_chapter_count (data : list RawVerse.t) :
  Forall (fun bk =>
            0 <= BibleBook.chapters bk
            /\ (forall e, In e data ->
                          RawVerse.book_name e = BibleBook.name bk ->
                          RawVerse.chapter e <= BibleBook.chapters bk)
            /\ (BibleBook.chapters bk = 0
                \/ exists e, In e data
                             /\ RawVerse.book_name e = BibleBook.name bk
                             /\ RawVerse.chapter e = BibleBook.chapters bk))
    (JSMap.values (books (newMemStorage (Some data)))).
Proof.
  pose proof (BookLoadResults.loaded_first data) as Hall.
  revert Hall. apply Forall_impl.
  intros bk (l1 & e & l2 & _ & _ & Hn & _ & _ & Hc).
  rewrite Hc, Hn. apply BookLoadResults.maxChapter_spec.
Qed.

Module IntegrityFacts.
Import CorpusFacts.
Local Open Scope list_scope.

Lemma loaded_verse_has_book (data : list RawVerse.t) (x : BibleVerse.t) :
  In x (JSMap.values (verses (newMemStorage (Some data)))) ->
  exists bk, In bk (JSMap.values (books (newMemStorage (Some data))))
             /\ BibleBook.name bk = BibleVerse.book x.
Proof.
  intros Hx. apply loaded_verses in Hx as (l1 & e & l2 & E & _ & ->).
  destruct (first_occurrence
              (fun y => RawVerse.book_name y = RawVerse.book_name e) data)
    as (f1 & e1 & f2 & E1 & He1 & Hf1).
  - intros y. destruct (string_dec (RawVerse.book_name y) (RawVerse.book_name e));
      auto.
  - exists e. split; [|reflexivity]. rewrite E. apply in_or_app. right. now left.
  - destruct (BookLoadResults.loaded_book_of_entry data f1 f2 e1 E1)
      as (bk & Hin & Hn & _).
    + intros e' He'. rewrite He1. now apply Hf1.
    + exists bk. split; [exact Hin|]. simpl. congruence.
Qed.

Lemma loaded_book_has_verse (data : list RawVerse.t) (bk : BibleBook.t) :
  In bk (JSMap.values (books (newMemStorage (Some data)))) ->
  exists x, In x (JSMap.values (verses (newMemStorage (Some data))))
            /\ BibleVerse.book x = BibleBook.name bk.
Proof.
  intros Hbk.
  destruct (proj1 (Forall_forall _ _) (BookLoadResults.loaded_first data) bk Hbk)
    as (l1 & e & l2 & E & _ & Hn & _).
  destruct (last_occurrence (fun y => rawTriple y = rawTriple e) data)
    as (f1 & e1 & f2 & E1 & He1 & Hf2).
  - intros y. unfold rawTriple.
    destruct (string_dec (RawVerse.book_name y) (RawVerse.book_name e));
      destruct (Z.eq_dec (RawVerse.chapter y) (RawVerse.chapter e));
      destruct (Z.eq_dec (RawVerse.verse y) (RawVerse.verse e));
      try (right; intros H; inversion H; contradiction).
    left. congruence.
  - exists e. split; [|reflexivity]. rewrite E. apply in_or_app. right. now left.
  - exists (verseOf (Z.of_nat (List.length f1) + 1) e1). split.
    + apply loaded_verses. exists f1, e1, f2. repeat split; auto.
      intros e' He'. rewrite He1. now apply Hf2.
    + simpl. unfold rawTriple in He1. inversion He1. congruence.
Qed.

End IntegrityFacts.

(** X16. In every store each verse belongs to a registered book (its
    book is the name of one) and each registered book has at least one
    stored verse. *)
Theorem X16_books_and_verses (st : MemStorage) :
  reachable st ->
  (forall x, In x (JSMap.values (verses st)) ->
             exists bk, In bk (JSMap.values (books st))
                        /\ BibleBook.name bk = BibleVerse.book x)
  /\ (forall bk, In bk (JSMap.values (books st)) ->
                 exists x, In x (JSMap.values (verses st))
                           /\ BibleVerse.book x = BibleBook.name bk).
Proof.
  intros Hr. destruct (BookFacts.reachable_corpus st Hr) as ([data|] & -> & ->).
  - split.
    + apply IntegrityFacts.loaded_verse_has_book.
    + apply IntegrityFacts.loaded_book_has_verse.
  - split.
    + intros x Hx. simpl in Hx.
      destruct Hx as [<-|[<-|[<-|[]]]];
        first [ solve [eexists; split; [simpl; left; reflexivity | reflexivity]]
              | solve [eexists; split;
                       [simpl; right; left; reflexivity | reflexivity]]
              | solve [eexists; split;
                       [simpl; right; right; left; reflexivity | reflexivity]] ].
    + intros bk Hbk. simpl in Hbk.
      destruct Hbk as [<-|[<-|[<-|[]]]];
        first [ solve [eexists; split; [simpl; left; reflexivity | reflexivity]]
              | solve [eexists; split;
                       [simpl; right; left; reflexivity | reflexivity]]
              | solve [eexists; split;
                       [simpl; right; right; left; reflexivity | reflexivity]] ].
Qed.

Lemma X16_books_and_verses_witness :
  (forall x, In x (JSMap.values (verses (newMemStorage None))) ->
             exists bk, In bk (JSMap.values (books (newMemStorage None)))
                        /\ BibleBook.name bk = BibleVerse.book x)
  /\ (forall bk, In bk (JSMap.values (books (newMemStorage None))) ->
                 exists x, In x (JSMap.values (verses (newMemStorage None)))
                           /\ BibleVerse.book x = BibleBook.name bk).
Proof.
  apply (X16_books_and_verses (newMemStorage None)). apply reachable_new.
Defined.

(* ================================================================== *)
(** ** Reading a number back *)

Module NumberFacts.
Import StringFacts ParseFacts.

Lemma readDigits_uint (d : Decimal.uint) (a : Z) :
  readDigits (Some a) (NilEmpty.string_of_uint d) = Some (uintValue a d).
Proof.
  revert a. induction d; intros a; cbn [NilEmpty.string_of_uint uintValue];
    try reflexivity;
    cbn [readDigits]; (change (isDigit _) with true); cbv iota;
    rewrite <- IHd; reflexivity.
Qed.

Lemma uintValue_acc (d : Decimal.uint) (acc : positive) :
  uintValue (Z.pos acc) d = Z.pos (Pos.of_uint_acc d acc).
Proof.
  revert acc. induction d; intros acc; cbn [uintValue Pos.of_uint_acc];
    try reflexivity;
    rewrite <- IHd; f_equal; lia.
Qed.

Lemma uintValue_zero (d : Decimal.uint) :
  uintValue 0 d = Z.of_N (Pos.of_uint d).
Proof.
  induction d; cbn [uintValue Pos.of_uint]; try reflexivity;
    try exact IHd;
    (change (10 * 0 + 1) with (Z.pos 1) || change (10 * 0 + 2) with (Z.pos 2)
     || change (10 * 0 + 3) with (Z.pos 3) || change (10 * 0 + 4) with (Z.pos 4)
     || change (10 * 0 + 5) with (Z.pos 5) || change (10 * 0 + 6) with (Z.pos 6)
     || change (10 * 0 + 7) with (Z.pos 7) || change (10 * 0 + 8) with (Z.pos 8)
     || change (10 * 0 + 9) with (Z.pos 9));
    now rewrite uintValue_acc.
Qed.

Lemma string_of_uint_digits (d : Decimal.uint) :
  JSString.forallb isDigit (NilEmpty.string_of_uint d) = true.
Proof. induction d; simpl; auto. Qed.

Lemma toString_digits (n : Z) : 0 <= n -> digits (toString n) = true.
Proof.
  intros Hn. unfold toString, digits.
  destruct n as [|p|p]; [reflexivity| |lia].
  cbn [Z.to_int NilEmpty.string_of_int].
  rewrite string_of_uint_digits, andb_true_r.
  pose proof (DecimalPos.Unsigned.to_uint_nonnil p) as Hnn.
  now destruct (Pos.to_uint p).
Qed.

(** [parseInt] reads back what the template literal wrote. *)
Lemma parseInt_toString (n : Z) : 0 <= n -> parseInt (toString n) = Some n.
Proof.
  intros Hn. pose proof (toString_digits n Hn) as Hd.
  apply PatternFacts.digits_inv in Hd as (c & s & E & Hc & _).
  rewrite E, (parseInt_digit_first _ _ Hc), <- E.
  unfold toString. destruct n as [|p|p]; [reflexivity| |lia].
  cbn [Z.to_int NilEmpty.string_of_int].
  pose proof (DecimalPos.Unsigned.to_uint_nonnil p) as Hnn.
  pose proof (DecimalPos.Unsigned.of_to p) as Hof.
  pose proof (uintValue_zero (Pos.to_uint p)) as Hv. rewrite Hof in Hv.
  simpl Z.of_N in Hv. rewrite <- Hv.
  destruct (Pos.to_uint p) as [|d|d|d|d|d|d|d|d|d|d]; [congruence|..];
    cbn [NilEmpty.string_of_uint readDigits uintValue];
    (change (isDigit _) with true); cbv iota; apply readDigits_uint.
Qed.

End NumberFacts.

(* ================================================================== *)
(** ** Searching for a verse by its own reference *)

Module ReferenceFacts.
Import StringFacts PatternFacts ParseFacts NumberFacts MoreSearchFacts.

Lemma lowerChar_alpha (c : ascii) : isAlpha (lowerChar c) = isAlpha c.
Proof. destruct c as [[] [] [] [] [] [] [] []]; reflexivity. Qed.

Lemma lowerChar_oneToThree (c : ascii) :
  isOneToThree c = true -> lowerChar c = c.
Proof. destruct c as [[] [] [] [] [] [] [] []]; intros H; try reflexivity; discriminate. Qed.

Lemma lowerChar_digit (c : ascii) : isDigit c = true -> lowerChar c = c.
Proof. destruct c as [[] [] [] [] [] [] [] []]; intros H; try reflexivity; discriminate. Qed.

Lemma lowerChar_idem (c : ascii) : lowerChar (lowerChar c) = lowerChar c.
Proof. destruct c as [[] [] [] [] [] [] [] []]; reflexivity. Qed.

Lemma alpha_not_space (c : ascii) : isAlpha c = true -> isSpace c = false.
Proof. destruct c as [[] [] [] [] [] [] [] []]; intros H; try reflexivity; discriminate. Qed.

Lemma oneToThree_not_space (c : ascii) : isOneToThree c = true -> isSpace c = false.
Proof. intros H. apply digit_not_space. now apply oneToThree_digit. Qed.

Lemma toLowerCase_append (a b : string) :
  toLowerCase (a ++ b) = toLowerCase a ++ toLowerCase b.
Proof. induction a as [|x a IH]; simpl; [reflexivity | now rewrite IH]. Qed.

Lemma toLowerCase_idem (s : string) :
  toLowerCase (toLowerCase s) = toLowerCase s.
Proof.
  induction s as [|x s IH]; simpl; [reflexivity|].
  now rewrite lowerChar_idem, IH.
Qed.

Lemma toLowerCase_digits (s : string) :
  JSString.forallb isDigit s = true -> toLowerCase s = s.
Proof.
  induction s as [|x s IH]; simpl; [reflexivity|].
  intros H. apply andb_true_iff in H as [Hx Hs].
  now rewrite (lowerChar_digit _ Hx), (IH Hs).
Qed.

Lemma toLowerCase_words (s : string) :
  JSString.forallb isAlphaOrSpace (toLowerCase s)
  = JSString.forallb isAlphaOrSpace s.
Proof.
  induction s as [|x s IH]; simpl; [reflexivity|].
  unfold isAlphaOrSpace at 1 3.
  now rewrite lowerChar_alpha, lowerChar_space, IH.
Qed.

Lemma isEmpty_toLowerCase (s : string) : isEmpty (toLowerCase s) = isEmpty s.
Proof. now destruct s. Qed.

Lemma toLowerCase_trimEnd (s : string) :
  toLowerCase (trimEnd s) = trimEnd (toLowerCase s).
Proof.
  induction s as [|x s IH]; simpl; [reflexivity|].
  rewrite lowerChar_space, <- IH, isEmpty_toLowerCase.
  now destruct (isSpace x && isEmpty (trimEnd s)).
Qed.

Lemma trimEnd_digits (a d : string) :
  digits d = true -> trimEnd (a ++ d) = a ++ d.
Proof.
  intros Hd. apply digits_inv in Hd as (c & d' & -> & Hc & Hd').
  assert (Hbase : forall s, JSString.forallb isDigit s = true -> trimEnd s = s).
  { induction s as [|x s IH]; simpl; [reflexivity|].
    intros H. apply andb_true_iff in H as [Hx Hs].
    now rewrite (digit_not_space _ Hx), (IH Hs). }
  induction a as [|x a IH]; simpl.
  - now rewrite (digit_not_space _ Hc), (Hbase _ Hd').
  - rewrite IH. destruct a; simpl; now rewrite andb_false_r.
Qed.

Lemma trimEnd_blank_end (s : string) : trimEnd (s ++ " ") = trimEnd s.
Proof. induction s as [|x s IH]; simpl; [reflexivity | now rewrite IH]. Qed.

Lemma trimEnd_prefix (s : string) : exists r, s = trimEnd s ++ r.
Proof.
  induction s as [|x s [r IH]]; simpl; [now exists ""|].
  destruct (isSpace x && isEmpty (trimEnd s)).
  - now exists (String x s).
  - exists r. simpl. now rewrite <- IH.
Qed.

(** The normalized reference of a verse with a readable book name. *)
Lemma normalize_reference (x : BibleVerse.t) :
  referableBook (BibleVerse.book x) = true ->
  0 <= BibleVerse.chapter x -> 0 <= BibleVerse.verse x ->
  trim (toLowerCase (referenceOf x))
  = toLowerCase (BibleVerse.book x) ++ " "
    ++ toString (BibleVerse.chapter x) ++ ":" ++ toString (BibleVerse.verse x).
Proof.
  intros Hb Hc Hv. unfold referenceOf.
  pose proof (toString_digits _ Hc) as Dc. pose proof (toString_digits _ Hv) as Dv.
  assert (Lc : toLowerCase (toString (BibleVerse.chapter x))
               = toString (BibleVerse.chapter x)).
  { apply toLowerCase_digits. unfold digits in Dc.
    now apply andb_true_iff in Dc as [_ Dc]. }
  assert (Lv : toLowerCase (toString (BibleVerse.verse x))
               = toString (BibleVerse.verse x)).
  { apply toLowerCase_digits. unfold digits in Dv.
    now apply andb_true_iff in Dv as [_ Dv]. }
  rewrite !toLowerCase_append, Lc, Lv.
  change (toLowerCase " ") with " ". change (toLowerCase ":") with ":".
  unfold trim.
  assert (Hstart : trimStart (toLowerCase (BibleVerse.book x) ++ " "
                              ++ toString (BibleVerse.chapter x) ++ ":"
                              ++ toString (BibleVerse.verse x))
                   = toLowerCase (BibleVerse.book x) ++ " "
                     ++ toString (BibleVerse.chapter x) ++ ":"
                     ++ toString (BibleVerse.verse x)).
  { destruct (BibleVerse.book x) as [|c r]; [discriminate|].
    simpl in Hb. apply andb_true_iff in Hb as [Hc0 _].
    simpl. rewrite lowerChar_space.
    apply orb_true_iff in Hc0 as [H|H];
      [rewrite (oneToThree_not_space _ H) | rewrite (alpha_not_space _ H)];
      reflexivity. }
  rewrite Hstart.
  replace (toLowerCase (BibleVerse.book x) ++ " "
           ++ toString (BibleVerse.chapter x) ++ ":"
           ++ toString (BibleVerse.verse x))
    with ((toLowerCase (BibleVerse.book x) ++ " "
           ++ toString (BibleVerse.chapter x) ++ ":")
          ++ toString (BibleVerse.verse x))
    by (now rewrite !append_assoc).
  now apply trimEnd_digits.
Qed.

(** The reference of such a verse has the shape, with the lower-cased
    book and a blank as prefix and words. *)
Lemma reference_shape (x : BibleVerse.t) :
  referableBook (BibleVerse.book x) = true ->
  0 <= BibleVerse.chapter x -> 0 <= BibleVerse.verse x ->
  exists p w,
    p ++ w = toLowerCase (BibleVerse.book x) ++ " "
    /\ verseRefShape (trim (toLowerCase (referenceOf x))) p w
         (toString (BibleVerse.chapter x)) (toString (BibleVerse.verse x)).
Proof.
  intros Hb Hc Hv. rewrite (normalize_reference x Hb Hc Hv).
  pose proof (toString_digits _ Hc) as Dc. pose proof (toString_digits _ Hv) as Dv.
  destruct (BibleVerse.book x) as [|c r]; [discriminate|].
  simpl in Hb. apply andb_true_iff in Hb as [Hc0 Hr].
  assert (Hr' : JSString.forallb isAlphaOrSpace (toLowerCase r ++ " ") = true).
  { rewrite forallb_append, toLowerCase_words, Hr. reflexivity. }
  destruct (isOneToThree c) eqn:H13.
  - exists (String c ""), (toLowerCase r ++ " "). simpl.
    rewrite (lowerChar_oneToThree _ H13). split; [reflexivity|].
    repeat split; auto.
    + now rewrite !append_assoc.
    + unfold bookWords. rewrite Hr'. now destruct (toLowerCase r).
  - simpl in Hc0. exists "", (String (lowerChar c) (toLowerCase r) ++ " ").
    split; [reflexivity|]. repeat split; auto.
    + simpl. now rewrite !append_assoc.
    + unfold bookWords. simpl. rewrite Hr'.
      unfold isAlphaOrSpace. now rewrite lowerChar_alpha, Hc0.
Qed.

(** The book name the reference branch looks for is the lower-cased,
    trimmed book of the verse, which that book contains. *)
Lemma reference_book_name (b : string) :
  referableBook b = true ->
  toLowerCase (trim (toLowerCase b ++ " ")) = toLowerCase (trim b)
  /\ includes (toLowerCase b) (toLowerCase (trim b)) = true.
Proof.
  intros Hb.
  assert (Hs : forall t, trimStart (toLowerCase b ++ t) = toLowerCase b ++ t).
  { intros t. destruct b as [|c r]; [discriminate|].
    simpl in Hb. apply andb_true_iff in Hb as [Hc0 _]. simpl.
    rewrite lowerChar_space.
    apply orb_true_iff in Hc0 as [H|H];
      [rewrite (oneToThree_not_space _ H) | rewrite (alpha_not_space _ H)];
      reflexivity. }
  assert (Hs' : trimStart b = b).
  { destruct b as [|c r]; [discriminate|].
    simpl in Hb. apply andb_true_iff in Hb as [Hc0 _]. simpl.
    apply orb_true_iff in Hc0 as [H|H];
      [rewrite (oneToThree_not_space _ H) | rewrite (alpha_not_space _ H)];
      reflexivity. }
  unfold trim. rewrite Hs, Hs', trimEnd_blank_end.
  rewrite !toLowerCase_trimEnd, toLowerCase_idem. split; [reflexivity|].
  apply includes_spec. destruct (trimEnd_prefix (toLowerCase b)) as [r Hr].
  exists "", r. exact Hr.
Qed.

End ReferenceFacts.

(** X17. Searching for the reference of a stored verse finds a verse of
    that chapter and verse: when the book name starts with a letter or a
    numeral 1-3 and goes on with letters and blanks, and chapter and verse
    are not negative, [searchVerses] on "<book> <chapter>:<verse>" returns
    exactly one stored verse, of the same chapter and verse, whose
    lower-cased book contains the lower-cased book name searched for. *)
Theorem X17_search_own_reference (st : MemStorage) (x : BibleVerse.t) :
  In x (JSMap.values (verses st)) ->
  referableBook (BibleVerse.book x) = true ->
  0 <= BibleVerse.chapter x -> 0 <= BibleVerse.verse x ->
  exists y,
    searchVerses st (referenceOf x) = [y]
    /\ In y (JSMap.values (verses st))
    /\ referredBy (toLowerCase (trim (BibleVerse.book x)))
         (BibleVerse.chapter x) (BibleVerse.verse x) y.
Proof.
  intros Hin Hb Hc Hv.
  destruct (ReferenceFacts.reference_shape x Hb Hc Hv) as (p & w & Epw & Hs).
  rewrite (searchVerses_reference_eq st _ _ _ _ _ Hs).
  unfold referenceBranch.
  rewrite !NumberFacts.parseInt_toString by assumption.
  rewrite Epw.
  destruct (ReferenceFacts.reference_book_name _ Hb) as [-> Hinc].
  destruct (find _ _) as [y|] eqn:Hfind.
  - exists y. apply find_some in Hfind as [Hy Hhit].
    apply referenceHit_spec in Hhit. auto.
  - exfalso. pose proof (find_none _ _ Hfind x Hin) as Hn.
    assert (Hx : referenceHit (toLowerCase (trim (BibleVerse.book x)))
                   (Some (BibleVerse.chapter x)) (Some (BibleVerse.verse x)) x
                 = true).
    { apply referenceHit_spec. repeat split. exact Hinc. }
    congruence.
Qed.

Lemma X17_search_own_reference_witness :
  exists y,
    searchVerses (newMemStorage None)
      (referenceOf (BibleVerse.mk 3 "John" 3 16
         "For God so loved the world that he gave his one and only Son, that whoever believes in him shall not perish but have eternal life."))
    = [y]
    /\ In y (JSMap.values (verses (newMemStorage None)))
    /\ referredBy (toLowerCase (trim "John")) 3 16 y.
Proof.
  apply (X17_search_own_reference (newMemStorage None)
           (BibleVerse.mk 3 "John" 3 16
              "For God so loved the world that he gave his one and only Son, that whoever believes in him shall not perish but have eternal life.")).
  - simpl. auto.
  - reflexivity.
  - simpl. lia.
  - simpl. lia.
Defined.

(* ================================================================== *)
(** ** How the operations compose *)

(** X18. Highlight calls and bookmark calls do not interfere: a create
    or delete of the one kind and a create or delete of the other kind
    leave the same store in either order. *)
Theorem X18_kinds_commute (st : MemStorage) (h : InsertHighlight.t)
        (b : InsertBookmark.t) (hv bv : string) (hu bu : option string) :
  exec (exec st (CreateHighlight h)) (CreateBookmark b)
  = exec (exec st (CreateBookmark b)) (CreateHighlight h)
  /\ exec (exec st (CreateHighlight h)) (DeleteBookmark bv bu)
     = exec (exec st (DeleteBookmark bv bu)) (CreateHighlight h)
  /\ exec (exec st (DeleteHighlight hv hu)) (CreateBookmark b)
     = exec (exec st (CreateBookmark b)) (DeleteHighlight hv hu)
  /\ exec (exec st (DeleteHighlight hv hu)) (DeleteBookmark bv bu)
     = exec (exec st (DeleteBookmark bv bu)) (DeleteHighlight hv hu).
Proof.
  destruct (find (highlightHit hv (defaultArg hu))
              (JSMap.values (highlightsList st))) eqn:EH;
    destruct (find (bookmarkHit bv (defaultArg bu))
                (JSMap.values (bookmarksList st))) eqn:EB;
    repeat split; simpl; unfold deleteHighlight, deleteBookmark; simpl;
    rewrite ?EH, ?EB; simpl; rewrite ?EH, ?EB; reflexivity.
Qed.

Module CountFacts.
Local Open Scope list_scope.

Lemma newMemStorage_counters (dataset : option (list RawVerse.t)) :
  currentHighlightId (newMemStorage dataset) = 1
  /\ currentBookmarkId (newMemStorage dataset) = 1.
Proof.
  unfold newMemStorage, initializeBibleData. destruct dataset as [data|].
  - unfold loadAll.
    apply (CorpusFacts.fold_left_prefix (loadEntry data)
             (fun _ acc => currentHighlightId (snd acc) = 1
                           /\ currentBookmarkId (snd acc) = 1)).
    + now split.
    + intros pre e rest [bookMap s] _ H. unfold loadEntry.
      destruct (negb _); exact H.
  - now split.
Qed.

Lemma run_counters (ops : list Op) (st : MemStorage) :
  currentHighlightId (run ops st)
  = currentHighlightId st
    + Z.of_nat (List.length
                  (filter (fun op => match op with
                                     | CreateHighlight _ => true
                                     | _ => false
                                     end) ops))
  /\ currentBookmarkId (run ops st)
     = currentBookmarkId st
       + Z.of_nat (List.length
                     (filter (fun op => match op with
                                        | CreateBookmark _ => true
                                        | _ => false
                                        end) ops)).
Proof.
  revert st. induction ops as [|op ops IH]; intros st; [simpl; lia|].
  change (run (op :: ops) st) with (run ops (exec st op)).
  destruct (IH (exec st op)) as [E1 E2]. rewrite E1, E2.
  destruct op; cbn [filter List.length exec];
    try (unfold deleteHighlight; destruct (find _ _));
    try (unfold deleteBookmark; destruct (find _ _));
    cbn [createHighlight createBookmark snd currentHighlightId
         currentBookmarkId List.length];
    split; lia.
Qed.

End CountFacts.

(** X19. The counters count the creations: after any calls on a new
    store, the highlight counter is one more than the number of
    [createHighlight] calls made and the bookmark counter one more than
    the number of [createBookmark] calls, so the n-th creation of a kind
    gets the id n whatever was deleted in between. *)
Theorem X19_ids_count_creations (dataset : option (list RawVerse.t))
        (ops : list Op) (h : InsertHighlight.t) (b : InsertBookmark.t) :
  Highlight.id (fst (createHighlight (run ops (newMemStorage dataset)) h))
  = 1 + Z.of_nat (List.length
                    (filter (fun op => match op with
                                       | CreateHighlight _ => true
                                       | _ => false
                                       end) ops))
  /\ Bookmark.id (fst (createBookmark (run ops (newMemStorage dataset)) b))
     = 1 + Z.of_nat (List.length
                       (filter (fun op => match op with
                                          | CreateBookmark _ => true
                                          | _ => false
                                          end) ops)).
Proof.
  destruct (CountFacts.newMemStorage_counters dataset) as [H1 H2].
  destruct (CountFacts.run_counters ops (newMemStorage dataset)) as [E1 E2].
  cbn [createHighlight createBookmark fst Highlight.id Bookmark.id].
  rewrite E1, E2, H1, H2. split; reflexivity.
Qed.

Module ListingFacts.
Local Open Scope list_scope.

(** Keys that are distinct stay distinct in a selection. *)
Lemma selection_keys_distinct {V K : Type} (keep : V -> bool) (key : V -> K)
      (xs : list V) :
  NoDup (map key xs) -> NoDup (map key (filter keep xs)).
Proof.
  induction xs as [|a xs IH]; simpl; intros Hnd; [constructor|].
  inversion Hnd as [|? ? Hnotin Hnd']; subst.
  destruct (keep a); simpl; [|now apply IH]. constructor; [|now apply IH].
  intros Hin. apply Hnotin. apply in_map_iff in Hin as (y & Ey & Hy).
  apply filter_In in Hy as [Hy _]. rewrite <- Ey. now apply in_map.
Qed.

Lemma sorted_strict {A : Type} (key : A -> Z) (l : list A) :
  StronglySorted (fun x y => key x <= key y) l -> NoDup (map key l) ->
  StronglySorted (fun x y => key x < key y) l.
Proof.
  induction 1 as [|x l Hs IH Hx]; simpl; intros Hnd; constructor.
  - apply IH. now inversion Hnd.
  - inversion Hnd as [|? ? Hnotin _]; subst.
    apply Forall_forall. intros y Hy.
    pose proof (proj1 (Forall_forall _ _) Hx y Hy) as Hle. simpl in Hle.
    destruct (Z.eq_dec (key x) (key y)) as [E|N]; [|lia].
    exfalso. apply Hnotin. rewrite E. now apply in_map.
Qed.

Lemma getVersesByBook_filter (st : MemStorage) (b : string) (c : Z) :
  c <> 0 ->
  getVersesByBook st b (Some c)
  = JSArray.sort (fun x y => BibleVerse.verse x - BibleVerse.verse y)
      (filter (fun x => String.eqb (BibleVerse.book x) b
                        && (BibleVerse.chapter x =? c))
         (JSMap.values (verses st))).
Proof.
  intros Hc. unfold getVersesByBook. apply (f_equal (JSArray.sort _)).
  apply filter_ext. intros x. unfold chapterFilter.
  destruct (Z.eqb_spec c 0) as [E|_]; [contradiction|].
  destruct (String.eqb (BibleVerse.book x) b);
    destruct (BibleVerse.chapter x =? c); reflexivity.
Qed.

Lemma listing_In (st : MemStorage) (b : string) (c : Z) (x : BibleVerse.t) :
  c <> 0 ->
  (In x (getVersesByBook st b (Some c))
   <-> In x (JSMap.values (verses st))
       /\ BibleVerse.book x = b /\ BibleVerse.chapter x = c).
Proof.
  intros Hc. rewrite (getVersesByBook_filter st b c Hc).
  pose proof (SortFacts.sort_perm BibleVerse.verse
                (filter (fun y => String.eqb (BibleVerse.book y) b
                                  && (BibleVerse.chapter y =? c))
                   (JSMap.values (verses st)))) as Hperm.
  split.
  - intros H. apply (Permutation_in _ Hperm) in H.
    apply filter_In in H as [Hin Hp]. apply andb_true_iff in Hp as [Hb Hch].
    apply String.eqb_eq in Hb. apply Z.eqb_eq in Hch. auto.
  - intros (Hin & Hb & Hch).
    apply (Permutation_in _ (Permutation_sym Hperm)). apply filter_In.
    split; [exact Hin|]. apply andb_true_iff.
    split; [now apply String.eqb_eq | now apply Z.eqb_eq].
Qed.

End ListingFacts.

(** X20. In every store the listing of one chapter of a book (chapter
    not 0) holds exactly the stored verses of that book and chapter, by
    strictly increasing verse number, so no verse number comes twice; and
    [getVerse] finds exactly the verses of that listing. *)
Theorem X20_chapter_listing (st : MemStorage) (b : string) (c : Z) :
  reachable st -> c <> 0 ->
  StronglySorted (fun x y => BibleVerse.verse x < BibleVerse.verse y)
    (getVersesByBook st b (Some c))
  /\ (forall x, In x (getVersesByBook st b (Some c))
                <-> In x (JSMap.values (verses st))
                    /\ BibleVerse.book x = b /\ BibleVerse.chapter x = c)
  /\ (forall v x, getVerse st b c v = Some x
                  <-> In x (getVersesByBook st b (Some c))
                      /\ BibleVerse.verse x = v).
Proof.
  intros Hr Hc. apply InvariantFacts.reachable_invariant in Hr as Hinv.
  split; [|split].
  - rewrite (ListingFacts.getVersesByBook_filter st b c Hc).
    apply ListingFacts.sorted_strict; [apply SortFacts.sort_sorted|].
    eapply Permutation_NoDup.
    + apply Permutation_map. apply Permutation_sym. apply SortFacts.sort_perm.
    + apply (LoaderFacts.NoDup_map_transfer triple).
      * apply ListingFacts.selection_keys_distinct.
        now apply VerseFacts.triples_NoDup.
      * intros x y Hx Hy Hv.
        apply filter_In in Hx as [_ Hx]. apply filter_In in Hy as [_ Hy].
        apply andb_true_iff in Hx as [Bx Cx]. apply andb_true_iff in Hy as [By Cy].
        apply String.eqb_eq in Bx, By. apply Z.eqb_eq in Cx, Cy.
        unfold triple. congruence.
  - intros x. now apply ListingFacts.listing_In.
  - intros v x. rewrite (VerseFacts.getVerse_Some st b c v x Hinv).
    rewrite (ListingFacts.listing_In st b c x Hc). unfold triple. split.
    + intros [Hin Ht]. inversion Ht; subst. auto.
    + intros [(Hin & -> & ->) ->]. auto.
Qed.

Lemma X20_chapter_listing_witness :
  StronglySorted (fun x y => BibleVerse.verse x < BibleVerse.verse y)
    (getVersesByBook (newMemStorage None) "John" (Some 3))
  /\ (forall x, In x (getVersesByBook (newMemStorage None) "John" (Some 3))
                <-> In x (JSMap.values (verses (newMemStorage None)))
                    /\ BibleVerse.book x = "John" /\ BibleVerse.chapter x = 3)
  /\ (forall v x, getVerse (newMemStorage None) "John" 3 v = Some x
                  <-> In x (getVersesByBook (newMemStorage None) "John" (Some 3))
                      /\ BibleVerse.verse x = v).
Proof.
  apply (X20_chapter_listing (newMemStorage None) "John" 3).
  - apply reachable_new.
  - discriminate.
Defined.

(* ================================================================== *)
(** ** The verse route *)

Module RouteFacts.
Import StringFacts KeyFacts MapFacts.

Example parseIntAuto_plain : parseIntAuto "16" = Some 16.
Proof. reflexivity. Qed.

Example parseIntAuto_tail : parseIntAuto " 3abc" = Some 3.
Proof. reflexivity. Qed.

Example parseIntAuto_hex : parseIntAuto "0x10" = Some 16.
Proof. reflexivity. Qed.

Example parseIntAuto_nan : parseIntAuto "three" = None.
Proof. reflexivity. Qed.

Lemma string_of_uint_first (d : Decimal.uint) (s : string) :
  NilEmpty.string_of_uint d = String "N" s -> False.
Proof. destruct d; simpl; discriminate. Qed.

Lemma toString_not_NaN (n : Z) : toString n <> "NaN".
Proof.
  unfold toString. destruct (Z.to_int n) as [d|d]; simpl.
  - intros H. now apply string_of_uint_first in H.
  - discriminate.
Qed.

Lemma numToString_notColon (n : option Z) :
  JSString.forallb notColon (numToString n) = true.
Proof. destruct n; [apply toString_notColon | reflexivity]. Qed.

(** The key of a lookup is the key of a stored verse only when both
    numbers are numbers. *)
Lemma numKey_inj (b b' : string) (c v : option Z) (c' v' : Z) :
  b ++ ":" ++ numToString c ++ ":" ++ numToString v = verseKey b' c' v' ->
  b = b' /\ c = Some c' /\ v = Some v'.
Proof.
  unfold verseKey. intros E.
  assert (E' : (b ++ ":" ++ numToString c) ++ ":" ++ numToString v
               = (b' ++ ":" ++ toString c') ++ ":" ++ toString v')
    by (rewrite !append_assoc; exact E).
  apply last_colon_unique in E' as [E1 Ev];
    auto using toString_notColon, numToString_notColon.
  apply last_colon_unique in E1 as [Eb Ec];
    auto using toString_notColon, numToString_notColon.
  split; [exact Eb|]. split.
  - destruct c as [c|]; simpl in Ec.
    + now rewrite (toString_inj _ _ Ec).
    + symmetry in Ec. now apply toString_not_NaN in Ec.
  - destruct v as [v|]; simpl in Ev.
    + now rewrite (toString_inj _ _ Ev).
    + symmetry in Ev. now apply toString_not_NaN in Ev.
Qed.

Lemma getVerseNum_Some (st : MemStorage) (b : string) (c v : option Z)
      (x : BibleVerse.t) :
  invariant st ->
  (getVerseNum st b c v = Some x
   <-> exists c' v', c = Some c' /\ v = Some v'
                     /\ In x (JSMap.values (verses st))
                     /\ triple x = (b, c', v')).
Proof.
  intros Hinv. split.
  - intros H. pose proof (inv_verses _ Hinv) as Hk. unfold getVerseNum in H.
    pose proof H as Hget.
    apply (get_In String.eqb String.eqb_eq) in H; [|apply Hk].
    pose proof (VerseFacts.keyedBy_In _ _ _ _ Hk H) as Ekey.
    unfold tripleKey in Ekey. apply numKey_inj in Ekey as (Eb & -> & ->).
    exists (BibleVerse.chapter x), (BibleVerse.verse x).
    repeat split.
    + apply VerseFacts.In_values. eauto.
    + unfold triple. now rewrite Eb.
  - intros (c' & v' & -> & -> & Hin & Ht).
    change (getVerseNum st b (Some c') (Some v')) with (getVerse st b c' v').
    now apply VerseFacts.getVerse_Some.
Qed.

End RouteFacts.

(** X21. In every store [GET /api/verses/:book/:chapter/:verse] answers
    200 with a verse exactly when both path parameters parse to numbers
    (leading blanks, a sign, a [0x] prefix and any tail after the digits
    are accepted) and that verse is the stored one of the book and these
    numbers; in every other case, so whenever a parameter starts with no
    digit, it answers 404. *)
Theorem X21_verse_route (st : MemStorage) (book chapter verse : string) :
  reachable st ->
  (forall x, verseRoute st book chapter verse = (200, JVerse x)
             <-> exists c v, parseIntAuto chapter = Some c
                             /\ parseIntAuto verse = Some v
                             /\ In x (JSMap.values (verses st))
                             /\ triple x = (book, c, v))
  /\ (verseRoute st book chapter verse = (404, JMessage "Verse not found")
      <-> ~ exists x c v, parseIntAuto chapter = Some c
                          /\ parseIntAuto verse = Some v
                          /\ In x (JSMap.values (verses st))
                          /\ triple x = (book, c, v)).
Proof.
  intros Hr. apply InvariantFacts.reachable_invariant in Hr as Hinv.
  unfold verseRoute.
  destruct (getVerseNum st book (parseIntAuto chapter) (parseIntAuto verse))
    as [y|] eqn:Hget.
  - apply (RouteFacts.getVerseNum_Some st _ _ _ _ Hinv) in Hget as Hy.
    split.
    + intros x. split.
      * intros E. inversion E; subst. exact Hy.
      * intros Hx. apply (RouteFacts.getVerseNum_Some st _ _ _ _ Hinv) in Hx.
        congruence.
    + split; [discriminate|]. intros Hn. exfalso. apply Hn.
      destruct Hy as (c & v & Hy). now exists y, c, v.
  - split.
    + intros x. split; [discriminate|].
      intros Hx. apply (RouteFacts.getVerseNum_Some st _ _ _ _ Hinv) in Hx.
      congruence.
    + split; [|reflexivity]. intros _ (x & c & v & Hx).
      assert (getVerseNum st book (parseIntAuto chapter) (parseIntAuto verse)
              = Some x)
        by (apply (RouteFacts.getVerseNum_Some st _ _ _ _ Hinv); eauto).
      congruence.
Qed.

Lemma X21_verse_route_witness :
  (forall x, verseRoute (newMemStorage None) "John" " 3abc" "0x10"
             = (200, JVerse x)
             <-> exists c v, parseIntAuto " 3abc" = Some c
                             /\ parseIntAuto "0x10" = Some v
                             /\ In x (JSMap.values (verses (newMemStorage None)))
                             /\ triple x = ("John", c, v))
  /\ (verseRoute (newMemStorage None) "John" " 3abc" "0x10"
      = (404, JMessage "Verse not found")
      <-> ~ exists x c v, parseIntAuto " 3abc" = Some c
                          /\ parseIntAuto "0x10" = Some v
                          /\ In x (JSMap.values (verses (newMemStorage None)))
                          /\ triple x = ("John", c, v)).
Proof.
  apply (X21_verse_route (newMemStorage None) "John" " 3abc" "0x10").
  apply reachable_new.
Defined.
